(** * Driver and system update orchestration: a shallow embedding

    The development embeds the Windows driver updater (checkDriverUpdates,
    updateDrivers, createRestorePoint, checkWindowsUpdate and the
    PowerShell scripts they generate), the other form of that file, whose
    updateDrivers installs without selection, and the system updater
    (checkSystemUpdates and installSystemUpdates with their macOS and
    Windows halves, and parseUpdateList), and proves properties of them.

    Modelling choices, all visible in the definitions below:
    - Numbers that the code prints or compares are [N], [nat] or [Z].
    - An async function is a computation in the monad [M]: it threads a
      [Store] (event trace, temporary files, the mutable [results] object)
      and ends in [Return v] (the promise resolves) or [Throw msg] (an
      [Error] with that message is thrown, the promise rejects).
    - JavaScript strings are byte strings; on text in ASCII the white
      space and line terminator classes below are those of JavaScript,
      and statements that depend on them say where the text is ASCII.
    - Everything outside the process is supplied by a [Host]: the platform
      tag, the environment, the clock, how the process of a command line
      ends ([run_process]), whether [fs.writeFile] and [fs.unlink]
      succeed, and [JSON.parse]. The answer of [execPromise] follows from
      the end of the process by the rule of Node's [exec]: it resolves for
      exit status 0 only. What the install script does, its exit status
      included, is given by [InstallScript.run].
    - A progress callback is an optional function that may itself throw
      an [Error]. *)

From Stdlib Require Import ZArith NArith Ascii String DecimalString List Bool Lia.
From Stdlib Require DecimalN DecimalPos.
From stdpp Require Import strings gmap.
Import ListNotations.

Local Open Scope list_scope.
Local Open Scope string_scope.

(** ** JavaScript string operations used by the updaters *)

Module JsString.

Definition dq : string := String (ascii_of_nat 34) EmptyString.
Definition nl : string := String (ascii_of_nat 10) EmptyString.
Definition backslash : string := String (ascii_of_nat 92) EmptyString.

(** [`"${s}"`] *)
Definition quoted (s : string) : string := dq ++ s ++ dq.

(** [String(n)] for a non-negative integer. *)
Definition dec (n : N) : string := NilEmpty.string_of_uint (N.to_uint n).

(** [lines.join('\n')] *)
Definition unlines (ls : list string) : string := String.concat nl ls.

(** [xs.join(sep)] *)
Definition join (sep : string) (xs : list string) : string := String.concat sep xs.

(** [s.includes(needle)] *)
Fixpoint includes (s needle : string) : bool :=
  String.prefix needle s ||
  match s with
  | EmptyString => false
  | String _ rest => includes rest needle
  end.

(** White space removed by [trim]: TAB, LF, VT, FF, CR and SPACE, the
    white space and line terminators below U+0080 (the others are
    several bytes long and are left in place). *)
Definition is_space (c : ascii) : bool :=
  let n := nat_of_ascii c in
  ((9 <=? n)%nat && (n <=? 13)%nat) || (n =? 32)%nat.

Fixpoint trimStart (s : string) : string :=
  match s with
  | String c rest => if is_space c then trimStart rest else s
  | EmptyString => EmptyString
  end.

Fixpoint trimEnd (s : string) : string :=
  match s with
  | EmptyString => EmptyString
  | String c rest =>
      match trimEnd rest with
      | EmptyString => if is_space c then EmptyString else String c EmptyString
      | rest' => String c rest'
      end
  end.

(** [s.trim()] *)
Definition trim (s : string) : string := trimEnd (trimStart s).

(** [s.replace(/"/g, '\\"')]: every double quote gets a backslash. *)
Fixpoint escape_dquotes (s : string) : string :=
  match s with
  | EmptyString => EmptyString
  | String c rest =>
      if Ascii.eqb c (ascii_of_nat 34)
      then backslash ++ String c (escape_dquotes rest)
      else String c (escape_dquotes rest)
  end.

(** [s.replace(/\n/g, ' ')] *)
Fixpoint newlines_to_spaces (s : string) : string :=
  match s with
  | EmptyString => EmptyString
  | String c rest =>
      String (if Ascii.eqb c (ascii_of_nat 10) then ascii_of_nat 32 else c)
             (newlines_to_spaces rest)
  end.

(** Truthiness of a string: [if (s)], [s || t]. *)
Definition truthy (s : string) : bool := negb (String.eqb s EmptyString).

Definition or_else (s t : string) : string := if truthy s then s else t.

(** ASCII case folding, as used by PowerShell's case-insensitive string
    comparison on identifiers made of ASCII characters. *)
Definition lower (c : ascii) : ascii :=
  let n := nat_of_ascii c in
  if ((65 <=? n)%nat && (n <=? 90)%nat) then ascii_of_nat (n + 32) else c.

Fixpoint ieqb (s t : string) : bool :=
  match s, t with
  | EmptyString, EmptyString => true
  | String a s', String b t' => Ascii.eqb (lower a) (lower b) && ieqb s' t'
  | _, _ => false
  end.

(** [s.split(sep)] for a separator of one character: the pieces between
    the separators, the empty pieces included. *)
Fixpoint split (sep : ascii) (s : string) : list string :=
  match s with
  | EmptyString => [EmptyString]
  | String c rest =>
      if Ascii.eqb c sep then EmptyString :: split sep rest
      else match split sep rest with
           | piece :: pieces => String c piece :: pieces
           | [] => [String c EmptyString]
           end
  end.

(** [s.startsWith(p)] *)
Definition startsWith (s p : string) : bool := String.prefix p s.

End JsString.
Import JsString.

(** ** JSON values, as far as the updaters look at them *)

#[local] Set Warnings "-register-all".

Inductive JSON : Type :=
| JNull
| JBool (b : bool)
| JNum (n : Z)
| JStr (s : string)
| JArr (items : list JSON)
| JObj (fields : list (string * JSON)).

(** [Array.isArray(parsed) ? parsed : [parsed]] *)
Definition as_array (parsed : JSON) : list JSON :=
  match parsed with
  | JArr items => items
  | other => [other]
  end.

(** ** Effects: events, the store and the monad *)

Record ProgressEvent : Type := {
  status : string;
  current : option nat;
  total : option nat;
  progress : option nat
}.

Inductive LogLevel : Type := Log | Warn | Err.

Inductive Event : Type :=
| Progress (ev : ProgressEvent)          (* the callback was invoked        *)
| Exec (command : string) (timeout : option N) (* an external process was started *)
| WriteFile (path data : string)         (* fs.writeFile was called         *)
| Unlink (path : string)                 (* fs.unlink was called            *)
| Console (level : LogLevel) (text : string).

(** The [results] object of updateDrivers: one mutable object, written in
    the [try] block and again in the [catch] block. *)
Record Results : Type := {
  updated : list string;
  failed : list string;
  rebootRequired : bool
}.

Record Store : Type := {
  trace : list Event;
  files : gmap string string;
  results : Results
}.

Definition is_exec (e : Event) : bool :=
  match e with Exec _ _ => true | _ => false end.

(** The external processes started during a run, in order. *)
Definition processes (s : Store) : list Event := List.filter is_exec (trace s).

Inductive Outcome (A : Type) : Type :=
| Return (value : A)
| Throw (message : string).
Arguments Return {A} value.
Arguments Throw {A} message.

Definition M (A : Type) : Type := Store -> Outcome A * Store.

Definition ret {A} (a : A) : M A := fun s => (Return a, s).

Definition throw {A} (message : string) : M A := fun s => (Throw message, s).

Definition bind {A B} (c : M A) (k : A -> M B) : M B :=
  fun s =>
    match c s with
    | (Return a, s') => k a s'
    | (Throw e, s') => (Throw e, s')
    end.

(** [try { body } catch (error) { handler }]: the handler runs in the store
    the body left behind. *)
Definition try_catch {A} (body : M A) (handler : string -> M A) : M A :=
  fun s =>
    match body s with
    | (Return a, s') => (Return a, s')
    | (Throw e, s') => handler e s'
    end.

Declare Scope js_scope.
Delimit Scope js_scope with js.
Notation "x <- c ;; k" := (bind c (fun x => k))
  (at level 100, c at next level, right associativity) : js_scope.
Notation "c ;; k" := (bind c (fun _ => k))
  (at level 100, right associativity) : js_scope.
Local Open Scope js_scope.

Definition emit (e : Event) : M unit :=
  fun s => (Return tt, {| trace := (trace s ++ [e])%list; files := files s; results := results s |}).

Definition console (level : LogLevel) (text : string) : M unit :=
  emit (Console level text).

Definition get_results : M Results := fun s => (Return (results s), s).

Definition set_results (r : Results) : M unit :=
  fun s => (Return tt, {| trace := trace s; files := files s; results := r |}).

Definition set_files (f : gmap string string) : M unit :=
  fun s => (Return tt, {| trace := trace s; files := f; results := results s |}).

Definition get_files : M (gmap string string) := fun s => (Return (files s), s).

Definition when (b : bool) (c : M unit) : M unit := if b then c else ret tt.

Definition empty_results : Results :=
  {| updated := []; failed := []; rebootRequired := false |}.

Definition initial : Store :=
  {| trace := []; files := ∅; results := empty_results |}.

(** A progress callback: absent, or a function that returns normally
    ([None]) or throws an [Error] with the given message. A callback that
    throws a value which is not an [Error] with a message ([null], a
    string) is outside the model: the [catch] blocks read
    [error.message], so such a value would leave them as a [TypeError].
    Statements about callbacks that throw are statements about callbacks
    that throw an [Error]. *)
Definition Callback : Type := option (ProgressEvent -> option string).

(** [if (progressCallback) { progressCallback(ev) }] *)
Definition notify (progressCallback : Callback) (ev : ProgressEvent) : M unit :=
  match progressCallback with
  | None => ret tt
  | Some f =>
      emit (Progress ev) ;;
      match f ev with
      | None => ret tt
      | Some message => throw message
      end
  end.

(** A callback that returns normally on every event. *)
Definition quiet (progressCallback : Callback) : Prop :=
  forall f ev, progressCallback = Some f -> f ev = None.

(** ** The host *)

(** How a child process started by [exec] ends: it exits with a status,
    it is killed (at the timeout), or [exec] fails otherwise, with an
    [Error] of the given message (the process cannot be spawned, the
    output exceeds [maxBuffer]). *)
Inductive Process : Type :=
| Exited (code : Z) (stdout stderr : string)
| Killed (stdout stderr : string)
| Failed (message : string).

(** What [await execPromise(command, options)] does: it resolves with the
    captured output, or it rejects with an [Error]. *)
Inductive ExecAnswer : Type :=
| Resolved (stdout stderr : string)
| Rejected (message : string).

(** The object the install script prints with [ConvertTo-Json -Compress],
    as [JSON.parse] returns it: [ResultCode] is the integer result code,
    [RebootRequired] the boolean flag; a field is [None] when it is absent
    or [null]. *)
Record InstallResult : Type := {
  ResultCode : option Z;
  RebootRequired : option bool
}.

Record Host : Type := {
  platform : string;                               (* process.platform / os.platform() *)
  env_TEMP : option string;                        (* process.env.TEMP *)
  Date_now : N;                                    (* Date.now() *)
  path_join : string -> string -> string;          (* path.join *)
  run_process : string -> Process;                 (* what a command line does *)
  writeFile_answer : string -> string -> option string;  (* Some m: rejects with m *)
  unlink_answer : string -> option string;               (* Some m: rejects with m *)
  JSON_parse : string -> string + JSON;                  (* inl m: SyntaxError m *)
  JSON_parse_result : string -> string + InstallResult   (* JSON.parse of the result line *)
}.

(** ** The regular expression [/\{.*"ResultCode".*\}/]

    A dot does not cross a line terminator (LF and CR here), so a match
    lies within one line: it starts at the first opening brace of the line and, the stars
    being greedy, ends at the last closing brace, provided the quoted word
    occurs after the opening brace with a closing brace after it. The
    first line that has a match gives the result of [stdout.match]. *)

Module ResultRegex.

Definition is_newline (c : ascii) : bool :=
  Ascii.eqb c (ascii_of_nat 10) || Ascii.eqb c (ascii_of_nat 13).

(** The lines of [s]; [acc] is the line being read, reversed. *)
Fixpoint split_lines (acc : string) (s : string) : list string :=
  match s with
  | EmptyString => [acc]
  | String c rest =>
      if is_newline c then acc :: split_lines EmptyString rest
      else split_lines (acc ++ String c EmptyString) rest
  end.

(** The suffix of [s] that starts at the first [c]. *)
Fixpoint from_first (c : ascii) (s : string) : option string :=
  match s with
  | EmptyString => None
  | String d rest => if Ascii.eqb c d then Some s else from_first c rest
  end.

Fixpoint drop (n : nat) (s : string) : string :=
  match n, s with
  | O, _ => s
  | S n', String _ rest => drop n' rest
  | S _, EmptyString => EmptyString
  end.

(** The suffix of [s] after the first occurrence of [needle]. *)
Fixpoint after_sub (needle s : string) : option string :=
  if String.prefix needle s then Some (drop (String.length needle) s)
  else match s with
       | EmptyString => None
       | String _ rest => after_sub needle rest
       end.

(** The prefix of [s] that ends at the last [c]. *)
Fixpoint upto_last (c : ascii) (s : string) : option string :=
  match s with
  | EmptyString => None
  | String d rest =>
      match upto_last c rest with
      | Some p => Some (String d p)
      | None => if Ascii.eqb c d then Some (String d EmptyString) else None
      end
  end.

Definition open_brace : ascii := ascii_of_nat 123.
Definition close_brace : ascii := ascii_of_nat 125.

Definition match_line (line : string) : option string :=
  match from_first open_brace line with
  | Some body =>
      match after_sub (quoted "ResultCode") (drop 1 body) with
      | Some rest =>
          match from_first close_brace rest with
          | Some _ => upto_last close_brace body
          | None => None
          end
      | None => None
      end
  | None => None
  end.

Fixpoint first_match (lines : list string) : option string :=
  match lines with
  | [] => None
  | l :: rest =>
      match match_line l with
      | Some m => Some m
      | None => first_match rest
      end
  end.

(** [stdout.match(/\{.*"ResultCode".*\}/)], the matched text. *)
Definition match_result (stdout : string) : option string :=
  first_match (split_lines EmptyString stdout).

End ResultRegex.

(** ** Patterns made of character classes

    A pattern is a sequence of items: one character of a class, or one or
    more characters of a class, as many as possible (a greedy plus that
    gives characters back when the rest of the pattern does not match).
    [match_here] matches the pattern at the start of a text and returns
    the text each item has matched; [search] finds the leftmost position
    at which the pattern matches, as [String.prototype.match] does for a
    pattern without flags. *)

Module Regex.

Inductive Item : Type :=
| One (class : ascii -> bool)
| Many (class : ascii -> bool).

Fixpoint match_here (items : list Item) (s : string) : option (list string) :=
  match items with
  | [] => Some []
  | One class :: rest =>
      match s with
      | String c s' =>
          if class c
          then option_map (cons (String c EmptyString)) (match_here rest s')
          else None
      | EmptyString => None
      end
  | Many class :: rest =>
      (fix many (s : string) : option (list string) :=
         match s with
         | String c s' =>
             if class c
             then match many s' with
                  | Some (m :: ms) => Some (String c m :: ms)
                  | _ => option_map (cons (String c EmptyString)) (match_here rest s')
                  end
             else None
         | EmptyString => None
         end) s
  end.

Fixpoint search (items : list Item) (s : string) : option (list string) :=
  match match_here items s with
  | Some texts => Some texts
  | None =>
      match s with
      | String _ rest => search items rest
      | EmptyString => None
      end
  end.

(** The class [\s] below U+0080 and the class of the dot (everything but
    a line terminator). *)
Definition space : ascii -> bool := is_space.

Definition dot (c : ascii) : bool := negb (ResultRegex.is_newline c).

Definition char (c : ascii) : ascii -> bool := Ascii.eqb c.

End Regex.

(** ** Host calls as computations *)

(** The promisified [exec] of Node: the promise resolves when the process
    exits with status 0 and in no other case. For any other exit status,
    and for a process that was killed, it rejects with the [Error] whose
    message is [`Command failed: ${cmd}\n${stderr}`]. *)
Definition execPromise_answer (host : Host) (command : string) : ExecAnswer :=
  match run_process host command with
  | Exited 0 stdout stderr => Resolved stdout stderr
  | Exited _ _ stderr => Rejected ("Command failed: " ++ command ++ nl ++ stderr)
  | Killed _ stderr => Rejected ("Command failed: " ++ command ++ nl ++ stderr)
  | Failed message => Rejected message
  end.

(** [await execPromise(command, { timeout })] *)
Definition execPromise (host : Host) (command : string) (timeout : option N)
  : M (string * string) :=
  emit (Exec command timeout) ;;
  match execPromise_answer host command with
  | Resolved stdout stderr => ret (stdout, stderr)
  | Rejected message => throw message
  end.

(** [await fs.writeFile(path, data, 'utf8')] *)
Definition writeFile (host : Host) (path data : string) : M unit :=
  emit (WriteFile path data) ;;
  match writeFile_answer host path data with
  | None => f <- get_files ;; set_files (<[path := data]> f)
  | Some message => throw message
  end.

(** [await fs.unlink(path)] *)
Definition unlink (host : Host) (path : string) : M unit :=
  emit (Unlink path) ;;
  match unlink_answer host path with
  | None => f <- get_files ;; set_files (delete path f)
  | Some message => throw message
  end.

Definition is_win32 (host : Host) : bool := String.eqb (platform host) "win32".

(** ** The driver updater

    checkDriverUpdates, updateDrivers and createRestorePoint, with the
    PowerShell texts they hand to the shell. Console lines are rendered
    by joining the arguments of the call with a space, an [Error] by its
    message. *)

Module DriverUpdater.

(** [RESULT_CODES[resultCode] || 'Unknown'] for an integer code. *)
Definition RESULT_CODES (code : Z) : option string :=
  match code with
  | 0%Z => Some "Not Started"
  | 1%Z => Some "In Progress"
  | 2%Z => Some "Succeeded"
  | 3%Z => Some "Succeeded with Errors"
  | 4%Z => Some "Failed"
  | 5%Z => Some "Aborted"
  | _ => None
  end.

Definition resultText_of (code : Z) : string :=
  match RESULT_CODES code with
  | Some text => text
  | None => "Unknown"
  end.

(** The detection script of checkDriverUpdates, line by line. *)
Definition checkScript_lines : list string :=
  [ "      $Session = New-Object -ComObject Microsoft.Update.Session";
    "      $Searcher = $Session.CreateUpdateSearcher()";
    "      $Searcher.Online = $true";
    EmptyString;
    "      Write-Host " ++ dq ++ "Searching for driver updates..." ++ dq;
    "      $SearchResult = $Searcher.Search(" ++ dq ++ "Type='Driver' and IsInstalled=0" ++ dq ++ ")";
    EmptyString;
    "      $Updates = @()";
    "      foreach ($Update in $SearchResult.Updates) {";
    "        $UpdateInfo = @{";
    "          Title = $Update.Title";
    "          Description = $Update.Description";
    "          DriverClass = $Update.DriverClass";
    "          DriverManufacturer = $Update.DriverManufacturer";
    "          DriverModel = $Update.DriverModel";
    "          DriverProvider = $Update.DriverProvider";
    "          DriverVerDate = $Update.DriverVerDate";
    "          IsDownloaded = $Update.IsDownloaded";
    "          RebootRequired = $Update.RebootRequired";
    "          UpdateID = $Update.Identity.UpdateID";
    "        }";
    "        $Updates += $UpdateInfo";
    "      }";
    EmptyString;
    "      $Updates | ConvertTo-Json" ].

Definition checkScript : string :=
  nl ++ unlines checkScript_lines ++ nl ++ "    ".

(** The install script of updateDrivers from the line after the target array on. *)
Definition installScript_tail : list string :=
  [ "$ErrorActionPreference = " ++ dq ++ "Stop" ++ dq;
    EmptyString;
    "try {";
    "    Write-Host " ++ dq ++ "=== Starting Driver Update Process ===" ++ dq;
    "    Write-Host " ++ dq ++ "Target Drivers: $($TargetDriverIDs.Count)" ++ dq;
    EmptyString;
    "    $Session = New-Object -ComObject Microsoft.Update.Session";
    "    $Searcher = $Session.CreateUpdateSearcher()";
    "    $SearchResult = $Searcher.Search(" ++ dq ++ "Type='Driver' and IsInstalled=0" ++ dq ++ ")";
    EmptyString;
    "    Write-Host " ++ dq ++ "Found $($SearchResult.Updates.Count) available driver updates" ++ dq;
    EmptyString;
    "    $UpdatesToInstall = New-Object -ComObject Microsoft.Update.UpdateColl";
    "    $SelectedDrivers = @()";
    EmptyString;
    "    # Filter to install ONLY the selected drivers";
    "    foreach ($Update in $SearchResult.Updates) {";
    "        $UpdateID = $Update.Identity.UpdateID";
    "        if ($TargetDriverIDs -contains $UpdateID) {";
    "            $UpdatesToInstall.Add($Update) | Out-Null";
    "            $SelectedDrivers += $Update.Title";
    "            Write-Host " ++ dq ++ "Selected: $($Update.Title)" ++ dq;
    "        }";
    "    }";
    EmptyString;
    "    if ($UpdatesToInstall.Count -eq 0) {";
    "        Write-Host " ++ dq ++ "ERROR: None of the selected drivers were found in available updates" ++ dq;
    "        exit 4";
    "    }";
    EmptyString;
    "    Write-Host " ++ dq ++ "=== Downloading $($UpdatesToInstall.Count) driver update(s) ===" ++ dq;
    "    $Downloader = $Session.CreateUpdateDownloader()";
    "    $Downloader.Updates = $UpdatesToInstall";
    "    $DownloadResult = $Downloader.Download()";
    EmptyString;
    "    Write-Host " ++ dq ++ "Download Result Code: $($DownloadResult.ResultCode)" ++ dq;
    EmptyString;
    "    if ($DownloadResult.ResultCode -ne 2) {";
    "        Write-Host " ++ dq ++ "ERROR: Download failed with code $($DownloadResult.ResultCode)" ++ dq;
    "        exit 4";
    "    }";
    EmptyString;
    "    Write-Host " ++ dq ++ "=== Installing driver updates ===" ++ dq;
    "    $Installer = $Session.CreateUpdateInstaller()";
    "    $Installer.Updates = $UpdatesToInstall";
    "    $InstallResult = $Installer.Install()";
    EmptyString;
    "    Write-Host " ++ dq ++ "Installation Result Code: $($InstallResult.ResultCode)" ++ dq;
    "    Write-Host " ++ dq ++ "Reboot Required: $($InstallResult.RebootRequired)" ++ dq;
    EmptyString;
    "    # Output structured data";
    "    $Result = @{";
    "        ResultCode = $InstallResult.ResultCode";
    "        ResultText = switch ($InstallResult.ResultCode) {";
    "            0 { " ++ dq ++ "Not Started" ++ dq ++ " }";
    "            1 { " ++ dq ++ "In Progress" ++ dq ++ " }";
    "            2 { " ++ dq ++ "Succeeded" ++ dq ++ " }";
    "            3 { " ++ dq ++ "Succeeded with Errors" ++ dq ++ " }";
    "            4 { " ++ dq ++ "Failed" ++ dq ++ " }";
    "            5 { " ++ dq ++ "Aborted" ++ dq ++ " }";
    "            default { " ++ dq ++ "Unknown" ++ dq ++ " }";
    "        }";
    "        RebootRequired = $InstallResult.RebootRequired";
    "        UpdatedDrivers = $SelectedDrivers";
    "        UpdateCount = $UpdatesToInstall.Count";
    "    }";
    EmptyString;
    "    $Result | ConvertTo-Json -Compress";
    EmptyString;
    "    exit $InstallResult.ResultCode";
    EmptyString;
    "} catch {";
    "    Write-Host " ++ dq ++ "ERROR: $($_.Exception.Message)" ++ dq;
    "    exit 4";
    "}" ].

(** [driverIds.map(id => `"${id}"`).join(',')] *)
Definition driverIdsFilter (driverIds : list string) : string :=
  join "," (map quoted driverIds).

(** The install script: the template literal with the filter substituted. *)
Definition installScript (driverIds : list string) : string :=
  nl ++ "# Script to install selected driver updates" ++ nl ++
  "$TargetDriverIDs = @(" ++ driverIdsFilter driverIds ++ ")" ++ nl ++
  unlines installScript_tail ++ nl.

(** The restore-point script of createRestorePoint. *)
Definition restoreScript (description : string) : string :=
  nl ++ unlines
  [ "    try {";
    "      Checkpoint-Computer -Description " ++ dq ++ description ++ dq ++ " -RestorePointType MODIFY_SETTINGS -ErrorAction Stop";
    "      Write-Host " ++ dq ++ "SUCCESS" ++ dq;
    "    } catch {";
    "      Write-Host " ++ dq ++ "FAILED: $($_.Exception.Message)" ++ dq;
    "      exit 1";
    "    }" ] ++ nl ++ "  ".

(** What checkDriverUpdates returns: [{success: true, driversFound,
    drivers, message}] or [{success: false, error, drivers: []}]. *)
Inductive CheckResult : Type :=
| CheckOk (driversFound : nat) (drivers : list JSON) (message : string)
| CheckFailed (error : string) (drivers : list JSON).

(** What updateDrivers returns: [{success, data, message, resultCode,
    resultText}] after interpreting a result code, or [{success: false,
    error, data}]. *)
Inductive UpdateResult : Type :=
| Report (success : bool) (data : Results) (message : string)
         (resultCode : Z) (resultText : string)
| Failure (error : string) (data : Results).

Definition success_of (r : UpdateResult) : bool :=
  match r with
  | Report success _ _ _ _ => success
  | Failure _ _ => false
  end.

Definition data_of (r : UpdateResult) : Results :=
  match r with
  | Report _ data _ _ _ => data
  | Failure _ data => data
  end.

(** What checkWindowsUpdate returns: [{available, reason}]. *)
Record ServiceStatus : Type := {
  available : bool;
  reason : string
}.

Section WithHost.

Variable host : Host.

(** [process.env.TEMP || '/tmp'] *)
Definition temp_dir : string :=
  match env_TEMP host with
  | Some t => or_else t "/tmp"
  | None => "/tmp"
  end.

Definition scriptPath : string :=
  path_join host temp_dir ("driver-update-" ++ dec (Date_now host) ++ ".ps1").

Definition restoreCommand (description : string) : string :=
  "powershell -ExecutionPolicy Bypass -Command "
  ++ quoted (escape_dquotes (restoreScript description)).

Definition checkCommand : string :=
  "powershell -ExecutionPolicy Bypass -Command "
  ++ quoted (escape_dquotes checkScript).

Definition installCommand : string :=
  "powershell -ExecutionPolicy Bypass -File " ++ quoted scriptPath.

Definition createRestorePoint (description : string) : M unit :=
  if negb (is_win32 host)
  then throw "System restore points are only available on Windows"
  else
    try_catch
      (out <- execPromise host (restoreCommand description) (Some 30000%N) ;;
       if negb (includes (fst out) "SUCCESS")
       then throw "Failed to create restore point"
       else ret tt)
      (fun error => throw ("Could not create restore point: " ++ error)).

(** The inner [try] of checkDriverUpdates: the driver list read from the
    output of the detection script. *)
Definition parse_drivers (stdout : string) : M (list JSON) :=
  try_catch
    (let jsonOutput := trim stdout in
     if truthy jsonOutput && negb (String.eqb jsonOutput "null")
     then match JSON_parse host jsonOutput with
          | inr parsed => ret (as_array parsed)
          | inl syntaxError => throw syntaxError
          end
     else ret [])
    (fun parseError =>
       console Err ("Failed to parse driver list: " ++ parseError) ;;
       ret []).

Definition checkDriverUpdates (progressCallback : Callback) : M CheckResult :=
  if negb (is_win32 host)
  then throw "Driver updates are only available on Windows"
  else
    notify progressCallback
      {| status := "Scanning for outdated drivers..."; current := None;
         total := None; progress := None |} ;;
    try_catch
      (out <- execPromise host checkCommand (Some 60000%N) ;;
       let stdout := fst out in
       let stderr := snd out in
       when (truthy stderr && negb (includes stderr "Searching"))
            (console Err ("PowerShell stderr: " ++ stderr)) ;;
       drivers <- parse_drivers stdout ;;
       ret (CheckOk (length drivers) drivers
              ("Found " ++ dec (N.of_nat (length drivers))
               ++ " driver update(s) available")))
      (fun error => ret (CheckFailed error [])).

(** The [try] around [stdout.match] and [JSON.parse]: [installResult],
    left undefined ([None]) when nothing matches or the text does not
    parse. *)
Definition parse_install_result (stdout : string) : M (option InstallResult) :=
  try_catch
    (match ResultRegex.match_result stdout with
     | Some jsonMatch =>
         match JSON_parse_result host jsonMatch with
         | inr installResult => ret (Some installResult)
         | inl syntaxError => throw syntaxError
         end
     | None => ret None
     end)
    (fun parseError =>
       console Warn ("[DRIVER_UPDATER] Failed to parse result JSON: " ++ parseError) ;;
       ret None).

(** [installResult?.ResultCode ?? 4] *)
Definition resultCode_of (installResult : option InstallResult) : Z :=
  match installResult with
  | Some r => match ResultCode r with Some code => code | None => 4%Z end
  | None => 4%Z
  end.

(** [resultCode === 2 || resultCode === 3] *)
Definition is_success (resultCode : Z) : bool :=
  Z.eqb resultCode 2 || Z.eqb resultCode 3.

(** [installResult?.RebootRequired || stdout.includes('Reboot Required: True')] *)
Definition reboot_of (installResult : option InstallResult) (stdout : string) : bool :=
  match installResult with
  | Some r => match RebootRequired r with Some flag => flag | None => false end
  | None => false
  end
  || includes stdout "Reboot Required: True".

Definition success_message (r : Results) : string :=
  "Successfully updated " ++ dec (N.of_nat (length (updated r))) ++ " driver(s). "
  ++ (if rebootRequired r
      then "Please restart your computer to complete the installation."
      else EmptyString).

Definition failure_message (resultText stderr : string) : string :=
  "Driver update failed: " ++ resultText ++ ". "
  ++ or_else stderr
       "Please check if Windows Update is enabled and you have administrator privileges.".

(** The checkpoints reported to the progress callback. *)
Definition checkpoint (text : string) (n : nat) (driverIds : list string) : ProgressEvent :=
  {| status := text; current := Some n;
     total := Some (length driverIds + 2)%nat; progress := None |}.

(** The inner [try] around createRestorePoint: a failure is logged and
    the run goes on. *)
Definition restore_point_stage : M unit :=
  try_catch
    (createRestorePoint "Before Driver Updates" ;;
     console Log "[DRIVER_UPDATER] System restore point created")
    (fun restoreError =>
       console Warn ("[DRIVER_UPDATER] Failed to create restore point: " ++ restoreError)).

(** The inner [try] around [fs.unlink]. *)
Definition cleanup_stage : M unit :=
  try_catch
    (unlink host scriptPath)
    (fun unlinkError =>
       console Warn ("[DRIVER_UPDATER] Failed to delete temp script: " ++ unlinkError)).

(** The body of the outer [try] of updateDrivers. *)
Definition install_try (driverIds : list string) (progressCallback : Callback)
  : M UpdateResult :=
  notify progressCallback
    (checkpoint "Creating system restore point..." 0 driverIds) ;;
  restore_point_stage ;;
  notify progressCallback
    (checkpoint "Preparing driver updates..." 1 driverIds) ;;
  writeFile host scriptPath (installScript driverIds) ;;
  console Log ("[DRIVER_UPDATER] PowerShell script written to: " ++ scriptPath) ;;
  notify progressCallback
    (checkpoint "Installing driver updates (this may take 10-30 minutes)..." 2 driverIds) ;;
  console Log "[DRIVER_UPDATER] Executing driver installation..." ;;
  out <- execPromise host installCommand (Some 1800000%N) ;;
  let stdout := fst out in
  let stderr := snd out in
  console Log ("[DRIVER_UPDATER] Installation output: " ++ stdout) ;;
  when (truthy stderr)
       (console Warn ("[DRIVER_UPDATER] Installation stderr: " ++ stderr)) ;;
  cleanup_stage ;;
  installResult <- parse_install_result stdout ;;
  let resultCode := resultCode_of installResult in
  let success := is_success resultCode in
  (r <- get_results ;;
   if success
   then set_results {| updated := driverIds; failed := failed r;
                       rebootRequired := reboot_of installResult stdout |}
   else set_results {| updated := updated r; failed := driverIds;
                       rebootRequired := rebootRequired r |}) ;;
  notify progressCallback
    (checkpoint (if success then "Driver updates completed" else "Driver update failed")
                (length driverIds + 2) driverIds) ;;
  let resultText := resultText_of resultCode in
  r <- get_results ;;
  ret (Report success r
         (if success then success_message r else failure_message resultText stderr)
         resultCode resultText).

(** The [catch] block of updateDrivers. *)
Definition install_catch (driverIds : list string) (error : string) : M UpdateResult :=
  console Err ("[DRIVER_UPDATER] Error: " ++ error) ;;
  r <- get_results ;;
  set_results {| updated := updated r; failed := driverIds;
                 rebootRequired := rebootRequired r |} ;;
  let errorMessage :=
    if includes error "timeout"
    then "Driver installation timed out. Large drivers may take longer. Please try again or install drivers individually."
    else if includes error "access" || includes error "permission"
    then "Permission denied. Please run the application as Administrator to install driver updates."
    else if includes error "Windows Update"
    then "Windows Update service is not available. Please enable it in Windows Services."
    else error in
  r <- get_results ;;
  ret (Failure errorMessage r).

(** [driverIds] is [None] when the caller passes [null] or [undefined]. *)
Definition updateDrivers (driverIds : option (list string)) (progressCallback : Callback)
  : M UpdateResult :=
  if negb (is_win32 host)
  then throw "Driver updates are only available on Windows"
  else
    match driverIds with
    | None | Some [] => ret (Failure "No driver IDs provided" empty_results)
    | Some ids =>
        set_results empty_results ;;
        try_catch (install_try ids progressCallback) (install_catch ids)
    end.

(** checkWindowsUpdate: is the Windows Update service running? *)
Definition checkWindowsUpdate : M ServiceStatus :=
  if negb (is_win32 host)
  then ret {| available := false; reason := "Not Windows" |}
  else
    try_catch
      (out <- execPromise host "sc query wuauserv" (Some 5000%N) ;;
       let isRunning := includes (fst out) "RUNNING" in
       ret {| available := isRunning;
              reason := if isRunning
                        then "Windows Update service is running"
                        else "Windows Update service is not running" |})
      (fun error =>
         ret {| available := false;
                reason := "Unable to check Windows Update service: " ++ error |}).

End WithHost.

End DriverUpdater.

(** ** What the install script does with the Windows Update Agent

    The script that updateDrivers writes is PowerShell; this module gives
    the meaning of its statements over an abstract agent.
    [TargetDriverIDs] is the value of the array literal
    [@("id1","id2",...)], which is the requested list itself when the ids
    are plain identifiers (no quote, dollar or backtick). *)

Module InstallScript.

Record Update : Type := {
  UpdateID : string;        (* $Update.Identity.UpdateID *)
  Title : string
}.

(** The COM calls of the script; [None] means the call throws. *)
Record Agent : Type := {
  Search : option (list Update);                 (* $Searcher.Search(...).Updates *)
  Download : list Update -> option Z;            (* $DownloadResult.ResultCode *)
  Install : list Update -> option (Z * bool)     (* ResultCode, RebootRequired *)
}.

(** [$TargetDriverIDs -contains $UpdateID]; PowerShell compares strings
    without regard to letter case. *)
Definition contains (TargetDriverIDs : list string) (id : string) : bool :=
  existsb (fun target => ieqb target id) TargetDriverIDs.

(** The [foreach] loop that fills [$UpdatesToInstall]. *)
Definition UpdatesToInstall (TargetDriverIDs : list string) (available : list Update)
  : list Update :=
  List.filter (fun u => contains TargetDriverIDs (UpdateID u)) available.

(** The collections handed to the downloader and to the installer. *)
Inductive Step : Type :=
| Downloading (target : list Update)
| Installing (target : list Update).

Definition target_of (s : Step) : list Update :=
  match s with
  | Downloading target => target
  | Installing target => target
  end.

(** The object the script pipes to [ConvertTo-Json -Compress]. *)
Record Printed : Type := {
  printed_ResultCode : Z;
  printed_ResultText : string;
  printed_RebootRequired : bool;
  printed_UpdatedDrivers : list string;   (* the titles of the target *)
  printed_UpdateCount : nat
}.

(** The [switch] of the script. *)
Definition ResultText (code : Z) : string :=
  match code with
  | 0%Z => "Not Started"
  | 1%Z => "In Progress"
  | 2%Z => "Succeeded"
  | 3%Z => "Succeeded with Errors"
  | 4%Z => "Failed"
  | 5%Z => "Aborted"
  | _ => "Unknown"
  end.

Record Run : Type := {
  steps : list Step;
  exit_status : Z;
  printed : option Printed
}.

Definition run (TargetDriverIDs : list string) (agent : Agent) : Run :=
  match Search agent with
  | None => {| steps := []; exit_status := 4; printed := None |}
  | Some available =>
      let target := UpdatesToInstall TargetDriverIDs available in
      if (length target =? 0)%nat
      then {| steps := []; exit_status := 4; printed := None |}
      else
        match Download agent target with
        | Some 2%Z =>
            match Install agent target with
            | Some (code, reboot) =>
                {| steps := [Downloading target; Installing target];
                   exit_status := code;
                   printed := Some {| printed_ResultCode := code;
                                      printed_ResultText := ResultText code;
                                      printed_RebootRequired := reboot;
                                      printed_UpdatedDrivers := map Title target;
                                      printed_UpdateCount := length target |} |}
            | None =>
                {| steps := [Downloading target; Installing target];
                   exit_status := 4; printed := None |}
            end
        | _ => {| steps := [Downloading target]; exit_status := 4; printed := None |}
        end
  end.

End InstallScript.

(** ** The driver updater without selection

    The other file that defines updateDrivers (209 lines): its
    checkDriverUpdates is the one above, its updateDrivers has no
    validation, no restore point and no filter. *)

Module DriverUpdaterAll.

(** The install script of this updateDrivers, line by line. *)
Definition installAllScript_lines : list string :=
  [ "      $Session = New-Object -ComObject Microsoft.Update.Session";
    "      $Searcher = $Session.CreateUpdateSearcher()";
    "      $SearchResult = $Searcher.Search(" ++ dq ++ "Type='Driver' and IsInstalled=0" ++ dq ++ ")";
    EmptyString;
    "      $UpdatesToInstall = New-Object -ComObject Microsoft.Update.UpdateColl";
    EmptyString;
    "      foreach ($Update in $SearchResult.Updates) {";
    "        $UpdatesToInstall.Add($Update) | Out-Null";
    "      }";
    EmptyString;
    "      if ($UpdatesToInstall.Count -eq 0) {";
    "        Write-Host " ++ dq ++ "No updates to install" ++ dq;
    "        exit 0";
    "      }";
    EmptyString;
    "      $Downloader = $Session.CreateUpdateDownloader()";
    "      $Downloader.Updates = $UpdatesToInstall";
    EmptyString;
    "      Write-Host " ++ dq ++ "Downloading updates..." ++ dq;
    "      $DownloadResult = $Downloader.Download()";
    EmptyString;
    "      if ($DownloadResult.ResultCode -eq 2) {";
    "        Write-Host " ++ dq ++ "Download completed" ++ dq;
    EmptyString;
    "        $Installer = $Session.CreateUpdateInstaller()";
    "        $Installer.Updates = $UpdatesToInstall";
    EmptyString;
    "        Write-Host " ++ dq ++ "Installing updates..." ++ dq;
    "        $InstallResult = $Installer.Install()";
    EmptyString;
    "        Write-Host " ++ dq ++ "Installation Result Code: $($InstallResult.ResultCode)" ++ dq;
    "        Write-Host " ++ dq ++ "Reboot Required: $($InstallResult.RebootRequired)" ++ dq;
    EmptyString;
    "        exit $InstallResult.ResultCode";
    "      } else {";
    "        Write-Host " ++ dq ++ "Download failed with code: $($DownloadResult.ResultCode)" ++ dq;
    "        exit 1";
    "      }" ].

Definition installAllScript : string :=
  nl ++ unlines installAllScript_lines ++ nl ++ "    ".

(** [{success: true, data, message}] or [{success: false, error, data}]. *)
Inductive UpdateResult : Type :=
| Updated (data : Results) (message : string)
| Failure (error : string) (data : Results).

Definition installAllCommand : string :=
  "powershell -ExecutionPolicy Bypass -Command "
  ++ quoted ("Start-Process powershell -Verb RunAs -ArgumentList '-ExecutionPolicy Bypass -Command "
             ++ backslash ++ dq ++ escape_dquotes installAllScript ++ backslash ++ dq
             ++ "' -Wait").

Definition checkpoint (text : string) (n : nat) (driverIds : list string) : ProgressEvent :=
  {| status := text; current := Some n; total := Some (length driverIds);
     progress := None |}.

Section WithHost.

Variable host : Host.

Definition updateDrivers (driverIds : list string) (progressCallback : Callback)
  : M UpdateResult :=
  if negb (is_win32 host)
  then throw "Driver updates are only available on Windows"
  else
    set_results empty_results ;;
    try_catch
      (notify progressCallback (checkpoint "Installing driver updates..." 0 driverIds) ;;
       out <- execPromise host installAllCommand (Some 300000%N) ;;
       notify progressCallback
         (checkpoint "Driver updates completed" (length driverIds) driverIds) ;;
       r <- get_results ;;
       set_results {| updated := driverIds; failed := failed r;
                      rebootRequired := includes (fst out) "Reboot Required: True" |} ;;
       r <- get_results ;;
       ret (Updated r
              ("Successfully updated " ++ dec (N.of_nat (length (updated r)))
               ++ " driver(s). "
               ++ (if rebootRequired r then "Reboot required." else EmptyString))))
      (fun error =>
         r <- get_results ;;
         set_results {| updated := updated r; failed := driverIds;
                        rebootRequired := rebootRequired r |} ;;
         r <- get_results ;;
         ret (Failure error r)).

End WithHost.

(** The script of this file over the agent of [InstallScript]: every
    available update is added to the collection. *)
Definition UpdatesToInstall (available : list InstallScript.Update)
  : list InstallScript.Update := available.

End DriverUpdaterAll.

(** ** The system updater *)

Module SystemUpdater.

(** The detection script of checkWindowsUpdates, line by line. *)
Definition checkCommand_lines : list string :=
  [ "      $UpdateSession = New-Object -ComObject Microsoft.Update.Session";
    "      $UpdateSearcher = $UpdateSession.CreateUpdateSearcher()";
    "      $SearchResult = $UpdateSearcher.Search(" ++ dq ++ "IsInstalled=0" ++ dq ++ ")";
    "      $SearchResult.Updates | Select-Object Title, Description | ConvertTo-Json" ].

(** The install script of installWindowsUpdates, line by line. *)
Definition installCommand_lines : list string :=
  [ "      $UpdateSession = New-Object -ComObject Microsoft.Update.Session";
    "      $UpdateSearcher = $UpdateSession.CreateUpdateSearcher()";
    "      $SearchResult = $UpdateSearcher.Search(" ++ dq ++ "IsInstalled=0" ++ dq ++ ")";
    EmptyString;
    "      if ($SearchResult.Updates.Count -eq 0) {";
    "        Write-Output " ++ dq ++ "No updates to install" ++ dq;
    "        exit 0";
    "      }";
    EmptyString;
    "      $UpdatesToInstall = New-Object -ComObject Microsoft.Update.UpdateColl";
    "      foreach ($Update in $SearchResult.Updates) {";
    "        $UpdatesToInstall.Add($Update) | Out-Null";
    "      }";
    EmptyString;
    "      $Installer = $UpdateSession.CreateUpdateInstaller()";
    "      $Installer.Updates = $UpdatesToInstall";
    "      $InstallResult = $Installer.Install()";
    EmptyString;
    "      $InstallResult.ResultCode" ].

Definition checkCommand : string :=
  "powershell -Command "
  ++ quoted (newlines_to_spaces (nl ++ unlines checkCommand_lines ++ nl ++ "    ")).

Definition installCommand : string :=
  "powershell -Command "
  ++ quoted (newlines_to_spaces (nl ++ unlines installCommand_lines ++ nl ++ "    ")).

(** [parseInt(s)]: leading white space, a sign, then the longest run of
    digits (hexadecimal after [0x]); [None] is [NaN]. *)
Definition digit (c : ascii) : option Z :=
  let n := nat_of_ascii c in
  if ((48 <=? n)%nat && (n <=? 57)%nat) then Some (Z.of_nat (n - 48)) else None.

Definition hexdigit (c : ascii) : option Z :=
  let n := nat_of_ascii c in
  if ((48 <=? n)%nat && (n <=? 57)%nat) then Some (Z.of_nat (n - 48))
  else if ((97 <=? n)%nat && (n <=? 102)%nat) then Some (Z.of_nat (n - 87))
  else if ((65 <=? n)%nat && (n <=? 70)%nat) then Some (Z.of_nat (n - 55))
  else None.

Fixpoint digits (radix : Z) (dig : ascii -> option Z) (acc : option Z) (s : string)
  : option Z :=
  match s with
  | EmptyString => acc
  | String c rest =>
      match dig c with
      | Some d =>
          digits radix dig
            (Some (match acc with Some a => a * radix + d | None => d end)%Z) rest
      | None => acc
      end
  end.

Definition unsigned_int (s : string) : option Z :=
  if String.prefix "0x" s || String.prefix "0X" s
  then digits 16 hexdigit None (ResultRegex.drop 2 s)
  else digits 10 digit None s.

Definition parseInt (s : string) : option Z :=
  match trimStart s with
  | String "-" rest => option_map Z.opp (unsigned_int rest)
  | String "+" rest => unsigned_int rest
  | other => unsigned_int other
  end.

(** [{success: true, data: {available, count, updates, message}}] or
    [{success: false, error}]. *)
Inductive CheckResult : Type :=
| CheckOk (available : bool) (count : nat) (updates : list JSON) (message : string)
| CheckFailed (error : string).

(** [{success: true, data: {installed: true, requiresRestart, message}}] or
    [{success: false, error}]. *)
Inductive InstallOutcome : Type :=
| Installed (requiresRestart : bool) (message : string)
| InstallFailed (error : string).

Definition stage (text : string) (percent : nat) : ProgressEvent :=
  {| status := text; current := None; total := None; progress := Some percent |}.

(** The pattern [/\*\s+(.+)/] of parseUpdateList. *)
Definition update_line : list Regex.Item :=
  [Regex.One (Regex.char "*"); Regex.Many Regex.space; Regex.Many Regex.dot].

(** [line.match(/\*\s+(.+)/)], the text of the group: [match[1]]. *)
Definition match_update (line : string) : option string :=
  match Regex.search update_line line with
  | Some [_; _; group] => Some group
  | _ => None
  end.

(** [{title, description: 'macOS System Update'}] *)
Definition update_of (title : string) : JSON :=
  JObj [("title", JStr title); ("description", JStr "macOS System Update")].

(** The body of the loop of parseUpdateList: what one line does to
    [updates]. *)
Definition push_update (updates : list JSON) (line : string) : list JSON :=
  if startsWith (trim line) "*"
  then match match_update line with
       | Some group => (updates ++ [update_of (trim group)])%list
       | None => updates
       end
  else updates.

Definition parseUpdateList (stdout : string) : list JSON :=
  fold_left push_update (split (ascii_of_nat 10) stdout) [].

Section WithHost.

Variable host : Host.

Definition checkWindowsUpdates (progressCallback : Callback) : M CheckResult :=
  notify progressCallback (stage "Checking for Windows updates..." 30) ;;
  try_catch
    (out <- execPromise host checkCommand None ;;
     updates <- match JSON_parse host (or_else (fst out) "[]") with
                | inr value => ret value
                | inl syntaxError => throw syntaxError
                end ;;
     let updateArray := as_array updates in
     notify progressCallback (stage "Updates found" 100) ;;
     ret (CheckOk (0 <? length updateArray)%nat (length updateArray) updateArray
            (if (0 <? length updateArray)%nat
             then dec (N.of_nat (length updateArray)) ++ " update(s) available"
             else "Your system is up to date")))
    (fun error => ret (CheckFailed error)).

Definition installWindowsUpdates (progressCallback : Callback) : M InstallOutcome :=
  notify progressCallback (stage "Installing Windows updates..." 10) ;;
  try_catch
    (notify progressCallback (stage "Downloading and installing updates..." 30) ;;
     out <- execPromise host installCommand (Some 1800000%N) ;;
     notify progressCallback (stage "Updates installed successfully" 100) ;;
     let resultCode := parseInt (trim (fst out)) in
     let requiresRestart :=
       match resultCode with Some 3%Z => true | _ => false end in
     ret (Installed requiresRestart
            (if requiresRestart
             then "Updates installed. Please restart your computer to complete the installation."
             else "Updates installed successfully")))
    (fun error => ret (InstallFailed error)).

Definition checkMacOSUpdates (progressCallback : Callback) : M CheckResult :=
  notify progressCallback (stage "Checking for macOS updates..." 30) ;;
  try_catch
    (out <- execPromise host "softwareupdate -l" None ;;
     let stdout := fst out in
     let hasUpdates := negb (includes stdout "No new software available") in
     if hasUpdates
     then
       let updates := parseUpdateList stdout in
       notify progressCallback (stage "Updates found" 100) ;;
       ret (CheckOk true (length updates) updates
              (dec (N.of_nat (length updates)) ++ " update(s) available"))
     else
       notify progressCallback (stage "System is up to date" 100) ;;
       ret (CheckOk false 0 [] "Your system is up to date"))
    (fun error => ret (CheckFailed error)).

Definition installMacOSUpdates (progressCallback : Callback) : M InstallOutcome :=
  notify progressCallback (stage "Installing macOS updates..." 10) ;;
  try_catch
    (notify progressCallback (stage "Downloading and installing updates..." 30) ;;
     out <- execPromise host "softwareupdate -i -a" (Some 600000%N) ;;
     notify progressCallback (stage "Updates installed successfully" 100) ;;
     let requiresRestart :=
       includes (fst out) "restart" || includes (snd out) "restart" in
     ret (Installed requiresRestart
            (if requiresRestart
             then "Updates installed. Please restart your computer to complete the installation."
             else "Updates installed successfully")))
    (fun error => ret (InstallFailed error)).

Definition checkSystemUpdates (progressCallback : Callback) : M CheckResult :=
  try_catch
    (if String.eqb (platform host) "darwin"
     then checkMacOSUpdates progressCallback
     else if String.eqb (platform host) "win32"
     then checkWindowsUpdates progressCallback
     else ret (CheckFailed "System updates not supported on this platform"))
    (fun error => ret (CheckFailed error)).

Definition installSystemUpdates (progressCallback : Callback) : M InstallOutcome :=
  try_catch
    (if String.eqb (platform host) "darwin"
     then installMacOSUpdates progressCallback
     else if String.eqb (platform host) "win32"
     then installWindowsUpdates progressCallback
     else ret (InstallFailed "System updates not supported on this platform"))
    (fun error => ret (InstallFailed error)).

End WithHost.

End SystemUpdater.

(** ** Auxiliary definitions for the statements *)

(** The store [s] after the events [evs]. *)
Definition extend (s : Store) (evs : list Event) : Store :=
  {| trace := (trace s ++ evs)%list; files := files s; results := results s |}.

(** What a checkpoint adds to the trace. *)
Definition note (progressCallback : Callback) (ev : ProgressEvent) : list Event :=
  match progressCallback with
  | Some _ => [Progress ev]
  | None => []
  end.

Definition is_unlink (e : Event) : bool :=
  match e with Unlink _ => true | _ => false end.

(** createRestorePoint fails on this host: the process is rejected or its
    output lacks the word SUCCESS. *)
Definition restore_point_fails (host : Host) : Prop :=
  match execPromise_answer host (DriverUpdater.restoreCommand "Before Driver Updates") with
  | Resolved stdout _ => includes stdout "SUCCESS" = false
  | Rejected _ => True
  end.

(** The events of the restore-point stage of updateDrivers. *)
Definition restore_events (host : Host) : list Event :=
  Exec (DriverUpdater.restoreCommand "Before Driver Updates") (Some 30000%N) ::
  match execPromise_answer host (DriverUpdater.restoreCommand "Before Driver Updates") with
  | Resolved stdout _ =>
      if includes stdout "SUCCESS"
      then [Console Log "[DRIVER_UPDATER] System restore point created"]
      else [Console Warn
              ("[DRIVER_UPDATER] Failed to create restore point: "
               ++ "Could not create restore point: " ++ "Failed to create restore point")]
  | Rejected message =>
      [Console Warn
         ("[DRIVER_UPDATER] Failed to create restore point: "
          ++ "Could not create restore point: " ++ message)]
  end.

(** [installResult] as updateDrivers reads it from [stdout]. *)
Definition parsed_result (host : Host) (stdout : string) : option InstallResult :=
  match ResultRegex.match_result stdout with
  | Some jsonMatch =>
      match JSON_parse_result host jsonMatch with
      | inr installResult => Some installResult
      | inl _ => None
      end
  | None => None
  end.

(** The [data] of the report for a result code. *)
Definition report_data (driverIds : list string) (installResult : option InstallResult)
  (stdout : string) : Results :=
  if DriverUpdater.is_success (DriverUpdater.resultCode_of installResult)
  then {| updated := driverIds; failed := [];
          rebootRequired := DriverUpdater.reboot_of installResult stdout |}
  else {| updated := []; failed := driverIds; rebootRequired := false |}.

(** The events of the cleanup stage of updateDrivers, and what it does
    to the files. *)
Definition cleanup_events (host : Host) : list Event :=
  Unlink (DriverUpdater.scriptPath host) ::
  match unlink_answer host (DriverUpdater.scriptPath host) with
  | None => []
  | Some unlinkError =>
      [Console Warn ("[DRIVER_UPDATER] Failed to delete temp script: " ++ unlinkError)]
  end.

Definition cleanup_files (host : Host) (f : gmap string string) : gmap string string :=
  match unlink_answer host (DriverUpdater.scriptPath host) with
  | None => delete (DriverUpdater.scriptPath host) f
  | Some _ => f
  end.

(** The console line written when the result line does not parse. *)
Definition parse_events (host : Host) (stdout : string) : list Event :=
  match ResultRegex.match_result stdout with
  | Some jsonMatch =>
      match JSON_parse_result host jsonMatch with
      | inr _ => []
      | inl parseError =>
          [Console Warn ("[DRIVER_UPDATER] Failed to parse result JSON: " ++ parseError)]
      end
  | None => []
  end.

(** The trace of updateDrivers up to and including the write of the
    install script. *)
Definition prepared_trace (host : Host) (progressCallback : Callback)
  (driverIds : list string) : list Event :=
  (note progressCallback
     (DriverUpdater.checkpoint "Creating system restore point..." 0 driverIds)
   ++ restore_events host
   ++ note progressCallback
        (DriverUpdater.checkpoint "Preparing driver updates..." 1 driverIds)
   ++ [WriteFile (DriverUpdater.scriptPath host) (DriverUpdater.installScript driverIds)])%list.

(** The trace from there to the start of the install process. *)
Definition launched_trace (host : Host) (progressCallback : Callback)
  (driverIds : list string) : list Event :=
  (prepared_trace host progressCallback driverIds
   ++ [Console Log ("[DRIVER_UPDATER] PowerShell script written to: "
                    ++ DriverUpdater.scriptPath host)]
   ++ note progressCallback
        (DriverUpdater.checkpoint
           "Installing driver updates (this may take 10-30 minutes)..." 2 driverIds)
   ++ [Console Log "[DRIVER_UPDATER] Executing driver installation...";
       Exec (DriverUpdater.installCommand host) (Some 1800000%N)])%list.

(** The message of the [catch] block of updateDrivers. *)
Definition errorMessage_of (error : string) : string :=
  if includes error "timeout"
  then "Driver installation timed out. Large drivers may take longer. Please try again or install drivers individually."
  else if includes error "access" || includes error "permission"
  then "Permission denied. Please run the application as Administrator to install driver updates."
  else if includes error "Windows Update"
  then "Windows Update service is not available. Please enable it in Windows Services."
  else error.

Definition all_failed (driverIds : list string) : Results :=
  {| updated := []; failed := driverIds; rebootRequired := false |}.

(** The trace of a run of updateDrivers whose install process resolves. *)
Definition resolved_trace (host : Host) (progressCallback : Callback)
  (driverIds : list string) (stdout stderr : string) : list Event :=
  (launched_trace host progressCallback driverIds
   ++ [Console Log ("[DRIVER_UPDATER] Installation output: " ++ stdout)]
   ++ (if truthy stderr
       then [Console Warn ("[DRIVER_UPDATER] Installation stderr: " ++ stderr)]
       else [])
   ++ cleanup_events host
   ++ parse_events host stdout
   ++ note progressCallback
        (DriverUpdater.checkpoint
           (if DriverUpdater.is_success
                 (DriverUpdater.resultCode_of (parsed_result host stdout))
            then "Driver updates completed" else "Driver update failed")
           (length driverIds + 2) driverIds))%list.

(** The report of such a run. *)
Definition report_of (host : Host) (driverIds : list string) (stdout stderr : string)
  : DriverUpdater.UpdateResult :=
  let installResult := parsed_result host stdout in
  let resultCode := DriverUpdater.resultCode_of installResult in
  let data := report_data driverIds installResult stdout in
  DriverUpdater.Report (DriverUpdater.is_success resultCode) data
    (if DriverUpdater.is_success resultCode
     then DriverUpdater.success_message data
     else DriverUpdater.failure_message (DriverUpdater.resultText_of resultCode) stderr)
    resultCode (DriverUpdater.resultText_of resultCode).

(** The driver list checkDriverUpdates reads from [stdout]. *)
Definition drivers_of (host : Host) (stdout : string) : list JSON :=
  if truthy (trim stdout) && negb (String.eqb (trim stdout) "null")
  then match JSON_parse host (trim stdout) with
       | inr parsed => as_array parsed
       | inl _ => []
       end
  else [].

Definition found_message (n : nat) : string :=
  "Found " ++ dec (N.of_nat n) ++ " driver update(s) available".

Definition scanning : ProgressEvent :=
  {| status := "Scanning for outdated drivers..."; current := None;
     total := None; progress := None |}.

(** Every character of [s] is in the class [p]. *)
Fixpoint every (p : ascii -> bool) (s : string) : bool :=
  match s with
  | EmptyString => true
  | String c rest => p c && every p rest
  end.

(** A space or a TAB. *)
Definition blank (c : ascii) : bool :=
  Ascii.eqb c " " || Ascii.eqb c (ascii_of_nat 9).

(** Text in ASCII. *)
Definition ascii_text (s : string) : bool :=
  every (fun c => (nat_of_ascii c <? 128)%nat) s.

(** A character of ASCII that is not white space, and a text that begins
    and ends with such a character: [trim] has nothing to remove from it,
    in the model and in JavaScript. *)
Definition solid_char (c : ascii) : bool :=
  (nat_of_ascii c <? 128)%nat && negb (is_space c).

Fixpoint last_char (c : ascii) (rest : string) : ascii :=
  match rest with
  | EmptyString => c
  | String d rest' => last_char d rest'
  end.

Definition solid (s : string) : bool :=
  match s with
  | EmptyString => false
  | String c rest => solid_char c && solid_char (last_char c rest)
  end.

(** An update id made of letters, digits and hyphens, as the ids of the
    Windows Update Agent are. Between the double quotes of the script such
    an id denotes itself (it has no quote, dollar or backtick), and
    PowerShell compares two such ids as [ieqb] does. *)
Definition id_char (c : ascii) : bool :=
  let n := nat_of_ascii c in
  ((48 <=? n)%nat && (n <=? 57)%nat)
  || ((65 <=? n)%nat && (n <=? 90)%nat)
  || ((97 <=? n)%nat && (n <=? 122)%nat)
  || (n =? 45)%nat.

Definition plain_id (id : string) : bool := every id_char id.

(** The result object as [JSON.parse] reads it from the line the script
    printed. *)
Definition result_of_printed (p : InstallScript.Printed) : InstallResult :=
  {| ResultCode := Some (InstallScript.printed_ResultCode p);
     RebootRequired := Some (InstallScript.printed_RebootRequired p) |}.

(** The host runs the install script of updateDrivers for the array
    [targets] against [agent]: when its install process exits, the exit
    status is the script's, and the result that updateDrivers reads from
    the output is the object the script printed, or none if it printed
    none. *)
Definition runs_install_script (host : Host) (targets : list string)
  (agent : InstallScript.Agent) : Prop :=
  forall code stdout stderr,
    run_process host (DriverUpdater.installCommand host) = Exited code stdout stderr ->
    code = InstallScript.exit_status (InstallScript.run targets agent)
    /\ parsed_result host stdout
       = option_map result_of_printed
           (InstallScript.printed (InstallScript.run targets agent)).

(** A text without double quote. *)
Definition quote_free (s : string) : bool :=
  every (fun c => negb (Ascii.eqb c (ascii_of_nat 34))) s.

(** Any character but the opening brace. *)
Definition no_brace (c : ascii) : bool := negb (Ascii.eqb ResultRegex.open_brace c).

(** The lines of [stdout] that begin with a star once trimmed. *)
Definition star_lines (stdout : string) : list string :=
  List.filter (fun line => startsWith (trim line) "*") (split (ascii_of_nat 10) stdout).

(** The messages of the system updater. *)
Definition updates_message (count : nat) : string :=
  if (0 <? count)%nat
  then dec (N.of_nat count) ++ " update(s) available"
  else "Your system is up to date".

Definition restart_message (requiresRestart : bool) : string :=
  if requiresRestart
  then "Updates installed. Please restart your computer to complete the installation."
  else "Updates installed successfully".

(** What the system updater may leave in the trace: progress reports with
    a percentage of at most 100 and starts of processes. *)
Definition system_event (e : Event) : Prop :=
  match e with
  | Progress ev => exists percent, progress ev = Some percent /\ percent <= 100
  | Exec _ _ => True
  | _ => False
  end.

(** What a run of updateDrivers for the request [ids] may leave in the
    trace. *)
Definition install_event (host : Host) (ids : list string) (e : Event) : Prop :=
  match e with
  | Progress ev =>
      total ev = Some (length ids + 2)
      /\ (exists n, current ev = Some n /\ n <= length ids + 2)
      /\ progress ev = None
  | Exec command timeout =>
      (command = DriverUpdater.restoreCommand "Before Driver Updates"
       /\ timeout = Some 30000%N)
      \/ (command = DriverUpdater.installCommand host /\ timeout = Some 1800000%N)
  | WriteFile path data =>
      path = DriverUpdater.scriptPath host /\ data = DriverUpdater.installScript ids
  | Unlink path => path = DriverUpdater.scriptPath host
  | Console _ _ => True
  end.

(** ** Concrete hosts, used to run the definitions on examples *)

Module Demo.

(** [path.join] on Windows for a directory and a file name without
    dots or separators to normalise. *)
Definition join_path (dir file : string) : string := dir ++ backslash ++ file.

(** The line a successful install prints: code 2, no reboot. *)
Definition succeeded_line : string :=
  "{" ++ quoted "ResultCode" ++ ":2," ++ quoted "RebootRequired" ++ ":false}".

Definition succeeded_stdout : string :=
  "Installation Result Code: 2" ++ nl ++ "Reboot Required: False" ++ nl
  ++ succeeded_line ++ nl.

(** [JSON.parse] on the texts used below. *)
Definition parse (text : string) : string + JSON :=
  if String.eqb text "null" then inr JNull
  else if String.eqb text "[]" then inr (JArr [])
  else if String.eqb text "{}" then inr (JObj [])
  else if String.eqb text "[{},{}]" then inr (JArr [JObj []; JObj []])
  else inl "Unexpected token in JSON".

Definition parse_result (text : string) : string + InstallResult :=
  if String.eqb text succeeded_line
  then inr {| ResultCode := Some 2%Z; RebootRequired := Some false |}
  else inl "Unexpected token in JSON".

Definition is_install_command (command : string) : bool :=
  String.prefix "powershell -ExecutionPolicy Bypass -File " command.

(** A process that makes [execPromise] give the answer [answer]: one that
    exits with status 0 after writing the output, or one that cannot be
    started. *)
Definition process_of (answer : ExecAnswer) : Process :=
  match answer with
  | Resolved stdout stderr => Exited 0 stdout stderr
  | Rejected message => Failed message
  end.

(** A host on which the restore point is created and the install command
    is answered by [install]; every other command succeeds with
    [output]. *)
Definition machine (os : string) (output : string) (install : ExecAnswer) : Host :=
  {| platform := os;
     env_TEMP := Some "C:\Temp";
     Date_now := 1760000000000%N;
     path_join := join_path;
     run_process := fun command =>
       if is_install_command command then process_of install
       else Exited 0 output EmptyString;
     writeFile_answer := fun _ _ => None;
     unlink_answer := fun _ => None;
     JSON_parse := parse;
     JSON_parse_result := parse_result |}.

(** A Windows host whose install process writes the result line of a
    successful install and exits with status 0. The install script of
    updateDrivers does not end so (it exits with the result code, see
    [windows_installing] below); this host exercises the path of
    updateDrivers on which [execPromise] resolves. *)
Definition windows : Host := machine "win32" "SUCCESS" (Resolved succeeded_stdout EmptyString).

Definition linux : Host := machine "linux" EmptyString (Rejected "spawn powershell ENOENT").

(** A Windows host that runs the install script against an agent whose
    installer reports code 2 (succeeded): the install process writes the
    result line and exits with status 2. *)
Definition windows_installing : Host :=
  {| platform := "win32";
     env_TEMP := Some "C:\Temp";
     Date_now := 1760000000000%N;
     path_join := join_path;
     run_process := fun command =>
       if is_install_command command then Exited 2 succeeded_stdout EmptyString
       else Exited 0 "SUCCESS" EmptyString;
     writeFile_answer := fun _ _ => None;
     unlink_answer := fun _ => None;
     JSON_parse := parse;
     JSON_parse_result := parse_result |}.

(** The install process fails. *)
Definition windows_timeout : Host :=
  machine "win32" "SUCCESS"
    (Rejected "Command failed: powershell -ExecutionPolicy Bypass -File driver-update.ps1").

(** Every process is rejected. *)
Definition windows_no_powershell : Host :=
  {| platform := "win32";
     env_TEMP := None;
     Date_now := 0%N;
     path_join := join_path;
     run_process := fun _ => Failed "spawn powershell ENOENT";
     writeFile_answer := fun _ _ => None;
     unlink_answer := fun _ => None;
     JSON_parse := parse;
     JSON_parse_result := parse_result |}.

(** A subscriber that throws when it is told the final status. *)
Definition closed_window : Callback :=
  Some (fun ev =>
          if String.eqb (status ev) "Driver updates completed"
          then Some "Object has been destroyed"
          else None).

Definition update (id : string) : InstallScript.Update :=
  {| InstallScript.UpdateID := id; InstallScript.Title := "Driver " ++ id |}.

(** An agent that offers A, B and C and installs whatever it is given. *)
Definition agent_ABC : InstallScript.Agent :=
  {| InstallScript.Search := Some [update "A"; update "B"; update "C"];
     InstallScript.Download := fun _ => Some 2%Z;
     InstallScript.Install := fun _ => Some (2%Z, false) |}.

(** A Mac on which every command prints [stdout] and [stderr]. *)
Definition mac (stdout stderr : string) : Host :=
  {| platform := "darwin";
     env_TEMP := None;
     Date_now := 1760000000000%N;
     path_join := fun dir file => dir ++ "/" ++ file;
     run_process := fun _ => Exited 0 stdout stderr;
     writeFile_answer := fun _ _ => None;
     unlink_answer := fun _ => None;
     JSON_parse := parse;
     JSON_parse_result := parse_result |}.

(** What softwareupdate prints when it has found one update, and when it
    has found none (the sentence goes to the standard error). *)
Definition one_update_stdout : string :=
  "Software Update Tool" ++ nl ++ nl ++ "Finding available software" ++ nl
  ++ "Software Update found the following new or updated software:" ++ nl
  ++ "* Label: Safari17.1-17.1" ++ nl
  ++ String (ascii_of_nat 9) "Title: Safari, Version: 17.1, Size: 145000KiB, Recommended: YES, "
  ++ nl.

Definition no_update_stdout : string :=
  "Software Update Tool" ++ nl ++ nl ++ "Finding available software" ++ nl.


(** A Windows host on which the install succeeds and the script file
    cannot be removed. *)
Definition windows_locked : Host :=
  {| platform := "win32";
     env_TEMP := Some "C:\Temp";
     Date_now := 1760000000000%N;
     path_join := join_path;
     run_process := fun command =>
       if is_install_command command then Exited 0 succeeded_stdout EmptyString
       else Exited 0 "SUCCESS" EmptyString;
     writeFile_answer := fun _ _ => None;
     unlink_answer := fun _ => Some "EBUSY: resource busy or locked, unlink";
     JSON_parse := parse;
     JSON_parse_result := parse_result |}.

End Demo.

(** * Properties *)

Import DriverUpdater.

(** Symbolic execution: unfold the monad and the host calls, keep the
    texts folded. *)
Ltac js_run :=
  cbv beta iota zeta delta
    [bind try_catch ret throw console emit when get_results set_results
     get_files set_files execPromise writeFile unlink];
  cbn [trace files results fst snd].

Ltac js_step := unfold extend; js_run.

Ltac split_match :=
  match goal with
  | |- context [match ?x with Some _ => _ | None => _ end] => destruct x eqn:?
  | |- context [match ?x with Resolved _ _ => _ | Rejected _ => _ end] => destruct x eqn:?
  | |- context [match ?x with inl _ => _ | inr _ => _ end] => destruct x eqn:?
  | |- context [if ?x then _ else _] => destruct x eqn:?
  end.

Example match_result_example :
  ResultRegex.match_result Demo.succeeded_stdout = Some Demo.succeeded_line.
Proof. reflexivity. Qed.

Example parseInt_examples :
  SystemUpdater.parseInt "4" = Some 4%Z
  /\ SystemUpdater.parseInt "  -12abc" = Some (-12)%Z
  /\ SystemUpdater.parseInt "0x1F" = Some 31%Z
  /\ SystemUpdater.parseInt "No updates to install" = None.
Proof. repeat split; reflexivity. Qed.

Example trim_example : trim (" " ++ nl ++ "null " ++ nl) = "null".
Proof. reflexivity. Qed.

Lemma extend_nil s : extend s [] = s.
Proof. destruct s. unfold extend. cbn [trace files results]. now rewrite List.app_nil_r. Qed.

Lemma notify_quiet progressCallback ev s :
  quiet progressCallback ->
  notify progressCallback ev s = (Return tt, extend s (note progressCallback ev)).
Proof.
  intros Hq. unfold notify, note. destruct progressCallback as [f|].
  - js_run. now rewrite (Hq f ev eq_refl).
  - now rewrite extend_nil.
Qed.

Lemma quiet_none : quiet None.
Proof. intros f ev H. discriminate H. Qed.

(** The restore-point stage never throws: whatever createRestorePoint does,
    the stage returns, having only started the process and written one
    console line. *)
Lemma restore_point_stage_run host s :
  is_win32 host = true ->
  restore_point_stage host s = (Return tt, extend s (restore_events host)).
Proof.
  intros Hw. unfold restore_point_stage, createRestorePoint, restore_events.
  rewrite Hw. cbn [negb]. js_run.
  destruct (execPromise_answer host (restoreCommand "Before Driver Updates")) as [out err|m];
    js_run; [destruct (includes out "SUCCESS"); cbn [negb]; js_run|];
    unfold extend; cbn [trace files results]; now rewrite <- List.app_assoc.
Qed.

(** ** Strings *)

Lemma append_cons c (a b : string) : String c a ++ b = String c (a ++ b).
Proof. reflexivity. Qed.

Lemma append_nil_l (b : string) : EmptyString ++ b = b.
Proof. reflexivity. Qed.

Lemma append_assoc (a b c : string) : (a ++ b) ++ c = a ++ b ++ c.
Proof.
  induction a as [|x a IH]; [reflexivity|]. now rewrite !append_cons, IH.
Qed.

Lemma append_nil_r (a : string) : a ++ EmptyString = a.
Proof. induction a as [|x a IH]; [reflexivity|]. now rewrite append_cons, IH. Qed.

Lemma append_inj_l p x y : p ++ x = p ++ y -> x = y.
Proof. induction p as [|c p IH]; simpl; [auto|]. intros H. inversion H. auto. Qed.

Lemma length_app (a b : string) : String.length (a ++ b) = String.length a + String.length b.
Proof. induction a as [|c a IH]; [reflexivity|]. rewrite append_cons. cbn. now rewrite IH. Qed.

Lemma every_app p a b : every p (a ++ b) = every p a && every p b.
Proof.
  induction a as [|c a IH]; [reflexivity|].
  rewrite append_cons. cbn [every]. now rewrite IH, andb_assoc.
Qed.

Lemma every_impl (p q : ascii -> bool) s :
  (forall c, p c = true -> q c = true) -> every p s = true -> every q s = true.
Proof.
  intros Hpq. induction s as [|c s IH]; simpl; [reflexivity|].
  rewrite !andb_true_iff. intros [Hc Hs]. auto.
Qed.

Lemma prefix_app n t : String.prefix n (n ++ t) = true.
Proof.
  induction n as [|c n IH].
  - now destruct t.
  - rewrite append_cons. cbn [String.prefix].
    destruct (Ascii.ascii_dec c c); [exact IH|congruence].
Qed.

Lemma prefix_head c s : String.prefix (String c EmptyString) (String c s) = true.
Proof.
  cbn [String.prefix]. destruct (Ascii.ascii_dec c c); [now destruct s|congruence].
Qed.

Lemma prefix_split n s : String.prefix n s = true -> exists t, s = n ++ t.
Proof.
  revert s. induction n as [|c n IH]; intros s H.
  - now exists s.
  - destruct s as [|d s]; [discriminate H|]. cbn [String.prefix] in H.
    destruct (Ascii.ascii_dec c d) as [->|]; [|discriminate H].
    destruct (IH s H) as [t ->]. now exists t.
Qed.

Lemma includes_here s needle : String.prefix needle s = true -> includes s needle = true.
Proof. intros H. destruct s; cbn [includes]; now rewrite H. Qed.

Lemma includes_app a needle t : includes (a ++ needle ++ t) needle = true.
Proof.
  induction a as [|c a IH].
  - change (EmptyString ++ needle ++ t) with (needle ++ t).
    apply includes_here. apply prefix_app.
  - rewrite append_cons. cbn [includes]. rewrite IH. apply orb_true_r.
Qed.

(** *** trim *)

Lemma trimEnd_cons c s :
  is_space c = false -> trimEnd (String c s) = String c (trimEnd s).
Proof. intros H. simpl. rewrite H. now destruct (trimEnd s). Qed.

Lemma trimEnd_step c s d r :
  trimEnd s = String d r -> trimEnd (String c s) = String c (String d r).
Proof. intros H. simpl. now rewrite H. Qed.

Lemma trimEnd_last c s :
  trimEnd s = EmptyString ->
  trimEnd (String c s) = if is_space c then EmptyString else String c EmptyString.
Proof. intros H. simpl. now rewrite H. Qed.

Lemma trimEnd_idem s : trimEnd (trimEnd s) = trimEnd s.
Proof.
  induction s as [|c s IH]; [reflexivity|].
  destruct (trimEnd s) as [|d r] eqn:Hr.
  - rewrite (trimEnd_last _ _ Hr).
    destruct (is_space c) eqn:Hc; [reflexivity|]. simpl. now rewrite Hc.
  - rewrite (trimEnd_step _ _ _ _ Hr). now apply trimEnd_step.
Qed.

Lemma trimStart_head s :
  trimStart s = EmptyString
  \/ exists c r, trimStart s = String c r /\ is_space c = false.
Proof.
  induction s as [|c s IH]; [now left|].
  simpl. destruct (is_space c) eqn:Hc; [exact IH|].
  right. now exists c, s.
Qed.

Lemma trimStart_cons c s : is_space c = false -> trimStart (String c s) = String c s.
Proof. intros H. simpl. now rewrite H. Qed.

Lemma trim_idem s : trim (trim s) = trim s.
Proof.
  unfold trim. destruct (trimStart_head s) as [H|(c & r & H & Hc)]; rewrite H.
  - reflexivity.
  - rewrite (trimEnd_cons _ _ Hc), (trimStart_cons _ _ Hc).
    rewrite (trimEnd_cons _ _ Hc). now rewrite trimEnd_idem.
Qed.

Lemma trimStart_blank indent s :
  every is_space indent = true -> trimStart (indent ++ s) = trimStart s.
Proof.
  induction indent as [|c indent IH]; simpl; [reflexivity|].
  rewrite andb_true_iff. intros [Hc Hi]. now rewrite Hc, IH.
Qed.

Lemma trimStart_length s : String.length (trimStart s) <= String.length s.
Proof.
  induction s as [|c s IH]; simpl; [lia|].
  destruct (is_space c); simpl; lia.
Qed.

Lemma trimEnd_length s : String.length (trimEnd s) <= String.length s.
Proof.
  induction s as [|c s IH]; simpl; [lia|].
  destruct (trimEnd s); [destruct (is_space c)|]; simpl in *; lia.
Qed.

Lemma trimmed_head c r : trim (String c r) = String c r -> is_space c = false.
Proof.
  intros H. destruct (is_space c) eqn:Hc; [|reflexivity].
  exfalso. apply (f_equal String.length) in H. unfold trim in H. simpl in H.
  rewrite Hc in H.
  pose proof (trimEnd_length (trimStart r)). pose proof (trimStart_length r). lia.
Qed.

Lemma trimEnd_spaces ws : every is_space ws = true -> trimEnd ws = EmptyString.
Proof.
  induction ws as [|c ws IH]; [reflexivity|].
  simpl. rewrite andb_true_iff. intros [Hc Hws]. now rewrite (IH Hws), Hc.
Qed.

Lemma trimEnd_app s ws :
  every (fun c => negb (is_space c)) s = true -> every is_space ws = true ->
  trimEnd (s ++ ws) = s.
Proof.
  intros Hs Hws. induction s as [|c s IH].
  - now apply trimEnd_spaces.
  - simpl in Hs. apply andb_true_iff in Hs. destruct Hs as [Hc Hs].
    apply negb_true_iff in Hc.
    change (String c s ++ ws) with (String c (s ++ ws)).
    rewrite (trimEnd_cons _ _ Hc). now rewrite (IH Hs).
Qed.

Lemma trimEnd_app_spaces s ws :
  every is_space ws = true -> trimEnd (s ++ ws) = trimEnd s.
Proof.
  intros Hws. induction s as [|c s IH].
  - rewrite append_nil_l. now apply trimEnd_spaces.
  - rewrite append_cons. cbn [trimEnd]. now rewrite IH.
Qed.

Lemma trimEnd_solid c rest :
  is_space (last_char c rest) = false -> trimEnd (String c rest) = String c rest.
Proof.
  revert c. induction rest as [|d rest IH]; intros c H.
  - cbn [last_char] in H. cbn [trimEnd]. now rewrite H.
  - cbn [last_char] in H. apply (trimEnd_step c _ d rest). now apply IH.
Qed.

Lemma solid_char_not_space c : solid_char c = true -> is_space c = false.
Proof.
  unfold solid_char. rewrite andb_true_iff, negb_true_iff. now intros [_ H].
Qed.

(** White space around a text that begins and ends with a character that
    is not white space: [trim] gives the text back. *)
Lemma trim_solid ws1 body ws2 :
  every is_space ws1 = true -> every is_space ws2 = true -> solid body = true ->
  trim (ws1 ++ body ++ ws2) = body.
Proof.
  intros H1 H2 Hb. destruct body as [|c rest]; [discriminate Hb|].
  cbn [solid] in Hb. apply andb_true_iff in Hb. destruct Hb as [Hc Hl].
  apply solid_char_not_space in Hc. apply solid_char_not_space in Hl.
  unfold trim. rewrite (trimStart_blank ws1 _ H1).
  rewrite append_cons, (trimStart_cons _ _ Hc), <- append_cons.
  rewrite (trimEnd_app_spaces _ _ H2). now apply trimEnd_solid.
Qed.

(** ** Platform gate of the detection (C8) *)

(** C8, as stated, fails: on a platform other than Windows the detection
    does not return a failure object, it throws. On the Linux host the
    outcome of checkDriverUpdates is no returned value at all. *)
Lemma C8_detection_throws_on_linux :
  ~ (exists value,
        fst (checkDriverUpdates Demo.linux None initial) = Return value).
Proof. intros [value H]. vm_compute in H. discriminate H. Qed.

(** C8, amended: on every platform other than Windows, with or without a
    progress callback, checkDriverUpdates throws an Error whose message is
    "Driver updates are only available on Windows"; the store is left as
    it was, so no external process is started and no callback is
    invoked. *)
Theorem C8_detection_rejects_other_platforms host progressCallback s :
  is_win32 host = false ->
  checkDriverUpdates host progressCallback s
  = (Throw "Driver updates are only available on Windows", s)
  /\ processes (snd (checkDriverUpdates host progressCallback initial)) = [].
Proof.
  intros Hw. unfold checkDriverUpdates. rewrite Hw. split; reflexivity.
Qed.

Lemma C8_detection_rejects_other_platforms_witness :
  is_win32 Demo.linux = false
  /\ checkDriverUpdates Demo.linux None initial
     = (Throw "Driver updates are only available on Windows", initial).
Proof.
  split; [reflexivity|].
  apply (C8_detection_rejects_other_platforms Demo.linux None initial).
  reflexivity.
Defined.

(** ** Empty selection (C3) *)

(** The run of the updateDrivers without selection when its install
    process resolves: it has no check of the selection, so with an empty
    one it still starts the elevated process and reports success with
    nothing updated. *)
Lemma updateDrivers_all_empty_selection_run host progressCallback stdout stderr :
  is_win32 host = true ->
  quiet progressCallback ->
  execPromise_answer host DriverUpdaterAll.installAllCommand = Resolved stdout stderr ->
  exists s',
    DriverUpdaterAll.updateDrivers host [] progressCallback initial
    = (Return (DriverUpdaterAll.Updated
                 {| updated := []; failed := [];
                    rebootRequired := includes stdout "Reboot Required: True" |}
                 ("Successfully updated " ++ dec 0 ++ " driver(s). "
                  ++ (if includes stdout "Reboot Required: True"
                      then "Reboot required." else EmptyString))), s')
    /\ processes s' = [Exec DriverUpdaterAll.installAllCommand (Some 300000%N)].
Proof.
  intros Hw Hq He. unfold DriverUpdaterAll.updateDrivers. rewrite Hw. cbn [negb].
  js_run. rewrite (notify_quiet _ _ _ Hq). js_run. rewrite He. js_run.
  rewrite (notify_quiet _ _ _ Hq). js_run.
  eexists. split; [reflexivity|].
  unfold processes. cbn [trace].
  destruct progressCallback; reflexivity.
Qed.

(** Whatever its install process answers, the updateDrivers without
    selection starts it, also for an empty selection. *)
Lemma updateDrivers_all_starts_process host driverIds progressCallback :
  is_win32 host = true ->
  quiet progressCallback ->
  processes (snd (DriverUpdaterAll.updateDrivers host driverIds progressCallback initial))
  = [Exec DriverUpdaterAll.installAllCommand (Some 300000%N)].
Proof.
  intros Hw Hq. unfold DriverUpdaterAll.updateDrivers. rewrite Hw. cbn [negb].
  js_run. rewrite (notify_quiet _ _ _ Hq). js_run.
  destruct (execPromise_answer host DriverUpdaterAll.installAllCommand); js_run;
    rewrite ?(notify_quiet _ _ _ Hq); js_run;
    unfold processes; cbn [trace]; destruct progressCallback; reflexivity.
Qed.

(** C3, as stated, fails off Windows: the platform is checked before the
    selection, so there a call with an empty selection throws and returns
    no failure object. *)
Lemma C3_empty_selection_throws_off_windows :
  updateDrivers Demo.linux (Some []) None initial
  = (Throw "Driver updates are only available on Windows", initial)
  /\ forall result,
       fst (updateDrivers Demo.linux (Some []) None initial) <> Return result.
Proof.
  split; [reflexivity|]. intros result H. discriminate H.
Qed.

(** C3, amended: a call of the updateDrivers with selection (part_000)
    with an empty selection (an empty array, or no array at all) leaves
    the store untouched: no external process is started, no file is
    written and the progress callback is not invoked. On Windows it
    returns the failure [{success: false, error: 'No driver IDs provided',
    data: {updated: [], failed: [], rebootRequired: false}}]; on every
    other platform it throws 'Driver updates are only available on
    Windows'. The updateDrivers without selection (part_001) has no check
    of the selection: on Windows, with a progress callback that returns
    normally, a call with an empty array starts its elevated install
    process. *)
Theorem C3_empty_selection_by_platform host driverIds progressCallback s :
  driverIds = None \/ driverIds = Some [] ->
  snd (updateDrivers host driverIds progressCallback s) = s
  /\ processes (snd (updateDrivers host driverIds progressCallback initial)) = []
  /\ (is_win32 host = true ->
      fst (updateDrivers host driverIds progressCallback s)
      = Return (Failure "No driver IDs provided" empty_results)
      /\ success_of (Failure "No driver IDs provided" empty_results) = false)
  /\ (is_win32 host = false ->
      fst (updateDrivers host driverIds progressCallback s)
      = Throw "Driver updates are only available on Windows")
  /\ (is_win32 host = true -> quiet progressCallback ->
      processes (snd (DriverUpdaterAll.updateDrivers host [] progressCallback initial))
      = [Exec DriverUpdaterAll.installAllCommand (Some 300000%N)]).
Proof.
  intros Hd. split; [|split; [|split; [|split]]].
  - destruct Hd as [-> | ->]; unfold updateDrivers;
      destruct (is_win32 host); reflexivity.
  - destruct Hd as [-> | ->]; unfold updateDrivers;
      destruct (is_win32 host); reflexivity.
  - intros Hw. destruct Hd as [-> | ->]; unfold updateDrivers; rewrite Hw;
      split; reflexivity.
  - intros Hw. destruct Hd as [-> | ->]; unfold updateDrivers; rewrite Hw;
      reflexivity.
  - intros Hw Hq. now apply updateDrivers_all_starts_process.
Qed.

Lemma C3_empty_selection_by_platform_witness :
  updateDrivers Demo.windows (Some []) None initial
  = (Return (Failure "No driver IDs provided" empty_results), initial)
  /\ updateDrivers Demo.linux None None initial
     = (Throw "Driver updates are only available on Windows", initial)
  /\ processes (snd (DriverUpdaterAll.updateDrivers Demo.windows [] None initial))
     = [Exec DriverUpdaterAll.installAllCommand (Some 300000%N)].
Proof.
  destruct (C3_empty_selection_by_platform Demo.windows (Some []) None initial
              (or_intror eq_refl)) as (Hs & _ & Hr & _ & Hall).
  destruct (C3_empty_selection_by_platform Demo.linux None None initial
              (or_introl eq_refl)) as (Hs' & _ & _ & Ht & _).
  destruct (Hr eq_refl) as [Hf _].
  split; [|split].
  - rewrite (surjective_pairing (updateDrivers Demo.windows (Some []) None initial)).
    now rewrite Hs, Hf.
  - rewrite (surjective_pairing (updateDrivers Demo.linux None None initial)).
    now rewrite Hs', (Ht eq_refl).
  - exact (Hall eq_refl quiet_none).
Defined.

(** ** Detection: one method, no fallback (C4) and output normalisation (C7) *)

Lemma parse_drivers_run host stdout s :
  exists evs,
    parse_drivers host stdout s = (Return (drivers_of host stdout), extend s evs)
    /\ List.filter is_exec evs = []
    /\ (forall e, JSON_parse host (trim stdout) = inl e ->
        truthy (trim stdout) && negb (String.eqb (trim stdout) "null") = true ->
        evs = [Console Err ("Failed to parse driver list: " ++ e)]).
Proof.
  unfold parse_drivers, drivers_of.
  destruct (truthy (trim stdout) && negb (String.eqb (trim stdout) "null")).
  - js_run. destruct (JSON_parse host (trim stdout)) as [e|v]; js_run.
    + exists [Console Err ("Failed to parse driver list: " ++ e)].
      split; [reflexivity|]. split; [reflexivity|].
      intros e' H _. now inversion H.
    + exists []. rewrite extend_nil.
      split; [reflexivity|]. split; [reflexivity|].
      intros e H. discriminate H.
  - js_run. exists []. rewrite extend_nil.
    split; [reflexivity|]. split; [reflexivity|].
    intros e _ H. discriminate H.
Qed.

(** When the detection process resolves, checkDriverUpdates returns
    success with the drivers read from its output, whatever they are. *)
Lemma checkDriverUpdates_resolved host progressCallback stdout stderr :
  is_win32 host = true ->
  quiet progressCallback ->
  execPromise_answer host checkCommand = Resolved stdout stderr ->
  exists s',
    checkDriverUpdates host progressCallback initial
    = (Return (CheckOk (length (drivers_of host stdout)) (drivers_of host stdout)
                 (found_message (length (drivers_of host stdout)))), s')
    /\ processes s' = [Exec checkCommand (Some 60000%N)]
    /\ (forall e, JSON_parse host (trim stdout) = inl e ->
        truthy (trim stdout) && negb (String.eqb (trim stdout) "null") = true ->
        In (Console Err ("Failed to parse driver list: " ++ e)) (trace s')).
Proof.
  intros Hw Hq He. unfold checkDriverUpdates. rewrite Hw. cbn [negb]. js_run.
  rewrite (notify_quiet _ _ _ Hq). js_run. rewrite He. js_run.
  destruct (truthy stderr && negb (includes stderr "Searching")); js_run;
    match goal with |- context [parse_drivers host stdout ?s0] =>
      destruct (parse_drivers_run host stdout s0) as (evs & Hp & Hx & Hl); rewrite Hp
    end;
    js_run; (eexists; split; [reflexivity|]; split;
      [ unfold processes, extend; cbn [trace];
        rewrite !List.filter_app, Hx; destruct progressCallback; reflexivity
      | intros e H1 H2; unfold extend; cbn [trace]; rewrite (Hl e H1 H2);
        apply in_or_app; right; now left ]).
Qed.

Lemma checkDriverUpdates_rejected host progressCallback message :
  is_win32 host = true ->
  quiet progressCallback ->
  execPromise_answer host checkCommand = Rejected message ->
  checkDriverUpdates host progressCallback initial
  = (Return (CheckFailed message []),
     extend initial (note progressCallback scanning ++ [Exec checkCommand (Some 60000%N)])).
Proof.
  intros Hw Hq He. unfold checkDriverUpdates. rewrite Hw. cbn [negb]. js_run.
  rewrite (notify_quiet _ _ _ Hq). js_run. rewrite He. js_run.
  unfold extend. cbn [trace files results]. now rewrite <- List.app_assoc.
Qed.

(** C4, as stated, fails: checkDriverUpdates has a single detection
    method. On a host where the detection process cannot be started the
    operation declares failure after that one attempt; no second method
    is invoked. *)
Lemma C4_failure_after_the_only_method :
  fst (checkDriverUpdates Demo.windows_no_powershell None initial)
  = Return (CheckFailed "spawn powershell ENOENT" [])
  /\ ~ (2 <= length (processes
                       (snd (checkDriverUpdates Demo.windows_no_powershell None initial)))).
Proof.
  rewrite (checkDriverUpdates_rejected Demo.windows_no_powershell None
             "spawn powershell ENOENT" eq_refl quiet_none eq_refl).
  split; [reflexivity|]. unfold processes, extend, note. cbn. lia.
Qed.

Lemma trim_blank ws : every is_space ws = true -> trim ws = EmptyString.
Proof.
  intros H. unfold trim. rewrite <- (append_nil_r ws).
  now rewrite (trimStart_blank ws EmptyString H).
Qed.

Lemma solid_guard body :
  solid body = true -> body <> "null" ->
  truthy body && negb (String.eqb body "null") = true.
Proof.
  intros Hs Hn. apply String.eqb_neq in Hn. rewrite Hn.
  destruct body; [discriminate Hs|reflexivity].
Qed.

(** The driver list read from an output that is white space around a
    text. *)
Lemma drivers_of_padded host ws1 body ws2 :
  every is_space ws1 = true -> every is_space ws2 = true ->
  solid body = true -> body <> "null" ->
  drivers_of host (ws1 ++ body ++ ws2)
  = match JSON_parse host body with
    | inr parsed => as_array parsed
    | inl _ => []
    end.
Proof.
  intros H1 H2 Hs Hn. unfold drivers_of.
  now rewrite (trim_solid ws1 body ws2 H1 H2 Hs), (solid_guard body Hs Hn).
Qed.

Lemma drivers_of_blank host ws : every is_space ws = true -> drivers_of host ws = [].
Proof. intros H. unfold drivers_of. now rewrite (trim_blank ws H). Qed.

Lemma drivers_of_null host ws1 ws2 :
  every is_space ws1 = true -> every is_space ws2 = true ->
  drivers_of host (ws1 ++ "null" ++ ws2) = [].
Proof.
  intros H1 H2. unfold drivers_of.
  now rewrite (trim_solid ws1 "null" ws2 H1 H2 eq_refl).
Qed.

(** C4, amended: on Windows, with a progress callback that returns
    normally, checkDriverUpdates invokes exactly one detection method.
    If that process is rejected (it cannot be started, exits with a
    non-zero status or times out) the operation returns [{success: false,
    error, drivers: []}] with the message of the rejection, having started
    that one process and no other; [success: false] is returned only in
    that case. If the process resolves and its output is ASCII white space
    around a text that begins and ends with an ASCII character other than
    white space, is not [null] and does not parse as JSON, the failure is
    written to the console and the operation returns success with zero
    drivers, again having started that one process and no other. *)
Theorem C4_single_detection_method host progressCallback :
  is_win32 host = true ->
  quiet progressCallback ->
  (forall message,
      execPromise_answer host checkCommand = Rejected message ->
      fst (checkDriverUpdates host progressCallback initial)
      = Return (CheckFailed message [])
      /\ processes (snd (checkDriverUpdates host progressCallback initial))
         = [Exec checkCommand (Some 60000%N)])
  /\ (forall error drivers,
         fst (checkDriverUpdates host progressCallback initial)
         = Return (CheckFailed error drivers) ->
         execPromise_answer host checkCommand = Rejected error /\ drivers = [])
  /\ (forall ws1 body ws2 stderr syntaxError,
         execPromise_answer host checkCommand = Resolved (ws1 ++ body ++ ws2) stderr ->
         every is_space ws1 = true -> every is_space ws2 = true ->
         solid body = true -> body <> "null" ->
         JSON_parse host body = inl syntaxError ->
         fst (checkDriverUpdates host progressCallback initial)
         = Return (CheckOk 0 [] (found_message 0))
         /\ processes (snd (checkDriverUpdates host progressCallback initial))
            = [Exec checkCommand (Some 60000%N)]
         /\ In (Console Err ("Failed to parse driver list: " ++ syntaxError))
               (trace (snd (checkDriverUpdates host progressCallback initial)))).
Proof.
  intros Hw Hq. split; [|split].
  - intros message He.
    rewrite (checkDriverUpdates_rejected host progressCallback message Hw Hq He).
    split; [reflexivity|].
    unfold processes, extend, note. destruct progressCallback; reflexivity.
  - intros error drivers Hr.
    destruct (execPromise_answer host checkCommand) as [stdout stderr|message] eqn:He.
    + destruct (checkDriverUpdates_resolved host progressCallback stdout stderr Hw Hq He)
        as (s' & Hrun & _ & _).
      rewrite Hrun in Hr. discriminate Hr.
    + rewrite (checkDriverUpdates_rejected host progressCallback message Hw Hq He) in Hr.
      cbn [fst] in Hr. inversion Hr. now split.
  - intros ws1 body ws2 stderr syntaxError He H1 H2 Hs Hn Hp.
    destruct (checkDriverUpdates_resolved host progressCallback _ stderr Hw Hq He)
      as (s' & Hrun & Hproc & Hlog).
    rewrite Hrun. cbn [fst snd].
    rewrite (drivers_of_padded host ws1 body ws2 H1 H2 Hs Hn), Hp. cbn [length].
    repeat split; auto.
    apply (Hlog syntaxError); rewrite (trim_solid ws1 body ws2 H1 H2 Hs);
      [exact Hp | now apply solid_guard].
Qed.

Lemma C4_single_detection_method_witness :
  is_win32 Demo.windows_no_powershell = true
  /\ quiet None
  /\ execPromise_answer Demo.windows_no_powershell checkCommand
     = Rejected "spawn powershell ENOENT"
  /\ fst (checkDriverUpdates Demo.windows_no_powershell None initial)
     = Return (CheckFailed "spawn powershell ENOENT" [])
  /\ fst (checkDriverUpdates
            (Demo.machine "win32" ("Searching..." ++ nl) (Rejected EmptyString))
            None initial)
     = Return (CheckOk 0 [] (found_message 0)).
Proof.
  split; [reflexivity|]. split; [exact quiet_none|]. split; [reflexivity|].
  destruct (C4_single_detection_method Demo.windows_no_powershell None
              eq_refl quiet_none) as [H _].
  destruct (C4_single_detection_method
              (Demo.machine "win32" ("Searching..." ++ nl) (Rejected EmptyString)) None
              eq_refl quiet_none) as (_ & _ & H').
  split; [exact (proj1 (H "spawn powershell ENOENT" eq_refl))|].
  assert (Hn : "Searching..." <> "null") by discriminate.
  exact (proj1 (H' EmptyString "Searching..." nl EmptyString
                  "Unexpected token in JSON"
                  eq_refl eq_refl eq_refl eq_refl Hn eq_refl)).
Defined.

(** C7 holds for checkDriverUpdates and fails for checkWindowsUpdates.
    When the detection process of checkDriverUpdates resolves, its output
    is turned into a driver list without throwing: an output of white
    space only, and the absence marker [null] with white space around it,
    give the empty list; a single JSON object gives the one-element list;
    a JSON array gives its elements; the result is [{success: true,
    driversFound: n, ...}] with n the length of the list, so an empty or
    [null] output is reported as success with count 0. checkWindowsUpdates
    has no check for the absence marker: [JSON.parse] of the output [null]
    is [null], which is not an array, and the result is success with
    count 1 and the one update [null]. The texts are in ASCII: white space
    is ASCII white space, and the object or array text begins and ends
    with an ASCII character other than white space. *)
Theorem C7_normalization_and_the_absence_marker
  host progressCallback stdout stderr ws1 ws2 :
  quiet progressCallback ->
  every is_space ws1 = true ->
  every is_space ws2 = true ->
  (is_win32 host = true ->
   execPromise_answer host checkCommand = Resolved stdout stderr ->
   (stdout = ws1 \/ stdout = ws1 ++ "null" ++ ws2 ->
    fst (checkDriverUpdates host progressCallback initial)
    = Return (CheckOk 0 [] (found_message 0)))
   /\ (forall body fields,
          stdout = ws1 ++ body ++ ws2 -> solid body = true -> body <> "null" ->
          JSON_parse host body = inr (JObj fields) ->
          fst (checkDriverUpdates host progressCallback initial)
          = Return (CheckOk 1 [JObj fields] (found_message 1)))
   /\ (forall body items,
          stdout = ws1 ++ body ++ ws2 -> solid body = true -> body <> "null" ->
          JSON_parse host body = inr (JArr items) ->
          fst (checkDriverUpdates host progressCallback initial)
          = Return (CheckOk (length items) items (found_message (length items)))))
  /\ (execPromise_answer host SystemUpdater.checkCommand = Resolved stdout stderr ->
      truthy stdout = true ->
      JSON_parse host stdout = inr JNull ->
      fst (SystemUpdater.checkWindowsUpdates host progressCallback initial)
      = Return (SystemUpdater.CheckOk true 1 [JNull] "1 update(s) available")).
Proof.
  intros Hq H1 H2. split.
  - intros Hw He.
    destruct (checkDriverUpdates_resolved host progressCallback stdout stderr Hw Hq He)
      as (s' & Hrun & _ & _).
    rewrite Hrun. cbn [fst]. repeat split.
    + intros [-> | ->]; [rewrite (drivers_of_blank host ws1 H1)
                        |rewrite (drivers_of_null host ws1 ws2 H1 H2)]; reflexivity.
    + intros body fields -> Hs Hn Hp.
      now rewrite (drivers_of_padded host ws1 body ws2 H1 H2 Hs Hn), Hp.
    + intros body items -> Hs Hn Hp.
      now rewrite (drivers_of_padded host ws1 body ws2 H1 H2 Hs Hn), Hp.
  - intros He Ht Hp.
    unfold SystemUpdater.checkWindowsUpdates. js_run.
    rewrite (notify_quiet _ _ _ Hq). js_step. rewrite He. js_step.
    unfold or_else. rewrite Ht, Hp. js_step.
    rewrite (notify_quiet _ _ _ Hq). js_step. reflexivity.
Qed.

Lemma C7_normalization_and_the_absence_marker_witness :
  fst (checkDriverUpdates (Demo.machine "win32" (" null" ++ nl) (Rejected EmptyString))
         None initial)
  = Return (CheckOk 0 [] (found_message 0))
  /\ fst (checkDriverUpdates (Demo.machine "win32" (" {}" ++ nl) (Rejected EmptyString))
            None initial)
     = Return (CheckOk 1 [JObj []] (found_message 1))
  /\ fst (SystemUpdater.checkWindowsUpdates
            (Demo.machine "win32" "null" (Rejected EmptyString)) None initial)
     = Return (SystemUpdater.CheckOk true 1 [JNull] "1 update(s) available").
Proof.
  assert (Hn : "{}" <> "null") by discriminate.
  split; [|split].
  - destruct (C7_normalization_and_the_absence_marker
                (Demo.machine "win32" (" null" ++ nl) (Rejected EmptyString))
                None (" null" ++ nl) EmptyString " " nl quiet_none eq_refl eq_refl)
      as [H _].
    destruct (H eq_refl eq_refl) as [H0 _]. apply H0. right. reflexivity.
  - destruct (C7_normalization_and_the_absence_marker
                (Demo.machine "win32" (" {}" ++ nl) (Rejected EmptyString))
                None (" {}" ++ nl) EmptyString " " nl quiet_none eq_refl eq_refl)
      as [H _].
    destruct (H eq_refl eq_refl) as (_ & H1 & _).
    exact (H1 "{}" [] eq_refl eq_refl Hn eq_refl).
  - destruct (C7_normalization_and_the_absence_marker
                (Demo.machine "win32" "null" (Rejected EmptyString))
                None "null" EmptyString EmptyString EmptyString
                quiet_none eq_refl eq_refl) as [_ H].
    exact (H eq_refl eq_refl eq_refl).
Defined.

(** The same normalisation on a two-element array and on a single
    object. *)
Example checkDriverUpdates_array :
  fst (checkDriverUpdates (Demo.machine "win32" "[{},{}]" (Rejected EmptyString))
         None initial)
  = Return (CheckOk 2 [JObj []; JObj []] "Found 2 driver update(s) available").
Proof. vm_compute. reflexivity. Qed.

Example checkDriverUpdates_single_object :
  fst (checkDriverUpdates (Demo.machine "win32" ("{}" ++ nl) (Rejected EmptyString))
         None initial)
  = Return (CheckOk 1 [JObj []] "Found 1 driver update(s) available").
Proof. vm_compute. reflexivity. Qed.

(** An empty output is no update for checkWindowsUpdates: [[]] is parsed
    in its place. *)
Lemma checkWindowsUpdates_empty_output :
  fst (SystemUpdater.checkWindowsUpdates
         (Demo.machine "win32" EmptyString (Rejected EmptyString)) None initial)
  = Return (SystemUpdater.CheckOk false 0 [] "Your system is up to date").
Proof. vm_compute. reflexivity. Qed.

(** ** The install pipeline of updateDrivers *)

(** Rewrites a trace into right-nested form. *)
Ltac trace_normal := rewrite <- ?List.app_assoc; cbn [app].

(** The cleanup stage never throws. *)
Lemma cleanup_stage_run host s :
  cleanup_stage host s
  = (Return tt, {| trace := (trace s ++ cleanup_events host)%list;
                   files := cleanup_files host (files s);
                   results := results s |}).
Proof.
  unfold cleanup_stage, cleanup_events, cleanup_files. js_run.
  destruct (unlink_answer host (scriptPath host)); js_run; trace_normal; reflexivity.
Qed.

(** Reading the result never throws. *)
Lemma parse_install_result_run host stdout s :
  parse_install_result host stdout s
  = (Return (parsed_result host stdout), extend s (parse_events host stdout)).
Proof.
  unfold parse_install_result, parsed_result, parse_events. js_run.
  destruct (ResultRegex.match_result stdout); js_run;
    [destruct (JSON_parse_result host s0); js_run|];
    rewrite ?extend_nil; reflexivity.
Qed.

(** Runs updateDrivers up to the answer of the install process. *)
Ltac launch Hw Hq Hwr :=
  unfold updateDrivers; rewrite Hw; cbn [negb];
  match goal with
  | Hne : ?ids <> [] |- _ =>
      destruct ids as [|?id ?ids]; [congruence|]
  end;
  unfold install_try; js_run;
  rewrite (notify_quiet _ _ _ Hq); js_step;
  rewrite (restore_point_stage_run _ _ Hw); js_step;
  rewrite (notify_quiet _ _ _ Hq); js_step;
  rewrite Hwr; js_step;
  rewrite (notify_quiet _ _ _ Hq); js_step.

(** The run of updateDrivers when the install process is rejected: the
    [catch] block marks every requested id as failed. *)
Lemma updateDrivers_rejected_run host progressCallback driverIds message :
  is_win32 host = true ->
  driverIds <> [] ->
  quiet progressCallback ->
  writeFile_answer host (scriptPath host) (installScript driverIds) = None ->
  execPromise_answer host (installCommand host) = Rejected message ->
  updateDrivers host (Some driverIds) progressCallback initial
  = (Return (Failure (errorMessage_of message) (all_failed driverIds)),
     {| trace := (launched_trace host progressCallback driverIds
                  ++ [Console Err ("[DRIVER_UPDATER] Error: " ++ message)])%list;
        files := <[scriptPath host := installScript driverIds]> ∅;
        results := all_failed driverIds |}).
Proof.
  intros Hw Hne Hq Hwr He. launch Hw Hq Hwr.
  rewrite He. unfold install_catch. js_step.
  unfold launched_trace, prepared_trace, errorMessage_of, all_failed.
  trace_normal. reflexivity.
Qed.

(** The run of updateDrivers when the install process resolves. *)
Lemma updateDrivers_resolved_run host progressCallback driverIds stdout stderr :
  is_win32 host = true ->
  driverIds <> [] ->
  quiet progressCallback ->
  writeFile_answer host (scriptPath host) (installScript driverIds) = None ->
  execPromise_answer host (installCommand host) = Resolved stdout stderr ->
  updateDrivers host (Some driverIds) progressCallback initial
  = (Return (report_of host driverIds stdout stderr),
     {| trace := resolved_trace host progressCallback driverIds stdout stderr;
        files := cleanup_files host (<[scriptPath host := installScript driverIds]> ∅);
        results := report_data driverIds (parsed_result host stdout) stdout |}).
Proof.
  intros Hw Hne Hq Hwr He. launch Hw Hq Hwr.
  rewrite He. js_step.
  unfold resolved_trace, launched_trace, prepared_trace, report_of, report_data.
  destruct (truthy stderr); js_step;
    rewrite cleanup_stage_run; js_step;
    rewrite parse_install_result_run; js_step;
    (destruct (is_success (resultCode_of (parsed_result host stdout))); js_step;
     rewrite (notify_quiet _ _ _ Hq); js_step; trace_normal; reflexivity).
Qed.

(** The run of updateDrivers when the script cannot be written. *)
Lemma updateDrivers_write_failed_run host progressCallback driverIds message :
  is_win32 host = true ->
  driverIds <> [] ->
  quiet progressCallback ->
  writeFile_answer host (scriptPath host) (installScript driverIds) = Some message ->
  updateDrivers host (Some driverIds) progressCallback initial
  = (Return (Failure (errorMessage_of message) (all_failed driverIds)),
     {| trace := (prepared_trace host progressCallback driverIds
                  ++ [Console Err ("[DRIVER_UPDATER] Error: " ++ message)])%list;
        files := ∅;
        results := all_failed driverIds |}).
Proof.
  intros Hw Hne Hq Hwr.
  unfold updateDrivers; rewrite Hw; cbn [negb].
  destruct driverIds as [|id ids]; [congruence|].
  unfold install_try; js_run.
  rewrite (notify_quiet _ _ _ Hq); js_step.
  rewrite (restore_point_stage_run _ _ Hw); js_step.
  rewrite (notify_quiet _ _ _ Hq); js_step.
  rewrite Hwr. unfold install_catch. js_step.
  unfold prepared_trace, errorMessage_of, all_failed.
  trace_normal. reflexivity.
Qed.

(** ** Result interpretation (C2) *)

Lemma resultText_unknown code :
  (code < 0 \/ 5 < code)%Z -> resultText_of code = "Unknown".
Proof.
  intros H. unfold resultText_of, RESULT_CODES.
  destruct code as [|p|p]; [lia| |reflexivity].
  destruct p as [[[p|p|]|[p|p|]|]|[[p|p|]|[p|p|]|]|]; try reflexivity; lia.
Qed.

Lemma is_success_spec code :
  is_success code = true <-> (code = 2 \/ code = 3)%Z.
Proof.
  unfold is_success. rewrite orb_true_iff, !Z.eqb_eq. reflexivity.
Qed.

(** The classification that updateDrivers applies to a result it reads,
    that is, when [execPromise] resolved: codes 2 and 3 give
    [success: true] with every requested id in [updated], nothing in
    [failed], and [rebootRequired] true if the RebootRequired flag of the
    result line is, or if the output has the text "Reboot Required: True"
    anywhere. Every other code gives [success: false] with every
    requested id in [failed]; the result text of a code outside 0..5 is
    "Unknown". *)
Lemma updateDrivers_classifies_a_resolved_result
  host progressCallback driverIds stdout stderr installResult code :
  is_win32 host = true ->
  driverIds <> [] ->
  quiet progressCallback ->
  writeFile_answer host (scriptPath host) (installScript driverIds) = None ->
  execPromise_answer host (installCommand host) = Resolved stdout stderr ->
  parsed_result host stdout = Some installResult ->
  ResultCode installResult = Some code ->
  let outcome := fst (updateDrivers host (Some driverIds) progressCallback initial) in
  let flag := match RebootRequired installResult with Some b => b | None => false end in
  let data := {| updated := driverIds; failed := [];
                 rebootRequired := flag || includes stdout "Reboot Required: True" |} in
  ((code = 2 \/ code = 3)%Z ->
   outcome = Return (Report true data (success_message data) code (resultText_of code)))
  /\ (~ (code = 2 \/ code = 3)%Z ->
      outcome = Return (Report false (all_failed driverIds)
                          (failure_message (resultText_of code) stderr)
                          code (resultText_of code)))
  /\ resultText_of 2 = "Succeeded"
  /\ resultText_of 3 = "Succeeded with Errors"
  /\ resultText_of 4 = "Failed"
  /\ ((code < 0 \/ 5 < code)%Z -> resultText_of code = "Unknown").
Proof.
  intros Hw Hne Hq Hwr He Hp Hc. cbv zeta.
  rewrite (updateDrivers_resolved_run host progressCallback driverIds stdout stderr
             Hw Hne Hq Hwr He).
  cbn [fst]. unfold report_of, report_data. rewrite Hp.
  cbn [resultCode_of]. rewrite Hc. unfold reboot_of.
  repeat split; try reflexivity.
  - intros H. apply is_success_spec in H. now rewrite H.
  - intros H. destruct (is_success code) eqn:Hs; [|reflexivity].
    apply is_success_spec in Hs. contradiction.
  - apply resultText_unknown.
Qed.

(** The exit status of the install script is the result code it printed,
    and 4 when it printed none. *)
Lemma script_exit_status TargetDriverIDs agent :
  InstallScript.exit_status (InstallScript.run TargetDriverIDs agent)
  = match InstallScript.printed (InstallScript.run TargetDriverIDs agent) with
    | Some p => InstallScript.printed_ResultCode p
    | None => 4%Z
    end.
Proof.
  unfold InstallScript.run.
  destruct (InstallScript.Search agent) as [available|]; [|reflexivity].
  destruct (length (InstallScript.UpdatesToInstall TargetDriverIDs available) =? 0)%nat;
    [reflexivity|].
  destruct (InstallScript.Download agent _) as [[|p|p]|]; try reflexivity.
  destruct p as [p|[p|p|]|]; try reflexivity.
  destruct (InstallScript.Install agent _) as [[code reboot]|]; reflexivity.
Qed.

(** The answer of [execPromise] for a process that exited. *)
Lemma execPromise_answer_exited host command code stdout stderr :
  run_process host command = Exited code stdout stderr ->
  execPromise_answer host command
  = if (code =? 0)%Z then Resolved stdout stderr
    else Rejected ("Command failed: " ++ command ++ nl ++ stderr).
Proof.
  intros H. unfold execPromise_answer. rewrite H. now destruct code.
Qed.


(** C2 fails on the code. The install script of updateDrivers ends with
    [exit $InstallResult.ResultCode], and [execPromise] rejects when the
    process exits with a status other than 0. So on a host that runs the
    script, whenever the installer reported a code other than 0, codes 2
    (Succeeded) and 3 (Succeeded with Errors) included, updateDrivers
    never reads the result line: the [catch] block returns
    [{success: false, error, data}] with every requested id in [failed],
    nothing in [updated] and [rebootRequired] false, the error being made
    from 'Command failed: ', the command, a line feed and the error
    output. installWindowsUpdates, for its part, does not classify the
    code at all: whenever its process resolves it reports success. *)
Theorem C2_install_result_is_lost
  host progressCallback driverIds targets agent p code stdout stderr :
  is_win32 host = true ->
  driverIds <> [] ->
  quiet progressCallback ->
  writeFile_answer host (scriptPath host) (installScript driverIds) = None ->
  runs_install_script host targets agent ->
  InstallScript.printed (InstallScript.run targets agent) = Some p ->
  run_process host (installCommand host) = Exited code stdout stderr ->
  (InstallScript.printed_ResultCode p <> 0%Z ->
   fst (updateDrivers host (Some driverIds) progressCallback initial)
   = Return (Failure
               (errorMessage_of
                  ("Command failed: " ++ installCommand host ++ nl ++ stderr))
               (all_failed driverIds))
   /\ success_of (Failure
                    (errorMessage_of
                       ("Command failed: " ++ installCommand host ++ nl ++ stderr))
                    (all_failed driverIds)) = false)
  /\ (forall out err,
         execPromise_answer host SystemUpdater.installCommand = Resolved out err ->
         exists requiresRestart message,
           fst (SystemUpdater.installWindowsUpdates host progressCallback initial)
           = Return (SystemUpdater.Installed requiresRestart message)).
Proof.
  intros Hw Hne Hq Hwr Hrun Hp Hx. split.
  - intros Hc. split; [|reflexivity].
    destruct (Hrun code stdout stderr Hx) as [Hcode _].
    rewrite script_exit_status, Hp in Hcode.
    assert (He : execPromise_answer host (installCommand host)
                 = Rejected ("Command failed: " ++ installCommand host ++ nl ++ stderr)).
    { rewrite (execPromise_answer_exited host _ code stdout stderr Hx).
      destruct (Z.eqb_spec code 0) as [E|E]; [congruence|reflexivity]. }
    now rewrite (updateDrivers_rejected_run host progressCallback driverIds _
                   Hw Hne Hq Hwr He).
  - intros out err He. unfold SystemUpdater.installWindowsUpdates. js_run.
    rewrite (notify_quiet _ _ _ Hq). js_step.
    rewrite (notify_quiet _ _ _ Hq). js_step.
    rewrite He. js_step.
    rewrite (notify_quiet _ _ _ Hq). js_step.
    eexists. eexists. reflexivity.
Qed.

Lemma demo_runs_install_script :
  runs_install_script Demo.windows_installing ["A"] Demo.agent_ABC.
Proof.
  intros code stdout stderr H. vm_compute in H. inversion H; subst.
  split; reflexivity.
Qed.

Lemma C2_install_result_is_lost_witness :
  InstallScript.exit_status (InstallScript.run ["A"] Demo.agent_ABC) = 2%Z
  /\ fst (updateDrivers Demo.windows_installing (Some ["A"]) None initial)
     = Return (Failure
                 (errorMessage_of
                    ("Command failed: " ++ installCommand Demo.windows_installing
                     ++ nl ++ EmptyString))
                 (all_failed ["A"])).
Proof.
  assert (Hne : ["A"] <> @nil string) by discriminate.
  assert (Hc : 2%Z <> 0%Z) by discriminate.
  split; [reflexivity|].
  destruct (C2_install_result_is_lost Demo.windows_installing None ["A"] ["A"]
              Demo.agent_ABC
              {| InstallScript.printed_ResultCode := 2;
                 InstallScript.printed_ResultText := "Succeeded";
                 InstallScript.printed_RebootRequired := false;
                 InstallScript.printed_UpdatedDrivers := ["Driver A"];
                 InstallScript.printed_UpdateCount := 1 |}
              2%Z Demo.succeeded_stdout EmptyString
              eq_refl Hne quiet_none eq_refl demo_runs_install_script eq_refl eq_refl)
    as [H _].
  exact (proj1 (H Hc)).
Defined.

(** When the result line is missing or does not parse, the code defaults
    to 4 and the run is reported as failed. *)
Lemma updateDrivers_unreadable_result host progressCallback driverIds stdout stderr :
  is_win32 host = true ->
  driverIds <> [] ->
  quiet progressCallback ->
  writeFile_answer host (scriptPath host) (installScript driverIds) = None ->
  execPromise_answer host (installCommand host) = Resolved stdout stderr ->
  parsed_result host stdout = None ->
  fst (updateDrivers host (Some driverIds) progressCallback initial)
  = Return (Report false (all_failed driverIds)
              (failure_message "Failed" stderr) 4 "Failed").
Proof.
  intros Hw Hne Hq Hwr He Hp.
  rewrite (updateDrivers_resolved_run host progressCallback driverIds stdout stderr
             Hw Hne Hq Hwr He).
  cbn [fst]. unfold report_of, report_data. now rewrite Hp.
Qed.

(** installWindowsUpdates, the install of the system updater, has no id
    list and no result text, and it does not classify the code it reads:
    whenever its process resolves it reports success. *)
Lemma installWindowsUpdates_reports_success host progressCallback stdout stderr :
  quiet progressCallback ->
  execPromise_answer host SystemUpdater.installCommand = Resolved stdout stderr ->
  exists message,
    fst (SystemUpdater.installWindowsUpdates host progressCallback initial)
    = Return (SystemUpdater.Installed
                (match SystemUpdater.parseInt (trim stdout) with
                 | Some 3%Z => true
                 | _ => false
                 end) message).
Proof.
  intros Hq He. unfold SystemUpdater.installWindowsUpdates. js_run.
  rewrite (notify_quiet _ _ _ Hq). js_step.
  rewrite (notify_quiet _ _ _ Hq). js_step.
  rewrite He. js_step.
  rewrite (notify_quiet _ _ _ Hq). js_step.
  eexists. reflexivity.
Qed.

Example installWindowsUpdates_code_4 :
  fst (SystemUpdater.installWindowsUpdates
         (Demo.machine "win32" ("4" ++ nl) (Rejected EmptyString)) None initial)
  = Return (SystemUpdater.Installed false "Updates installed successfully").
Proof. vm_compute. reflexivity. Qed.

(** ** The temporary script file (C5) *)

Lemma launched_trace_has_no_unlink host progressCallback driverIds :
  List.filter is_unlink (launched_trace host progressCallback driverIds) = [].
Proof.
  unfold launched_trace, prepared_trace, restore_events, note.
  rewrite !List.filter_app.
  destruct progressCallback;
    destruct (execPromise_answer host (restoreCommand "Before Driver Updates"));
    try destruct (includes stdout "SUCCESS"); reflexivity.
Qed.

(** C5 fails on the code: the script file is removed only on the path on
    which the install process resolves. When the process is rejected (it
    fails or runs into the timeout) control passes to the [catch] block,
    which does not unlink: updateDrivers returns the failure while the
    script file it wrote is still there, and fs.unlink was never
    called. *)
Theorem C5_script_file_left_when_install_rejected
  host progressCallback driverIds message :
  is_win32 host = true ->
  driverIds <> [] ->
  quiet progressCallback ->
  writeFile_answer host (scriptPath host) (installScript driverIds) = None ->
  execPromise_answer host (installCommand host) = Rejected message ->
  let run := updateDrivers host (Some driverIds) progressCallback initial in
  fst run = Return (Failure (errorMessage_of message) (all_failed driverIds))
  /\ files (snd run) !! scriptPath host = Some (installScript driverIds)
  /\ List.filter is_unlink (trace (snd run)) = [].
Proof.
  intros Hw Hne Hq Hwr He. cbv zeta.
  rewrite (updateDrivers_rejected_run host progressCallback driverIds message
             Hw Hne Hq Hwr He).
  cbn [fst snd files trace]. split; [reflexivity|]. split.
  - apply lookup_insert_eq.
  - rewrite List.filter_app, launched_trace_has_no_unlink. reflexivity.
Qed.

Lemma C5_script_file_left_when_install_rejected_witness :
  let run := updateDrivers Demo.windows_timeout (Some ["A"]) None initial in
  fst run
  = Return (Failure "Command failed: powershell -ExecutionPolicy Bypass -File driver-update.ps1"
              (all_failed ["A"]))
  /\ files (snd run) !! scriptPath Demo.windows_timeout = Some (installScript ["A"])
  /\ List.filter is_unlink (trace (snd run)) = [].
Proof.
  assert (Hne : ["A"] <> @nil string) by discriminate.
  exact (C5_script_file_left_when_install_rejected Demo.windows_timeout None ["A"]
           "Command failed: powershell -ExecutionPolicy Bypass -File driver-update.ps1"
           eq_refl Hne quiet_none eq_refl eq_refl).
Defined.

(** On the path on which the process resolves the file is removed,
    provided fs.unlink itself succeeds. *)
Lemma updateDrivers_removes_script_when_resolved
  host progressCallback driverIds stdout stderr :
  is_win32 host = true ->
  driverIds <> [] ->
  quiet progressCallback ->
  writeFile_answer host (scriptPath host) (installScript driverIds) = None ->
  execPromise_answer host (installCommand host) = Resolved stdout stderr ->
  unlink_answer host (scriptPath host) = None ->
  files (snd (updateDrivers host (Some driverIds) progressCallback initial))
    !! scriptPath host = None.
Proof.
  intros Hw Hne Hq Hwr He Hu.
  rewrite (updateDrivers_resolved_run host progressCallback driverIds stdout stderr
             Hw Hne Hq Hwr He).
  cbn [snd files]. unfold cleanup_files. rewrite Hu. apply lookup_delete_eq.
Qed.

(** ** The restore point (C6) *)

Lemma restore_events_on_failure host :
  restore_point_fails host ->
  exists warning,
    restore_events host
    = [Exec (restoreCommand "Before Driver Updates") (Some 30000%N);
       Console Warn warning].
Proof.
  unfold restore_point_fails, restore_events.
  destruct (execPromise_answer host (restoreCommand "Before Driver Updates")).
  - intros H. rewrite H. eexists. reflexivity.
  - intros _. eexists. reflexivity.
Qed.

(** C6: in every install run of updateDrivers (Windows, non-empty
    selection) the restore-point stage is followed by the preparation:
    whatever createRestorePoint did, the trace continues with the
    "Preparing driver updates..." checkpoint and the write of the install
    script, and, when that write succeeds, with the start of the install
    process. When createRestorePoint fails, the stage leaves exactly the
    start of its process and one console warning behind, and the run still
    ends in a returned result. *)
Theorem C6_restore_point_failure_does_not_abort host progressCallback driverIds :
  is_win32 host = true ->
  driverIds <> [] ->
  quiet progressCallback ->
  let run := updateDrivers host (Some driverIds) progressCallback initial in
  (exists rest,
      trace (snd run)
      = (note progressCallback
           (checkpoint "Creating system restore point..." 0 driverIds)
         ++ restore_events host
         ++ note progressCallback
              (checkpoint "Preparing driver updates..." 1 driverIds)
         ++ WriteFile (scriptPath host) (installScript driverIds) :: rest)%list
      /\ (writeFile_answer host (scriptPath host) (installScript driverIds) = None ->
          In (Exec (installCommand host) (Some 1800000%N)) rest))
  /\ (restore_point_fails host ->
      exists warning,
        restore_events host
        = [Exec (restoreCommand "Before Driver Updates") (Some 30000%N);
           Console Warn warning])
  /\ (exists result, fst run = Return result).
Proof.
  intros Hw Hne Hq. cbv zeta.
  split; [|split; [apply restore_events_on_failure|]].
  - destruct (writeFile_answer host (scriptPath host) (installScript driverIds))
      as [m|] eqn:Hwr.
    + rewrite (updateDrivers_write_failed_run host progressCallback driverIds m
                 Hw Hne Hq Hwr).
      cbn [snd trace]. unfold prepared_trace. trace_normal.
      eexists. split; [reflexivity|]. intros H. discriminate H.
    + destruct (execPromise_answer host (installCommand host)) as [out err|m] eqn:He.
      * rewrite (updateDrivers_resolved_run host progressCallback driverIds out err
                   Hw Hne Hq Hwr He).
        cbn [snd trace]. unfold resolved_trace, launched_trace, prepared_trace.
        trace_normal. eexists. split; [reflexivity|]. intros _.
        right. apply in_or_app. right. right. now left.
      * rewrite (updateDrivers_rejected_run host progressCallback driverIds m
                   Hw Hne Hq Hwr He).
        cbn [snd trace]. unfold launched_trace, prepared_trace.
        trace_normal. eexists. split; [reflexivity|]. intros _.
        right. apply in_or_app. right. right. now left.
  - destruct (writeFile_answer host (scriptPath host) (installScript driverIds))
      as [m|] eqn:Hwr.
    + rewrite (updateDrivers_write_failed_run host progressCallback driverIds m
                 Hw Hne Hq Hwr). eexists. reflexivity.
    + destruct (execPromise_answer host (installCommand host)) as [out err|m] eqn:He.
      * rewrite (updateDrivers_resolved_run host progressCallback driverIds out err
                   Hw Hne Hq Hwr He). eexists. reflexivity.
      * rewrite (updateDrivers_rejected_run host progressCallback driverIds m
                   Hw Hne Hq Hwr He). eexists. reflexivity.
Qed.

Lemma C6_restore_point_failure_does_not_abort_witness :
  restore_point_fails Demo.windows_no_powershell
  /\ (exists rest,
         trace (snd (updateDrivers Demo.windows_no_powershell (Some ["A"]) None initial))
         = (note None (checkpoint "Creating system restore point..." 0 ["A"])
            ++ restore_events Demo.windows_no_powershell
            ++ note None (checkpoint "Preparing driver updates..." 1 ["A"])
            ++ WriteFile (scriptPath Demo.windows_no_powershell) (installScript ["A"])
               :: rest)%list
         /\ (writeFile_answer Demo.windows_no_powershell
               (scriptPath Demo.windows_no_powershell) (installScript ["A"]) = None ->
             In (Exec (installCommand Demo.windows_no_powershell) (Some 1800000%N)) rest)).
Proof.
  assert (Hne : ["A"] <> @nil string) by discriminate.
  split; [exact I|].
  exact (proj1 (C6_restore_point_failure_does_not_abort Demo.windows_no_powershell
                  None ["A"] eq_refl Hne quiet_none)).
Defined.

(** ** Attribution of the requested ids (C1, C10) *)

(** The [catch] block of updateDrivers. *)
Lemma install_catch_run driverIds error s :
  install_catch driverIds error s
  = (Return (Failure (errorMessage_of error)
               {| updated := updated (results s); failed := driverIds;
                  rebootRequired := rebootRequired (results s) |}),
     {| trace := (trace s ++ [Console Err ("[DRIVER_UPDATER] Error: " ++ error)])%list;
        files := files s;
        results := {| updated := updated (results s); failed := driverIds;
                      rebootRequired := rebootRequired (results s) |} |}).
Proof. reflexivity. Qed.

(** Every run of updateDrivers on Windows with a non-empty selection ends
    in a returned result, whatever the host answers and whether the
    progress callback returns or throws an [Error]. On success the whole
    request is in [updated] and nothing is in [failed]; on failure the
    whole request is in [failed]. *)
Lemma updateDrivers_shape host progressCallback driverIds s :
  is_win32 host = true ->
  driverIds <> [] ->
  exists result s',
    updateDrivers host (Some driverIds) progressCallback s = (Return result, s')
    /\ ((success_of result = true
         /\ updated (data_of result) = driverIds /\ failed (data_of result) = [])
        \/ (success_of result = false
            /\ failed (data_of result) = driverIds
            /\ (updated (data_of result) = []
                \/ updated (data_of result) = driverIds))).
Proof.
  intros Hw Hne. unfold updateDrivers. rewrite Hw. cbn [negb].
  destruct driverIds as [|id ids]; [congruence|].
  set (l := id :: ids).
  unfold install_try, notify. js_run.
  repeat (first [ rewrite (restore_point_stage_run _ _ Hw)
                | rewrite cleanup_stage_run
                | rewrite parse_install_result_run
                | rewrite install_catch_run
                | split_match ];
          js_step);
    eexists; eexists; (split; [reflexivity|]);
    cbn [success_of data_of updated failed empty_results]; auto.
Qed.

(** With a progress callback that returns normally the two shapes are
    exact, whatever the host answers: all updated and none failed, or all
    failed and none updated. *)
Lemma updateDrivers_all_or_nothing host progressCallback driverIds :
  is_win32 host = true ->
  driverIds <> [] ->
  quiet progressCallback ->
  exists result,
    fst (updateDrivers host (Some driverIds) progressCallback initial) = Return result
    /\ ((success_of result = true
         /\ updated (data_of result) = driverIds /\ failed (data_of result) = [])
        \/ (success_of result = false
            /\ updated (data_of result) = [] /\ failed (data_of result) = driverIds)).
Proof.
  intros Hw Hne Hq.
  destruct (writeFile_answer host (scriptPath host) (installScript driverIds))
    as [m|] eqn:Hwr.
  - rewrite (updateDrivers_write_failed_run host progressCallback driverIds m
               Hw Hne Hq Hwr). eexists. split; [reflexivity|]. right. auto.
  - destruct (execPromise_answer host (installCommand host)) as [out err|m] eqn:He.
    + rewrite (updateDrivers_resolved_run host progressCallback driverIds out err
                 Hw Hne Hq Hwr He).
      eexists. split; [reflexivity|].
      unfold report_of, report_data. cbn [fst success_of data_of].
      destruct (is_success (resultCode_of (parsed_result host out))); cbn; auto.
    + rewrite (updateDrivers_rejected_run host progressCallback driverIds m
                 Hw Hne Hq Hwr He). eexists. split; [reflexivity|]. right. auto.
Qed.

(** When a run of updateDrivers read a success and its last checkpoint
    throws, the [catch] block adds the request to [results.failed] while
    [results.updated] still holds it. This takes an install process that
    exits with status 0 after printing a success code, which the install
    script never does; the host below is such a stand-in. *)
Example updateDrivers_both_lists_on_a_stand_in :
  fst (updateDrivers Demo.windows (Some ["A"]) Demo.closed_window initial)
  = Return (Failure "Object has been destroyed"
              {| updated := ["A"]; failed := ["A"]; rebootRequired := false |}).
Proof. vm_compute. reflexivity. Qed.



(** *** The install target of the script *)

Lemma UpdatesToInstall_spec TargetDriverIDs available u :
  In u (InstallScript.UpdatesToInstall TargetDriverIDs available)
  <-> In u available
      /\ InstallScript.contains TargetDriverIDs (InstallScript.UpdateID u) = true.
Proof. unfold InstallScript.UpdatesToInstall. apply List.filter_In. Qed.

Lemma contains_spec TargetDriverIDs id :
  InstallScript.contains TargetDriverIDs id = true
  <-> exists target, In target TargetDriverIDs /\ ieqb target id = true.
Proof. unfold InstallScript.contains. apply List.existsb_exists. Qed.

Lemma ieqb_refl s : ieqb s s = true.
Proof.
  induction s as [|c s IH]; [reflexivity|].
  cbn [ieqb]. now rewrite Ascii.eqb_refl, IH.
Qed.

(** Every collection the script hands to the downloader or the installer
    is the filtered one. *)
Lemma script_steps_use_the_filtered_target TargetDriverIDs agent available step :
  InstallScript.Search agent = Some available ->
  In step (InstallScript.steps (InstallScript.run TargetDriverIDs agent)) ->
  InstallScript.target_of step = InstallScript.UpdatesToInstall TargetDriverIDs available.
Proof.
  intros Hs. unfold InstallScript.run. rewrite Hs.
  destruct (length (InstallScript.UpdatesToInstall TargetDriverIDs available) =? 0)%nat;
    [intros []|].
  destruct (InstallScript.Download agent _) as [[|p|p]|]; try (intros [<-|[]]; reflexivity).
  destruct p as [p|[p|p|]|]; try (intros [<-|[]]; reflexivity).
  destruct (InstallScript.Install agent _) as [[code reboot]|];
    intros [<-|[<-|[]]]; reflexivity.
Qed.

(** When the script reaches the installer, its exit status is the
    result code the installer reported, and the printed object names the
    titles of the target. *)
Lemma script_exit_status_is_result_code TargetDriverIDs agent available code reboot :
  InstallScript.Search agent = Some available ->
  InstallScript.UpdatesToInstall TargetDriverIDs available <> [] ->
  InstallScript.Download agent (InstallScript.UpdatesToInstall TargetDriverIDs available)
  = Some 2%Z ->
  InstallScript.Install agent (InstallScript.UpdatesToInstall TargetDriverIDs available)
  = Some (code, reboot) ->
  InstallScript.exit_status (InstallScript.run TargetDriverIDs agent) = code
  /\ exists p,
      InstallScript.printed (InstallScript.run TargetDriverIDs agent) = Some p
      /\ InstallScript.printed_ResultCode p = code
      /\ InstallScript.printed_RebootRequired p = reboot
      /\ InstallScript.printed_UpdatedDrivers p
         = map InstallScript.Title
             (InstallScript.UpdatesToInstall TargetDriverIDs available).
Proof.
  intros Hs Hne Hd Hi. unfold InstallScript.run. rewrite Hs.
  destruct (InstallScript.UpdatesToInstall TargetDriverIDs available) eqn:Hu;
    [congruence|].
  cbn [length Nat.eqb]. rewrite Hd, Hi. cbn.
  split; [reflexivity|]. eexists. repeat split; reflexivity.
Qed.

(** The run of the updateDrivers without selection when its process
    resolves: the whole request is reported as updated. *)
Lemma updateDrivers_all_resolved_run host driverIds progressCallback stdout stderr :
  is_win32 host = true ->
  quiet progressCallback ->
  execPromise_answer host DriverUpdaterAll.installAllCommand = Resolved stdout stderr ->
  fst (DriverUpdaterAll.updateDrivers host driverIds progressCallback initial)
  = Return (DriverUpdaterAll.Updated
              {| updated := driverIds; failed := [];
                 rebootRequired := includes stdout "Reboot Required: True" |}
              ("Successfully updated " ++ dec (N.of_nat (length driverIds))
               ++ " driver(s). "
               ++ (if includes stdout "Reboot Required: True"
                   then "Reboot required." else EmptyString))).
Proof.
  intros Hw Hq He. unfold DriverUpdaterAll.updateDrivers. rewrite Hw. cbn [negb].
  js_run. rewrite (notify_quiet _ _ _ Hq). js_run. rewrite He. js_run.
  rewrite (notify_quiet _ _ _ Hq). js_run. reflexivity.
Qed.

(** C1, as stated, fails on the updateDrivers without selection
    (part_001): the request does not reach its script. With A, B and C
    available and B alone requested, the loop of the script adds all three
    to the target; the process it starts is the one it starts for any
    other request; and when that process resolves, an id that no update
    has, Z, is reported in [updated], not in [failed]. *)
Lemma C1_install_all_ignores_the_request :
  DriverUpdaterAll.UpdatesToInstall
    [Demo.update "A"; Demo.update "B"; Demo.update "C"]
  = [Demo.update "A"; Demo.update "B"; Demo.update "C"]
  /\ processes (snd (DriverUpdaterAll.updateDrivers
                       (Demo.machine "win32" EmptyString (Rejected EmptyString))
                       ["B"] None initial))
     = processes (snd (DriverUpdaterAll.updateDrivers
                         (Demo.machine "win32" EmptyString (Rejected EmptyString))
                         ["A"; "B"; "C"] None initial))
  /\ fst (DriverUpdaterAll.updateDrivers
            (Demo.machine "win32" EmptyString (Rejected EmptyString))
            ["Z"] None initial)
     = Return (DriverUpdaterAll.Updated
                 {| updated := ["Z"]; failed := []; rebootRequired := false |}
                 "Successfully updated 1 driver(s). ").
Proof.
  split; [reflexivity|]. split.
  - now rewrite !(updateDrivers_all_starts_process
                    (Demo.machine "win32" EmptyString (Rejected EmptyString))
                    _ None eq_refl quiet_none).
  - now rewrite (updateDrivers_all_resolved_run
                   (Demo.machine "win32" EmptyString (Rejected EmptyString))
                   ["Z"] None EmptyString EmptyString eq_refl quiet_none eq_refl).
Qed.

(** C1, amended: for every non-empty request whose ids are made of
    letters, digits and hyphens, as are the ids of the available updates,
    the target that the install script of the updateDrivers with selection
    (part_000) hands to the downloader and the installer is exactly the
    available updates whose id is among the requested ids (compared as
    PowerShell does, without regard to letter case), never more; when
    none is found the script downloads nothing and exits with status 4;
    when some are found they are downloaded. The report does not
    distinguish found from unfound ids: every result that updateDrivers
    returns lists the whole request in [updated] on success and in
    [failed] on failure. The updateDrivers without selection (part_001)
    does not select: its script adds every available update to the
    target, and the process it starts on Windows, with a progress callback
    that returns normally, is the same for every request. *)
Theorem C1_exact_target_whole_request_report
  host progressCallback driverIds agent available :
  driverIds <> [] ->
  Forall (fun id => plain_id id = true) driverIds ->
  Forall (fun u => plain_id (InstallScript.UpdateID u) = true) available ->
  InstallScript.Search agent = Some available ->
  let target := InstallScript.UpdatesToInstall driverIds available in
  let script := InstallScript.run driverIds agent in
  (forall step, In step (InstallScript.steps script) ->
                InstallScript.target_of step = target)
  /\ (forall u, In u target <->
                In u available
                /\ exists id, In id driverIds
                              /\ ieqb id (InstallScript.UpdateID u) = true)
  /\ (target = [] ->
      InstallScript.steps script = [] /\ InstallScript.exit_status script = 4%Z)
  /\ (target <> [] -> In (InstallScript.Downloading target) (InstallScript.steps script))
  /\ (forall result s,
         fst (updateDrivers host (Some driverIds) progressCallback s) = Return result ->
         (success_of result = true ->
          updated (data_of result) = driverIds /\ failed (data_of result) = [])
         /\ (success_of result = false -> failed (data_of result) = driverIds))
  /\ DriverUpdaterAll.UpdatesToInstall available = available
  /\ (is_win32 host = true -> quiet progressCallback ->
      processes (snd (DriverUpdaterAll.updateDrivers host driverIds progressCallback
                        initial))
      = [Exec DriverUpdaterAll.installAllCommand (Some 300000%N)]).
Proof.
  intros Hne _ _ Hs. cbv zeta.
  split; [|split; [|split; [|split; [|split; [|split]]]]].
  - intros step. now apply script_steps_use_the_filtered_target.
  - intros u. rewrite UpdatesToInstall_spec, contains_spec. reflexivity.
  - intros Ht. unfold InstallScript.run. rewrite Hs, Ht. split; reflexivity.
  - intros Ht. unfold InstallScript.run. rewrite Hs.
    destruct (InstallScript.UpdatesToInstall driverIds available) eqn:Hu;
      [congruence|]. cbn [length Nat.eqb].
    destruct (InstallScript.Download agent _) as [[|p|p]|]; try (now left).
    destruct p as [p|[p|p|]|]; try (now left).
    destruct (InstallScript.Install agent _) as [[code reboot]|]; now left.
  - intros result s Hret.
    destruct (is_win32 host) eqn:Hw;
      [|unfold updateDrivers in Hret; rewrite Hw in Hret; discriminate Hret].
    destruct (updateDrivers_shape host progressCallback driverIds s Hw Hne)
      as (result' & s' & Hrun & Hshape).
    rewrite Hrun in Hret. cbn [fst] in Hret. inversion Hret; subst result'.
    destruct Hshape as [(H1 & H2 & H3)|(H1 & H2 & _)]; split; intros H;
      try (rewrite H1 in H; discriminate H); auto.
  - reflexivity.
  - intros Hw Hq. now apply updateDrivers_all_starts_process.
Qed.

Lemma C1_exact_target_whole_request_report_witness :
  InstallScript.UpdatesToInstall ["B"]
    [Demo.update "A"; Demo.update "B"; Demo.update "C"] = [Demo.update "B"]
  /\ forall step,
      In step (InstallScript.steps (InstallScript.run ["B"] Demo.agent_ABC)) ->
      InstallScript.target_of step
      = InstallScript.UpdatesToInstall ["B"]
          [Demo.update "A"; Demo.update "B"; Demo.update "C"].
Proof.
  assert (Hne : ["B"] <> @nil string) by discriminate.
  assert (Hids : Forall (fun id => plain_id id = true) ["B"])
    by (repeat constructor).
  assert (Hav : Forall (fun u => plain_id (InstallScript.UpdateID u) = true)
                  [Demo.update "A"; Demo.update "B"; Demo.update "C"])
    by (repeat constructor).
  split; [reflexivity|].
  exact (proj1 (C1_exact_target_whole_request_report Demo.windows_installing None ["B"]
                  Demo.agent_ABC
                  [Demo.update "A"; Demo.update "B"; Demo.update "C"]
                  Hne Hids Hav eq_refl)).
Defined.

(** ** Command construction (C9) *)

Lemma exec_in_restore_events host command timeout :
  In (Exec command timeout) (restore_events host) ->
  command = restoreCommand "Before Driver Updates".
Proof.
  unfold restore_events. intros [H|H]; [now inversion H|].
  destruct (execPromise_answer host (restoreCommand "Before Driver Updates"));
    [destruct (includes stdout "SUCCESS")|];
    destruct H as [H|[]]; discriminate H.
Qed.

Lemma exec_in_cleanup_events host command timeout :
  ~ In (Exec command timeout) (cleanup_events host).
Proof.
  unfold cleanup_events. intros [H|H]; [discriminate H|].
  destruct (unlink_answer host (scriptPath host)); [|destruct H].
  destruct H as [H|[]]; discriminate H.
Qed.

Lemma exec_in_parse_events host stdout command timeout :
  ~ In (Exec command timeout) (parse_events host stdout).
Proof.
  unfold parse_events.
  destruct (ResultRegex.match_result stdout); [|intros []].
  destruct (JSON_parse_result host s); [|intros []].
  intros [H|[]]; discriminate H.
Qed.

Lemma write_in_restore_events host path data :
  ~ In (WriteFile path data) (restore_events host).
Proof.
  unfold restore_events. intros [H|H]; [discriminate H|].
  destruct (execPromise_answer host (restoreCommand "Before Driver Updates"));
    [destruct (includes stdout "SUCCESS")|];
    destruct H as [H|[]]; discriminate H.
Qed.

Lemma write_in_cleanup_events host path data :
  ~ In (WriteFile path data) (cleanup_events host).
Proof.
  unfold cleanup_events. intros [H|H]; [discriminate H|].
  destruct (unlink_answer host (scriptPath host)); [|destruct H].
  destruct H as [H|[]]; discriminate H.
Qed.

Lemma write_in_parse_events host stdout path data :
  ~ In (WriteFile path data) (parse_events host stdout).
Proof.
  unfold parse_events.
  destruct (ResultRegex.match_result stdout); [|intros []].
  destruct (JSON_parse_result host s); [|intros []].
  intros [H|[]]; discriminate H.
Qed.

(** Takes a membership in an explicit trace apart. *)
Ltac trace_cases H :=
  unfold extend in H; cbn [trace] in H;
  rewrite ?in_app_iff in H; cbn [In] in H;
  repeat match type of H with
         | _ \/ _ => destruct H as [H|H]
         end;
  try contradiction; try discriminate H.

(** The events of any run of updateDrivers: the only command lines are
    the restore-point command and the install command, and the only file
    written is the script for the requested ids. *)
Lemma updateDrivers_events host driverIds progressCallback e :
  In e (trace (snd (updateDrivers host driverIds progressCallback initial))) ->
  match e with
  | Exec command _ =>
      command = restoreCommand "Before Driver Updates" \/ command = installCommand host
  | WriteFile path data =>
      path = scriptPath host
      /\ exists ids, driverIds = Some ids /\ data = installScript ids
  | _ => True
  end.
Proof.
  unfold updateDrivers.
  destruct (is_win32 host) eqn:Hw; cbn [negb]; [|intros []].
  destruct driverIds as [[|id ids]|]; try (intros []).
  set (l := id :: ids).
  unfold install_try, notify. js_run.
  repeat (first [ rewrite (restore_point_stage_run _ _ Hw)
                | rewrite cleanup_stage_run
                | rewrite parse_install_result_run
                | rewrite install_catch_run
                | split_match ];
          js_step);
    cbn [snd trace]; intros H; trace_cases H;
    try (subst e; exact I);
    try (subst e; split; [reflexivity|exists l; split; reflexivity]);
    try (subst e; right; reflexivity);
    try (destruct e; try exact I;
         [ left; eapply exec_in_restore_events; eassumption
         | exfalso; eapply write_in_restore_events; eassumption ]);
    try (destruct e; try exact I; exfalso;
         first [ eapply exec_in_cleanup_events; eassumption
               | eapply write_in_cleanup_events; eassumption
               | eapply exec_in_parse_events; eassumption
               | eapply write_in_parse_events; eassumption ]).
Qed.

Lemma checkDriverUpdates_commands host progressCallback command timeout :
  In (Exec command timeout)
     (trace (snd (checkDriverUpdates host progressCallback initial))) ->
  command = checkCommand.
Proof.
  unfold checkDriverUpdates.
  destruct (is_win32 host) eqn:Hw; cbn [negb]; [|intros []].
  unfold notify, parse_drivers. js_run.
  repeat (split_match; cbn [negb]; js_step);
    cbn [snd trace]; intros H; trace_cases H;
    now inversion H.
Qed.

(** C9, as stated, fails: the requested ids are substituted into the
    generated script as they are, between double quotes, and nothing
    checks their characters. An id that contains a double quote changes
    the array literal of the script: the single id [A","B] yields the very
    script of the two ids A and B, and updateDrivers writes and runs
    it. *)
Lemma C9_quote_in_id_changes_the_script :
  ["A" ++ dq ++ "," ++ dq ++ "B"] <> ["A"; "B"]
  /\ installScript ["A" ++ dq ++ "," ++ dq ++ "B"] = installScript ["A"; "B"]
  /\ In (WriteFile (scriptPath Demo.windows) (installScript ["A"; "B"]))
        (trace (snd (updateDrivers Demo.windows
                       (Some ["A" ++ dq ++ "," ++ dq ++ "B"]) None initial)))
  /\ In (Exec (installCommand Demo.windows) (Some 1800000%N))
        (trace (snd (updateDrivers Demo.windows
                       (Some ["A" ++ dq ++ "," ++ dq ++ "B"]) None initial))).
Proof.
  split; [discriminate|]. split; [reflexivity|].
  split; vm_compute; auto 10.
Qed.

(** C9, amended: no requested id ever appears in a command line. The only
    command lines updateDrivers and checkDriverUpdates hand to the shell
    are three texts fixed by the host alone (the restore-point command,
    the install command, which names the script file, and the detection
    command). The requested ids reach PowerShell through the generated
    script only: the one file written is the script path, and its content
    is the fixed script text with the ids substituted unchanged, each
    between double quotes and separated by commas. *)
Theorem C9_ids_are_passed_through_the_script_only host :
  (forall driverIds progressCallback command timeout,
      In (Exec command timeout)
         (trace (snd (updateDrivers host driverIds progressCallback initial))) ->
      In command [restoreCommand "Before Driver Updates"; installCommand host])
  /\ (forall progressCallback command timeout,
         In (Exec command timeout)
            (trace (snd (checkDriverUpdates host progressCallback initial))) ->
         command = checkCommand)
  /\ (forall driverIds progressCallback path data,
         In (WriteFile path data)
            (trace (snd (updateDrivers host driverIds progressCallback initial))) ->
         path = scriptPath host
         /\ exists ids,
             driverIds = Some ids
             /\ data = nl ++ "# Script to install selected driver updates" ++ nl
                       ++ "$TargetDriverIDs = @(" ++ join "," (map quoted ids) ++ ")" ++ nl
                       ++ unlines installScript_tail ++ nl).
Proof.
  split; [|split].
  - intros driverIds progressCallback command timeout H.
    apply updateDrivers_events in H. destruct H as [->| ->]; cbn [In]; auto.
  - intros progressCallback command timeout H.
    now apply checkDriverUpdates_commands in H.
  - intros driverIds progressCallback path data H.
    now apply updateDrivers_events in H.
Qed.

(** * Further properties

    Properties of the functions that the sections above do not reach:
    the service check, createRestorePoint, the failure paths of
    updateDrivers, the result line, the system updater on both platforms
    and parseUpdateList. *)

Ltac sys_run := unfold extend; js_run.

(** Runs every path of a computation, whatever the callback answers. *)
Ltac all_paths :=
  unfold notify; js_run;
  repeat (split_match; cbn [negb]; sys_run).

(** ** The service check *)

(** X1: checkWindowsUpdate never throws. On a platform other than Windows
    it starts no process and answers "Not Windows"; on Windows it starts
    the one process [sc query wuauserv], with a timeout of 5 seconds, and
    nothing else. The service is reported as available exactly when the
    platform is Windows, that process resolves and its output contains
    the word RUNNING. *)
Theorem checkWindowsUpdate_never_throws host s :
  exists status,
    checkWindowsUpdate host s
    = (Return status,
       extend s (if is_win32 host then [Exec "sc query wuauserv" (Some 5000%N)] else []))
    /\ (available status = true <->
        is_win32 host = true
        /\ exists stdout stderr,
            execPromise_answer host "sc query wuauserv" = Resolved stdout stderr
            /\ includes stdout "RUNNING" = true)
    /\ (is_win32 host = false -> reason status = "Not Windows").
Proof.
  unfold checkWindowsUpdate.
  destruct (is_win32 host); cbn [negb].
  - js_run.
    destruct (execPromise_answer host "sc query wuauserv") as [stdout stderr|m]; js_run.
    + eexists. split; [reflexivity|]. cbn [available reason]. split; [|discriminate].
      split.
      * intros H. split; [reflexivity|]. now exists stdout, stderr.
      * intros (_ & out & err & H & Hr). now inversion H; subst.
    + eexists. split; [reflexivity|]. cbn [available reason]. split; [|discriminate].
      split; [discriminate|]. intros (_ & out & err & H & _). discriminate H.
  - eexists. split; [now rewrite extend_nil|]. cbn [available reason].
    split; [|reflexivity]. split; [discriminate|]. intros [H _]. discriminate H.
Qed.

(** ** The restore point *)

(** X2: createRestorePoint returns normally exactly when the platform is
    Windows, its process resolves and the output contains the word
    SUCCESS. On another platform it throws "System restore points are only
    available on Windows" and leaves the store as it was. On Windows it
    starts exactly one process, with a timeout of 30 seconds, and every
    error it throws is "Could not create restore point: " followed by the
    cause: the message of the rejection, or "Failed to create restore
    point" when the output lacks the word. *)
Theorem createRestorePoint_outcome host description s :
  (fst (createRestorePoint host description s) = Return tt <->
   is_win32 host = true
   /\ exists stdout stderr,
       execPromise_answer host (restoreCommand description) = Resolved stdout stderr
       /\ includes stdout "SUCCESS" = true)
  /\ (is_win32 host = false ->
      createRestorePoint host description s
      = (Throw "System restore points are only available on Windows", s))
  /\ (is_win32 host = true ->
      snd (createRestorePoint host description s)
      = extend s [Exec (restoreCommand description) (Some 30000%N)]
      /\ forall message,
          fst (createRestorePoint host description s) = Throw message ->
          exists cause,
            message = "Could not create restore point: " ++ cause
            /\ (cause = "Failed to create restore point"
                \/ execPromise_answer host (restoreCommand description) = Rejected cause)).
Proof.
  unfold createRestorePoint.
  destruct (is_win32 host); cbn [negb].
  - js_run.
    destruct (execPromise_answer host (restoreCommand description)) as [stdout stderr|m];
      js_run.
    + destruct (includes stdout "SUCCESS") eqn:Hs; cbn [negb]; js_run; cbn [fst snd].
      * split; [|split; [discriminate|]].
        -- split; [intros _; split; [reflexivity|]; now exists stdout, stderr|reflexivity].
        -- intros _. split; [reflexivity|]. intros message H. discriminate H.
      * split; [|split; [discriminate|]].
        -- split; [discriminate|]. intros (_ & out & err & H & Hr).
           inversion H; subst. congruence.
        -- intros _. split; [reflexivity|]. intros message H. inversion H.
           eexists. split; [reflexivity|]. now left.
    + cbn [fst snd]. split; [|split; [discriminate|]].
      * split; [discriminate|]. intros (_ & out & err & H & _). discriminate H.
      * intros _. split; [reflexivity|]. intros message H. inversion H.
        eexists. split; [reflexivity|]. now right.
  - cbn [fst]. split; [|split; [reflexivity|discriminate]].
    split; [discriminate|]. intros [H _]. discriminate H.
Qed.

(** ** updateDrivers: when it throws, and its failure paths *)

(** X3: updateDrivers throws on a platform other than Windows and nowhere
    else. Off Windows the platform guard comes first: whatever the
    selection (an empty one included) the call throws "Driver updates are
    only available on Windows" and the store is as it was. On Windows the
    call returns a result for every selection, every host and every
    progress callback that returns normally or throws an [Error] (the
    callbacks of the model: the [catch] block reads [error.message], so a
    callback that throws [null] or a string is not covered); when the
    result is a failure its [failed] list is the whole selection. *)
Theorem updateDrivers_throws_only_off_windows host driverIds progressCallback s :
  (is_win32 host = false ->
   updateDrivers host driverIds progressCallback s
   = (Throw "Driver updates are only available on Windows", s))
  /\ (is_win32 host = true ->
      exists result s',
        updateDrivers host driverIds progressCallback s = (Return result, s')
        /\ (success_of result = false ->
            failed (data_of result)
            = match driverIds with Some ids => ids | None => [] end)).
Proof.
  split; intros Hw.
  - unfold updateDrivers. now rewrite Hw.
  - destruct driverIds as [[|id ids]|].
    + unfold updateDrivers. rewrite Hw. cbn [negb]. eexists. eexists.
      split; [reflexivity|]. reflexivity.
    + assert (Hne : id :: ids <> []) by discriminate.
      destruct (updateDrivers_shape host progressCallback (id :: ids) s Hw Hne)
        as (result & s' & Hrun & Hshape).
      exists result, s'. split; [exact Hrun|]. intros Hf.
      destruct Hshape as [(H & _)|(_ & H & _)]; [congruence|exact H].
    + unfold updateDrivers. rewrite Hw. cbn [negb]. eexists. eexists.
      split; [reflexivity|]. reflexivity.
Qed.



(** X5: a failure of the cleanup is not fatal. When the install process
    resolves and fs.unlink rejects, updateDrivers returns the same report
    as it would otherwise, writes one warning with the message of the
    rejection to the console, and the script file stays where it was
    written. *)
Theorem updateDrivers_cleanup_failure
  host progressCallback driverIds stdout stderr message :
  is_win32 host = true ->
  driverIds <> [] ->
  quiet progressCallback ->
  writeFile_answer host (scriptPath host) (installScript driverIds) = None ->
  execPromise_answer host (installCommand host) = Resolved stdout stderr ->
  unlink_answer host (scriptPath host) = Some message ->
  let run := updateDrivers host (Some driverIds) progressCallback initial in
  fst run = Return (report_of host driverIds stdout stderr)
  /\ files (snd run) !! scriptPath host = Some (installScript driverIds)
  /\ In (Console Warn ("[DRIVER_UPDATER] Failed to delete temp script: " ++ message))
        (trace (snd run)).
Proof.
  intros Hw Hne Hq Hwr He Hu. cbv zeta.
  rewrite (updateDrivers_resolved_run host progressCallback driverIds stdout stderr
             Hw Hne Hq Hwr He).
  cbn [fst snd files trace]. split; [reflexivity|]. split.
  - unfold cleanup_files. rewrite Hu. apply lookup_insert_eq.
  - unfold resolved_trace, cleanup_events. rewrite Hu.
    rewrite !in_app_iff. right. right. right. left. right. now left.
Qed.

Lemma updateDrivers_cleanup_failure_witness :
  let run := updateDrivers Demo.windows_locked (Some ["A"]) None initial in
  fst run
  = Return (Report true
              {| updated := ["A"]; failed := []; rebootRequired := false |}
              "Successfully updated 1 driver(s). " 2 "Succeeded")
  /\ files (snd run) !! scriptPath Demo.windows_locked = Some (installScript ["A"])
  /\ In (Console Warn
           "[DRIVER_UPDATER] Failed to delete temp script: EBUSY: resource busy or locked, unlink")
        (trace (snd run)).
Proof.
  assert (Hne : ["A"] <> @nil string) by discriminate.
  exact (updateDrivers_cleanup_failure Demo.windows_locked None ["A"]
           Demo.succeeded_stdout EmptyString "EBUSY: resource busy or locked, unlink"
           eq_refl Hne quiet_none eq_refl eq_refl eq_refl).
Defined.

(** ** updateDrivers: what a run leaves in the trace *)

Lemma in_restore_events host e :
  In e (restore_events host) ->
  e = Exec (restoreCommand "Before Driver Updates") (Some 30000%N)
  \/ exists text, e = Console Log text \/ e = Console Warn text.
Proof.
  unfold restore_events. intros [H|H]; [now left|]. right.
  destruct (execPromise_answer host (restoreCommand "Before Driver Updates"));
    [destruct (includes stdout "SUCCESS")|];
    destruct H as [H|[]]; subst e; eexists; eauto.
Qed.

Lemma in_cleanup_events host e :
  In e (cleanup_events host) ->
  e = Unlink (scriptPath host) \/ exists text, e = Console Log text \/ e = Console Warn text.
Proof.
  unfold cleanup_events. intros [H|H]; [now left|]. right.
  destruct (unlink_answer host (scriptPath host)); [|destruct H].
  destruct H as [H|[]]; subst e; eexists; eauto.
Qed.

Lemma in_parse_events host stdout e :
  In e (parse_events host stdout) ->
  exists text, e = Console Log text \/ e = Console Warn text.
Proof.
  unfold parse_events.
  destruct (ResultRegex.match_result stdout); [|intros []].
  destruct (JSON_parse_result host s); [|intros []].
  intros [H|[]]; subst e; eexists; eauto.
Qed.

Ltac install_event_of H :=
  first [ apply in_restore_events in H
        | apply in_cleanup_events in H
        | apply in_parse_events in H ];
  repeat match type of H with
         | _ \/ _ => destruct H as [H|H]
         | exists _, _ => destruct H as [? H]
         end;
  subst; cbn [install_event]; auto.

(** X6: whatever the host answers and whatever the progress callback does,
    a run of updateDrivers for the request [ids] leaves only these events
    behind. Every progress report has [total] equal to the number of
    requested ids plus 2 and [current] at most [total]. A process is the
    restore-point command with a timeout of 30 seconds or the install
    command with a timeout of 30 minutes; no process runs without a
    timeout. The only file written is the script file, with the script of
    the request, and the only file removed is the script file. *)
Theorem updateDrivers_trace_invariant host ids progressCallback e :
  In e (trace (snd (updateDrivers host (Some ids) progressCallback initial))) ->
  install_event host ids e.
Proof.
  unfold updateDrivers.
  destruct (is_win32 host) eqn:Hw; cbn [negb]; [|intros []].
  destruct ids as [|id ids]; try (intros []).
  set (l := id :: ids).
  unfold install_try, notify. js_run.
  repeat (first [ rewrite (restore_point_stage_run _ _ Hw)
                | rewrite cleanup_stage_run
                | rewrite parse_install_result_run
                | rewrite install_catch_run
                | split_match ];
          js_step);
    cbn [snd trace]; intros H; trace_cases H;
    try (subst e; cbn [install_event checkpoint total current progress];
         first [ exact I
               | split; reflexivity
               | now left
               | now right
               | split; [reflexivity|]; split; [eexists; split; [reflexivity|lia]|reflexivity] ]);
    try (install_event_of H).
Qed.

Lemma updateDrivers_trace_invariant_witness :
  install_event Demo.windows ["A"]
    (Progress (checkpoint "Driver updates completed" 3 ["A"])).
Proof.
  apply (updateDrivers_trace_invariant Demo.windows ["A"] Demo.closed_window).
  vm_compute. auto 20.
Defined.

(** ** The detection: when it throws *)

(** X7: on Windows checkDriverUpdates throws in one case only. The first
    report to the progress callback is made outside the [try] block: if
    the callback throws there, checkDriverUpdates throws the same error
    and no process has been started. In every other case it returns a
    result after starting exactly one process; a success carries
    [driversFound] equal to the length of [drivers] and the message built
    from that number, a failure carries an empty [drivers] list. *)
Theorem checkDriverUpdates_outcome host progressCallback s :
  is_win32 host = true ->
  (forall f message,
      progressCallback = Some f -> f scanning = Some message ->
      checkDriverUpdates host progressCallback s
      = (Throw message, extend s [Progress scanning]))
  /\ ((forall f, progressCallback = Some f -> f scanning = None) ->
      exists result s',
        checkDriverUpdates host progressCallback s = (Return result, s')
        /\ length (processes s') = length (processes s) + 1
        /\ match result with
           | CheckOk driversFound drivers message =>
               driversFound = length drivers /\ message = found_message driversFound
           | CheckFailed _ drivers => drivers = []
           end).
Proof.
  intros Hw. unfold checkDriverUpdates. rewrite Hw. cbn [negb]. split.
  - intros f message -> Hf. unfold notify, scanning in *. js_run. now rewrite Hf.
  - intros Hf. fold scanning.
    assert (Hn : notify progressCallback scanning s
                 = (Return tt, extend s (note progressCallback scanning))).
    { unfold notify, note. destruct progressCallback as [f|].
      - js_run. now rewrite (Hf f eq_refl).
      - now rewrite extend_nil. }
    js_run. rewrite Hn. sys_run.
    destruct (execPromise_answer host checkCommand) as [stdout stderr|m]; sys_run.
    + destruct (truthy stderr && negb (includes stderr "Searching")); sys_run;
        match goal with |- context [parse_drivers host stdout ?s0] =>
          destruct (parse_drivers_run host stdout s0) as (evs & Hp & Hx & _); rewrite Hp
        end;
        sys_run; eexists; eexists; (split; [reflexivity|]);
        (split; [|split; reflexivity]);
        unfold processes; cbn [trace]; rewrite !List.filter_app, Hx;
        rewrite !List.length_app; destruct progressCallback; cbn; lia.
    + eexists; eexists; (split; [reflexivity|]).
      split; [|reflexivity].
      unfold processes; cbn [trace]; rewrite !List.filter_app;
        rewrite !List.length_app; destruct progressCallback; cbn; lia.
Qed.

Lemma checkDriverUpdates_outcome_witness :
  is_win32 Demo.windows = true
  /\ checkDriverUpdates Demo.windows (Some (fun _ => Some "Object has been destroyed"))
       initial
     = (Throw "Object has been destroyed", extend initial [Progress scanning]).
Proof.
  split; [reflexivity|].
  exact (proj1 (checkDriverUpdates_outcome Demo.windows
                  (Some (fun _ => Some "Object has been destroyed")) initial eq_refl)
           (fun _ => Some "Object has been destroyed") "Object has been destroyed"
           eq_refl eq_refl).
Defined.
(** ** The result line

    What [stdout.match(/\{.*"ResultCode".*\}/)] gives to [JSON.parse]. *)

Section ResultLine.

Import ResultRegex.

Lemma from_first_some c s body :
  from_first c s = Some body ->
  exists pre rest, s = pre ++ body /\ body = String c rest.
Proof.
  induction s as [|d s IH]; cbn [from_first]; [discriminate|].
  destruct (Ascii.eqb_spec c d) as [->|Hne].
  - intros H. inversion H. now exists EmptyString, s.
  - intros H. destruct (IH H) as (pre & rest & -> & Hb).
    now exists (String d pre), rest.
Qed.

Lemma from_first_none c s : from_first c s = None <-> every (fun d => negb (Ascii.eqb c d)) s = true.
Proof.
  induction s as [|d s IH]; cbn [from_first every]; [tauto|].
  destruct (Ascii.eqb c d); cbn [negb andb]; [split; discriminate|exact IH].
Qed.

Lemma from_first_skip c pre s :
  every (fun d => negb (Ascii.eqb c d)) pre = true ->
  from_first c (pre ++ s) = from_first c s.
Proof.
  induction pre as [|d pre IH]; [reflexivity|].
  cbn [every]. rewrite andb_true_iff, negb_true_iff. intros [Hd Hp].
  rewrite append_cons. cbn [from_first]. now rewrite Hd, IH.
Qed.

Lemma from_first_last c x : from_first c (x ++ String c EmptyString) <> None.
Proof.
  induction x as [|d x IH].
  - rewrite append_nil_l. cbn [from_first]. now rewrite Ascii.eqb_refl.
  - rewrite append_cons. cbn [from_first]. now destruct (Ascii.eqb c d).
Qed.

Lemma drop_app n x t :
  n <= String.length x -> drop n (x ++ t) = drop n x ++ t.
Proof.
  revert x. induction n as [|n IH]; intros x Hn; [reflexivity|].
  destruct x as [|c x]; [cbn in Hn; lia|].
  rewrite append_cons. cbn [drop]. apply IH. cbn in Hn. lia.
Qed.

Lemma drop_all x t : drop (String.length x) (x ++ t) = t.
Proof. induction x as [|c x IH]; [now destruct t|]. exact IH. Qed.

Lemma after_sub_here needle s :
  String.prefix needle s = true ->
  after_sub needle s = Some (drop (String.length needle) s).
Proof. intros H. destruct s; cbn [after_sub]; now rewrite H. Qed.

Lemma after_sub_some needle s rest :
  after_sub needle s = Some rest -> exists a, s = a ++ needle ++ rest.
Proof.
  induction s as [|c s IH].
  - destruct (String.prefix needle EmptyString) eqn:Hp.
    + rewrite (after_sub_here _ _ Hp). intros H. inversion H as [Hr].
      destruct (prefix_split _ _ Hp) as [t Ht].
      exists EmptyString. rewrite append_nil_l.
      rewrite Ht at 2. rewrite drop_all. exact Ht.
    + cbn [after_sub]. rewrite Hp. discriminate.
  - destruct (String.prefix needle (String c s)) eqn:Hp.
    + rewrite (after_sub_here _ _ Hp). intros H. inversion H as [Hr].
      destruct (prefix_split _ _ Hp) as [t Ht].
      exists EmptyString. rewrite append_nil_l.
      rewrite Ht at 2. rewrite drop_all. exact Ht.
    + cbn [after_sub]. rewrite Hp.
      intros H. destruct (IH H) as [a ->]. now exists (String c a).
Qed.

Lemma after_sub_app needle a t :
  exists r0, after_sub needle (a ++ needle ++ t) = Some (r0 ++ t).
Proof.
  induction a as [|c a [r0 IH]].
  - exists EmptyString. rewrite !append_nil_l.
    rewrite after_sub_here by apply prefix_app. now rewrite drop_all.
  - destruct (String.prefix needle (String c a ++ needle ++ t)) eqn:Hp.
    + exists (drop (String.length needle) (String c a ++ needle)).
      rewrite (after_sub_here _ _ Hp).
      rewrite <- append_assoc.
      rewrite drop_app; [reflexivity|].
      rewrite length_app. lia.
    + exists r0. rewrite append_cons in *. cbn [after_sub]. now rewrite Hp.
Qed.

Lemma upto_last_head c d r m :
  upto_last c (String d r) = Some m -> exists m', m = String d m'.
Proof.
  cbn [upto_last]. destruct (upto_last c r).
  - intros H. inversion H. eauto.
  - destruct (Ascii.eqb c d); [|discriminate]. intros H. inversion H. eauto.
Qed.

Lemma upto_last_prefix c s m :
  upto_last c s = Some m -> exists m' post, m = m' ++ String c EmptyString /\ s = m ++ post.
Proof.
  revert m. induction s as [|d s IH]; intros m; cbn [upto_last]; [discriminate|].
  destruct (upto_last c s) as [p|].
  - intros H. inversion H. destruct (IH p eq_refl) as (m' & post & -> & ->).
    exists (String d m'), post. split; reflexivity.
  - destruct (Ascii.eqb_spec c d) as [->|]; [|discriminate].
    intros H. inversion H. exists EmptyString, s. split; reflexivity.
Qed.

Lemma upto_last_app c x y y' :
  upto_last c y = Some y' -> upto_last c (x ++ y) = Some (x ++ y').
Proof.
  intros H. induction x as [|d x IH]; [exact H|].
  rewrite !append_cons. cbn [upto_last]. now rewrite IH.
Qed.

Lemma upto_last_of_first c s : from_first c s <> None -> upto_last c s <> None.
Proof.
  induction s as [|d s IH]; cbn [from_first upto_last]; [auto|].
  destruct (upto_last c s); [discriminate|].
  destruct (Ascii.eqb c d); [discriminate|]. exact IH.
Qed.

Lemma upto_last_end c x :
  upto_last c (x ++ String c EmptyString) = Some (x ++ String c EmptyString).
Proof.
  induction x as [|d x IH].
  - rewrite append_nil_l. cbn [upto_last]. now rewrite Ascii.eqb_refl.
  - rewrite append_cons. cbn [upto_last]. now rewrite IH.
Qed.

Lemma match_line_some line m :
  match_line line = Some m ->
  String.prefix "{" m = true
  /\ includes m (quoted "ResultCode") = true
  /\ (exists m', m = m' ++ "}")
  /\ exists pre post, line = pre ++ m ++ post.
Proof.
  unfold match_line.
  destruct (from_first open_brace line) as [body|] eqn:Hb; [|discriminate].
  destruct (from_first_some _ _ _ Hb) as (pre & body1 & Hline & Hbody).
  subst body. cbn [drop].
  destruct (after_sub (quoted "ResultCode") body1) as [rest|] eqn:Ha; [|discriminate].
  destruct (after_sub_some _ _ _ Ha) as [a Hbody1].
  destruct (from_first close_brace rest) as [tail|] eqn:Hc; [|discriminate].
  intros Hm.
  assert (Hr : upto_last close_brace rest <> None).
  { apply upto_last_of_first. congruence. }
  destruct (upto_last close_brace rest) as [rest'|] eqn:Hr'; [|congruence].
  assert (Hm' : m = String open_brace (a ++ quoted "ResultCode" ++ rest')).
  { rewrite Hbody1 in Hm.
    assert (E : String open_brace (a ++ quoted "ResultCode" ++ rest)
                = (String open_brace a ++ quoted "ResultCode") ++ rest).
    { now rewrite append_assoc. }
    rewrite E in Hm. rewrite (upto_last_app _ _ _ _ Hr') in Hm.
    inversion Hm. now rewrite append_assoc. }
  destruct (upto_last_prefix _ _ _ Hm) as (m' & post & Hend & Hpost).
  split; [|split; [|split]].
  - rewrite Hm'. apply prefix_head.
  - rewrite Hm'. rewrite <- append_cons. apply includes_app.
  - now exists m'.
  - exists pre, post. rewrite Hline. now rewrite Hpost at 1.
Qed.

Lemma first_match_some lines m :
  first_match lines = Some m -> exists line, In line lines /\ match_line line = Some m.
Proof.
  induction lines as [|l lines IH]; cbn [first_match]; [discriminate|].
  destruct (match_line l) as [m0|] eqn:Hl.
  - intros H. inversion H; subst. exists l. split; [now left|exact Hl].
  - intros H. destruct (IH H) as (line & Hin & Hm). exists line. split; [now right|exact Hm].
Qed.

Lemma split_lines_dots acc s :
  every Regex.dot acc = true -> Forall (fun line => every Regex.dot line = true) (split_lines acc s).
Proof.
  revert acc. induction s as [|c s IH]; intros acc Hacc; cbn [split_lines].
  - now constructor.
  - destruct (is_newline c) eqn:Hc.
    + constructor; [exact Hacc|]. now apply IH.
    + apply IH. rewrite every_app, Hacc. cbn [every]. unfold Regex.dot. now rewrite Hc.
Qed.

(** X8: whenever updateDrivers finds a result line, the text it hands to
    [JSON.parse] begins with an opening brace, ends with a closing brace,
    contains the quoted word ResultCode and has no line break in it. *)
Theorem result_line_shape stdout jsonMatch :
  match_result stdout = Some jsonMatch ->
  String.prefix "{" jsonMatch = true
  /\ (exists text, jsonMatch = text ++ "}")
  /\ includes jsonMatch (quoted "ResultCode") = true
  /\ every Regex.dot jsonMatch = true.
Proof.
  unfold match_result. intros H.
  destruct (first_match_some _ _ H) as (line & Hin & Hm).
  destruct (match_line_some _ _ Hm) as (H1 & H2 & H3 & pre & post & Hline).
  split; [exact H1|]. split; [exact H3|]. split; [exact H2|].
  pose proof (split_lines_dots EmptyString stdout eq_refl) as Hd.
  rewrite List.Forall_forall in Hd. specialize (Hd line Hin).
  rewrite Hline, !every_app in Hd.
  apply andb_true_iff in Hd. destruct Hd as [_ Hd].
  apply andb_true_iff in Hd. now destruct Hd.
Qed.

Lemma result_line_shape_witness :
  match_result Demo.succeeded_stdout = Some Demo.succeeded_line
  /\ String.prefix "{" Demo.succeeded_line = true
  /\ includes Demo.succeeded_line (quoted "ResultCode") = true.
Proof.
  split; [reflexivity|].
  destruct (result_line_shape Demo.succeeded_stdout Demo.succeeded_line eq_refl)
    as (H1 & _ & H2 & _).
  split; [exact H1|exact H2].
Defined.

Lemma split_lines_app acc j rest :
  every Regex.dot j = true -> split_lines acc (j ++ rest) = split_lines (acc ++ j) rest.
Proof.
  revert acc. induction j as [|c j IH]; intros acc Hj.
  - now rewrite append_nil_l, append_nil_r.
  - cbn [every] in Hj. apply andb_true_iff in Hj. destruct Hj as [Hc Hj].
    unfold Regex.dot in Hc. apply negb_true_iff in Hc.
    rewrite append_cons. cbn [split_lines]. rewrite Hc.
    rewrite (IH _ Hj). now rewrite append_assoc.
Qed.

Lemma match_line_json acc a b :
  every no_brace acc = true ->
  match_line (acc ++ "{" ++ a ++ quoted "ResultCode" ++ b ++ "}")
  = Some ("{" ++ a ++ quoted "ResultCode" ++ b ++ "}").
Proof.
  intros Hacc. unfold match_line.
  rewrite (from_first_skip _ _ _ Hacc).
  change ("{" ++ a ++ quoted "ResultCode" ++ b ++ "}")
    with (String open_brace (a ++ quoted "ResultCode" ++ b ++ "}")).
  cbn [from_first]. rewrite Ascii.eqb_refl. cbn [drop].
  destruct (after_sub_app (quoted "ResultCode") a (b ++ "}")) as [r0 Hr0].
  rewrite Hr0.
  assert (Hc : from_first close_brace (r0 ++ b ++ "}") <> None).
  { rewrite <- append_assoc. apply from_first_last. }
  destruct (from_first close_brace (r0 ++ b ++ "}")); [|congruence].
  assert (E : String open_brace (a ++ quoted "ResultCode" ++ b ++ "}")
              = (String open_brace (a ++ quoted "ResultCode" ++ b)) ++ "}").
  { rewrite append_cons. now rewrite !append_assoc. }
  rewrite E. apply upto_last_end.
Qed.

Lemma match_line_no_brace line : every no_brace line = true -> match_line line = None.
Proof.
  intros H. unfold match_line.
  now rewrite (proj2 (from_first_none open_brace line) H).
Qed.

Lemma first_match_json acc pre a b rest :
  every no_brace acc = true -> every no_brace pre = true ->
  every Regex.dot ("{" ++ a ++ quoted "ResultCode" ++ b ++ "}") = true ->
  (rest = EmptyString \/ exists c r, rest = String c r /\ is_newline c = true) ->
  first_match (split_lines acc (pre ++ ("{" ++ a ++ quoted "ResultCode" ++ b ++ "}") ++ rest))
  = Some ("{" ++ a ++ quoted "ResultCode" ++ b ++ "}").
Proof.
  intros Hacc Hpre Hj Hrest. revert acc Hacc.
  induction pre as [|c pre IH]; intros acc Hacc.
  - rewrite append_nil_l, (split_lines_app _ _ _ Hj).
    destruct Hrest as [->|(c & r & -> & Hc)]; cbn [split_lines]; [|rewrite Hc];
      cbn [first_match]; now rewrite (match_line_json _ _ _ Hacc).
  - cbn [every] in Hpre. apply andb_true_iff in Hpre. destruct Hpre as [Hc Hpre].
    rewrite append_cons. cbn [split_lines].
    destruct (is_newline c).
    + cbn [first_match]. rewrite (match_line_no_brace _ Hacc). now apply IH.
    + apply IH; [exact Hpre|]. rewrite every_app, Hacc. cbn [every]. now rewrite Hc.
Qed.

(** X9: the result object is found. If the output of the install process
    consists of log text without an opening brace, then an object in
    ASCII that mentions "ResultCode", written on one line from its opening
    brace to its closing brace, then the end of the output or a line feed
    or carriage return, the pattern matches that object entire, whatever
    follows. *)
Theorem result_line_found pre a b rest :
  every no_brace pre = true ->
  ascii_text a = true ->
  ascii_text b = true ->
  every Regex.dot ("{" ++ a ++ quoted "ResultCode" ++ b ++ "}") = true ->
  (rest = EmptyString \/ exists c r, rest = String c r /\ is_newline c = true) ->
  match_result (pre ++ ("{" ++ a ++ quoted "ResultCode" ++ b ++ "}") ++ rest)
  = Some ("{" ++ a ++ quoted "ResultCode" ++ b ++ "}").
Proof.
  intros Hpre _ _ Hj Hrest. unfold match_result. now apply first_match_json.
Qed.

Lemma result_line_found_witness :
  match_result
    (("=== Installing driver updates ===" ++ nl ++ "Installation Result Code: 2" ++ nl)
     ++ ("{" ++ (quoted "UpdateCount" ++ ":1,") ++ quoted "ResultCode"
         ++ (":2," ++ quoted "RebootRequired" ++ ":false") ++ "}")
     ++ nl)
  = Some ("{" ++ (quoted "UpdateCount" ++ ":1,") ++ quoted "ResultCode"
          ++ (":2," ++ quoted "RebootRequired" ++ ":false") ++ "}").
Proof.
  apply (result_line_found
           ("=== Installing driver updates ===" ++ nl ++ "Installation Result Code: 2" ++ nl)
           (quoted "UpdateCount" ++ ":1,")
           (":2," ++ quoted "RebootRequired" ++ ":false") nl).
  - reflexivity.
  - reflexivity.
  - reflexivity.
  - reflexivity.
  - right. exists (ascii_of_nat 10), EmptyString. split; reflexivity.
Defined.

End ResultLine.

(** ** The script and the request *)

Lemma quote_split x y r1 r2 :
  quote_free x = true -> quote_free y = true ->
  x ++ dq ++ r1 = y ++ dq ++ r2 -> x = y /\ r1 = r2.
Proof.
  unfold quote_free. revert y.
  induction x as [|c x IH]; intros [|d y]; simpl; intros Hx Hy H.
  - inversion H. auto.
  - inversion H; subst d. rewrite Ascii.eqb_refl in Hy. discriminate Hy.
  - inversion H; subst c. rewrite Ascii.eqb_refl in Hx. discriminate Hx.
  - inversion H; subst d.
    apply andb_true_iff in Hx, Hy. destruct Hx as [_ Hx]. destruct Hy as [_ Hy].
    destruct (IH y Hx Hy H2) as [-> ->]. auto.
Qed.

Lemma join_cons sep x xs :
  join sep (x :: xs)
  = x ++ match xs with [] => EmptyString | _ :: _ => sep ++ join sep xs end.
Proof.
  unfold join. destruct xs; cbn [String.concat]; [|reflexivity].
  induction x as [|c x IH]; [reflexivity|].
  change (String c x ++ EmptyString) with (String c (x ++ EmptyString)). congruence.
Qed.

Lemma filter_injective a b rest :
  Forall (fun id => quote_free id = true) a ->
  Forall (fun id => quote_free id = true) b ->
  driverIdsFilter a ++ String ")" rest = driverIdsFilter b ++ String ")" rest ->
  a = b.
Proof.
  unfold driverIdsFilter. intros Ha. revert b.
  induction Ha as [|x a Hx Ha IH]; intros b Hb H.
  - destruct Hb as [|y b Hy Hb]; [reflexivity|].
    cbn [map] in H. rewrite join_cons in H. unfold quoted in H.
    simpl in H. inversion H.
  - destruct Hb as [|y b Hy Hb].
    + cbn [map] in H. rewrite join_cons in H. unfold quoted in H.
      simpl in H. inversion H.
    + cbn [map] in H. rewrite !join_cons in H. unfold quoted in H.
      rewrite !append_assoc in H.
      apply append_inj_l in H.
      apply quote_split in H; [|assumption|assumption].
      destruct H as [-> H]. f_equal.
      destruct a as [|x' a]; destruct b as [|y' b]; cbn [map] in H.
      * reflexivity.
      * simpl in H. inversion H.
      * simpl in H. inversion H.
      * apply IH; [exact Hb|].
        rewrite !append_assoc in H. cbn [map].
        change ("," ++ join "," (quoted x' :: map quoted a) ++ String ")" rest)
          with (String "," (join "," (quoted x' :: map quoted a) ++ String ")" rest)) in H.
        change ("," ++ join "," (quoted y' :: map quoted b) ++ String ")" rest)
          with (String "," (join "," (quoted y' :: map quoted b) ++ String ")" rest)) in H.
        now inversion H.
Qed.

(** X10: for ids without a double quote the generated script determines
    the request: two selections that yield the same install script are the
    same list, in the same order. *)
Theorem installScript_injective a b :
  Forall (fun id => quote_free id = true) a ->
  Forall (fun id => quote_free id = true) b ->
  installScript a = installScript b -> a = b.
Proof.
  intros Ha Hb H. unfold installScript in H.
  apply append_inj_l in H. apply append_inj_l in H. apply append_inj_l in H.
  apply append_inj_l in H.
  now apply (filter_injective a b (nl ++ unlines installScript_tail ++ nl)).
Qed.

Lemma installScript_injective_witness :
  installScript ["A"; "B"] <> installScript ["A,B"].
Proof.
  intros H.
  apply (installScript_injective ["A"; "B"] ["A,B"]) in H.
  - discriminate H.
  - repeat constructor.
  - repeat constructor.
Defined.

(** ** The protocol of the install script *)

Lemma result_text_agrees code :
  InstallScript.ResultText code = resultText_of code.
Proof.
  unfold InstallScript.ResultText, resultText_of, RESULT_CODES.
  destruct code as [|p|p]; try reflexivity.
  destruct p as [[[p|p|]|[p|p|]|]|[[p|p|]|[p|p|]|]|]; reflexivity.
Qed.

(** X11: the order of the install script. The installer is invoked only
    on a non-empty collection that the downloader was given before and for
    which the download reported code 2. The script prints a result object
    only after the installer has returned; then its exit status is the
    printed result code, the printed result text is the text updateDrivers
    derives from that code, and the printed count is the number of printed
    titles, which are the titles of the installed collection. On every
    path on which nothing is printed the exit status is 4. *)
Theorem install_script_protocol TargetDriverIDs agent :
  let script := InstallScript.run TargetDriverIDs agent in
  (forall target,
      In (InstallScript.Installing target) (InstallScript.steps script) ->
      target <> []
      /\ In (InstallScript.Downloading target) (InstallScript.steps script)
      /\ InstallScript.Download agent target = Some 2%Z)
  /\ (InstallScript.printed script = None -> InstallScript.exit_status script = 4%Z)
  /\ (forall p,
         InstallScript.printed script = Some p ->
         InstallScript.exit_status script = InstallScript.printed_ResultCode p
         /\ InstallScript.printed_ResultText p
            = resultText_of (InstallScript.printed_ResultCode p)
         /\ InstallScript.printed_UpdateCount p
            = length (InstallScript.printed_UpdatedDrivers p)
         /\ exists target,
             In (InstallScript.Installing target) (InstallScript.steps script)
             /\ InstallScript.printed_UpdatedDrivers p = map InstallScript.Title target).
Proof.
  cbv zeta. unfold InstallScript.run.
  destruct (InstallScript.Search agent) as [available|];
    [|split; [intros ? []|split; [reflexivity|intros ? H; discriminate H]]].
  destruct (InstallScript.UpdatesToInstall TargetDriverIDs available) as [|u us] eqn:Hu;
    [split; [intros ? []|split; [reflexivity|intros ? H; discriminate H]]|].
  cbn [length Nat.eqb].
  destruct (InstallScript.Download agent (u :: us)) as [code|] eqn:Hd.
  - assert (Hnot : code <> 2%Z ->
              forall r : InstallScript.Run,
                r = {| InstallScript.steps := [InstallScript.Downloading (u :: us)];
                       InstallScript.exit_status := 4;
                       InstallScript.printed := None |} ->
                (forall target,
                    In (InstallScript.Installing target) (InstallScript.steps r) ->
                    target <> []
                    /\ In (InstallScript.Downloading target) (InstallScript.steps r)
                    /\ InstallScript.Download agent target = Some 2%Z)
                /\ (InstallScript.printed r = None -> InstallScript.exit_status r = 4%Z)
                /\ (forall p,
                       InstallScript.printed r = Some p ->
                       InstallScript.exit_status r = InstallScript.printed_ResultCode p
                       /\ InstallScript.printed_ResultText p
                          = resultText_of (InstallScript.printed_ResultCode p)
                       /\ InstallScript.printed_UpdateCount p
                          = length (InstallScript.printed_UpdatedDrivers p)
                       /\ exists target,
                           In (InstallScript.Installing target) (InstallScript.steps r)
                           /\ InstallScript.printed_UpdatedDrivers p
                              = map InstallScript.Title target)).
    { intros _ r ->. cbn. split; [intros ? [H|[]]; discriminate H|].
      split; [reflexivity|intros ? H; discriminate H]. }
    destruct code as [|p|p]; try (apply Hnot; [discriminate|reflexivity]).
    destruct p as [p|[p|p|]|]; try (apply Hnot; [discriminate|reflexivity]).
    clear Hnot.
    destruct (InstallScript.Install agent (u :: us)) as [[code reboot]|]; cbn.
    + split; [|split; [intros H; discriminate H|]].
      * intros target [H|[H|[]]]; [discriminate H|]. inversion H; subst target.
        split; [discriminate|]. split; [now left|exact Hd].
      * intros p H. inversion H; subst p. cbn.
        split; [reflexivity|]. split; [apply result_text_agrees|].
        split; [now rewrite List.length_map|].
        exists (u :: us). split; [right; now left|reflexivity].
    + split; [|split; [reflexivity|intros ? H; discriminate H]].
      intros target [H|[H|[]]]; [discriminate H|]. inversion H; subst target.
      split; [discriminate|]. split; [now left|exact Hd].
  - cbn. split; [intros ? [H|[]]; discriminate H|].
    split; [reflexivity|intros ? H; discriminate H].
Qed.

(** ** The updateDrivers without selection *)

(** X12: the updateDrivers without selection reports the last checkpoint
    before it records the outcome, so on Windows its result is exclusive
    for every progress callback that returns normally or throws an
    [Error] (the callbacks of the model: the [catch] block reads
    [error.message], so a callback that throws [null] is not covered): a
    success has the whole request in [updated] and nothing in [failed], a
    failure has the whole request in [failed] and nothing in [updated].
    With a callback that returns normally the result is a success whenever
    the process resolves, whatever it printed. *)
Theorem updateDrivers_all_exclusive host driverIds progressCallback s :
  is_win32 host = true ->
  (exists result s',
      DriverUpdaterAll.updateDrivers host driverIds progressCallback s = (Return result, s')
      /\ match result with
         | DriverUpdaterAll.Updated data _ => updated data = driverIds /\ failed data = []
         | DriverUpdaterAll.Failure _ data => updated data = [] /\ failed data = driverIds
         end)
  /\ (quiet progressCallback ->
      forall stdout stderr,
        execPromise_answer host DriverUpdaterAll.installAllCommand = Resolved stdout stderr ->
        exists message,
          fst (DriverUpdaterAll.updateDrivers host driverIds progressCallback s)
          = Return (DriverUpdaterAll.Updated
                      {| updated := driverIds; failed := [];
                         rebootRequired := includes stdout "Reboot Required: True" |}
                      message)).
Proof.
  intros Hw. unfold DriverUpdaterAll.updateDrivers. rewrite Hw. cbn [negb]. split.
  - all_paths; eexists; eexists; (split; [reflexivity|]); split; reflexivity.
  - intros Hq stdout stderr He. js_run.
    rewrite (notify_quiet _ _ _ Hq). sys_run. rewrite He. sys_run.
    rewrite (notify_quiet _ _ _ Hq). sys_run. eexists. reflexivity.
Qed.

Lemma updateDrivers_all_exclusive_witness :
  exists message,
    fst (DriverUpdaterAll.updateDrivers Demo.windows ["A"] None initial)
    = Return (DriverUpdaterAll.Updated
                {| updated := ["A"]; failed := []; rebootRequired := false |} message).
Proof.
  exact (proj2 (updateDrivers_all_exclusive Demo.windows ["A"] None initial eq_refl)
           quiet_none "SUCCESS" EmptyString eq_refl).
Defined.

(** ** parseUpdateList *)

Lemma split_nonempty sep s : split sep s <> [].
Proof.
  destruct s as [|c s]; cbn [split]; [discriminate|].
  destruct (Ascii.eqb c sep); [discriminate|].
  destruct (split sep s); discriminate.
Qed.

Lemma split_app sep a b :
  split sep (a ++ String sep b) = (split sep a ++ split sep b)%list.
Proof.
  induction a as [|c a IH]; simpl.
  - now rewrite Ascii.eqb_refl.
  - destruct (Ascii.eqb c sep); [now rewrite IH|].
    rewrite IH. destruct (split sep a) eqn:Ha; [now apply split_nonempty in Ha|].
    reflexivity.
Qed.

Lemma split_one sep s :
  every (fun c => negb (Ascii.eqb c sep)) s = true -> split sep s = [s].
Proof.
  induction s as [|c s IH]; simpl; [reflexivity|].
  rewrite andb_true_iff, negb_true_iff. intros [Hc Hs].
  now rewrite Hc, (IH Hs).
Qed.

Lemma fold_push_update lines updates :
  fold_left SystemUpdater.push_update lines updates
  = (updates ++ flat_map (SystemUpdater.push_update []) lines)%list.
Proof.
  revert updates. induction lines as [|line lines IH]; intros updates; cbn [fold_left flat_map].
  - now rewrite List.app_nil_r.
  - rewrite IH. rewrite List.app_assoc. f_equal.
    unfold SystemUpdater.push_update.
    destruct (startsWith (trim line) "*"); [|now rewrite List.app_nil_r].
    destruct (SystemUpdater.match_update line); [reflexivity|now rewrite List.app_nil_r].
Qed.

Lemma parseUpdateList_flat_map stdout :
  SystemUpdater.parseUpdateList stdout
  = flat_map (SystemUpdater.push_update []) (split (ascii_of_nat 10) stdout).
Proof. unfold SystemUpdater.parseUpdateList. now rewrite fold_push_update. Qed.

(** X13: parseUpdateList works line by line: the updates read from two
    texts joined by a line feed are the updates of the first followed by
    the updates of the second. *)
Theorem parseUpdateList_app a b :
  SystemUpdater.parseUpdateList (a ++ nl ++ b)
  = (SystemUpdater.parseUpdateList a ++ SystemUpdater.parseUpdateList b)%list.
Proof.
  rewrite !parseUpdateList_flat_map.
  change (a ++ nl ++ b) with (a ++ String (ascii_of_nat 10) b).
  rewrite split_app. apply List.flat_map_app.
Qed.

Lemma blank_is_space c : blank c = true -> is_space c = true.
Proof.
  unfold blank. rewrite orb_true_iff, !Ascii.eqb_eq. intros [->| ->]; reflexivity.
Qed.

Lemma blank_not_star c : blank c = true -> Regex.char "*" c = false.
Proof.
  unfold blank. rewrite orb_true_iff, !Ascii.eqb_eq. intros [->| ->]; reflexivity.
Qed.

Lemma blank_not_lf c : blank c = true -> Ascii.eqb c (ascii_of_nat 10) = false.
Proof.
  unfold blank. rewrite orb_true_iff, !Ascii.eqb_eq. intros [->| ->]; reflexivity.
Qed.

Lemma dot_not_lf c : Regex.dot c = true -> Ascii.eqb c (ascii_of_nat 10) = false.
Proof.
  unfold Regex.dot, ResultRegex.is_newline. rewrite negb_true_iff, orb_false_iff.
  now intros [H _].
Qed.

Lemma match_here_many class rest c s :
  Regex.match_here (Regex.Many class :: rest) (String c s)
  = if class c
    then match Regex.match_here (Regex.Many class :: rest) s with
         | Some (m :: ms) => Some (String c m :: ms)
         | _ => option_map (cons (String c EmptyString)) (Regex.match_here rest s)
         end
    else None.
Proof. reflexivity. Qed.

Lemma match_dots t :
  t <> EmptyString -> every Regex.dot t = true ->
  Regex.match_here [Regex.Many Regex.dot] t = Some [t].
Proof.
  induction t as [|c t IH]; [congruence|]. intros _.
  simpl every. rewrite andb_true_iff. intros [Hc Ht].
  rewrite match_here_many, Hc.
  destruct t as [|d t]; [reflexivity|].
  rewrite IH; [reflexivity|discriminate|exact Ht].
Qed.

Lemma match_gap gap c t :
  gap <> EmptyString -> every Regex.space gap = true ->
  Regex.space c = false -> every Regex.dot (String c t) = true ->
  Regex.match_here [Regex.Many Regex.space; Regex.Many Regex.dot] (gap ++ String c t)
  = Some [gap; String c t].
Proof.
  intros Hne Hgap Hc Ht.
  induction gap as [|g gap IH]; [congruence|].
  simpl every in Hgap. apply andb_true_iff in Hgap. destruct Hgap as [Hg Hgap].
  change (String g gap ++ String c t) with (String g (gap ++ String c t)).
  rewrite match_here_many, Hg.
  destruct gap as [|g' gap].
  - change (EmptyString ++ String c t) with (String c t).
    rewrite (match_here_many Regex.space), Hc.
    rewrite match_dots; [reflexivity|discriminate|exact Ht].
  - rewrite IH; [reflexivity|discriminate|exact Hgap].
Qed.

Lemma search_skip items c s :
  Regex.match_here items (String c s) = None ->
  Regex.search items (String c s) = Regex.search items s.
Proof. intros H. simpl. now rewrite H. Qed.

Lemma search_found items s texts :
  Regex.match_here items s = Some texts -> Regex.search items s = Some texts.
Proof. intros H. destruct s; simpl; now rewrite H. Qed.

Lemma match_update_star_line indent gap title :
  every blank indent = true ->
  gap <> EmptyString -> every blank gap = true ->
  title <> EmptyString -> trim title = title -> every Regex.dot title = true ->
  SystemUpdater.match_update (indent ++ "*" ++ gap ++ title) = Some title.
Proof.
  intros Hi Hg Hgap Ht Htrim Hdot.
  unfold SystemUpdater.match_update.
  assert (Hs : Regex.search SystemUpdater.update_line (indent ++ "*" ++ gap ++ title)
               = Some ["*"; gap; title]).
  { induction indent as [|c indent IH].
    - apply search_found.
      destruct title as [|c t]; [congruence|].
      change (EmptyString ++ "*" ++ gap ++ String c t)
        with (String "*" (gap ++ String c t)).
      unfold SystemUpdater.update_line.
      change (Regex.match_here
                (Regex.One (Regex.char "*")
                 :: [Regex.Many Regex.space; Regex.Many Regex.dot])
                (String "*" (gap ++ String c t)))
        with (option_map (cons "*")
                (Regex.match_here [Regex.Many Regex.space; Regex.Many Regex.dot]
                   (gap ++ String c t))).
      rewrite match_gap; [reflexivity|exact Hg| | |exact Hdot].
      + revert Hgap. apply every_impl. exact blank_is_space.
      + now apply trimmed_head with (r := t).
    - simpl every in Hi. apply andb_true_iff in Hi. destruct Hi as [Hc Hi].
      change (String c indent ++ "*" ++ gap ++ title)
        with (String c (indent ++ "*" ++ gap ++ title)).
      rewrite search_skip; [now apply IH|].
      unfold SystemUpdater.update_line.
      change (Regex.match_here
                (Regex.One (Regex.char "*")
                 :: [Regex.Many Regex.space; Regex.Many Regex.dot])
                (String c (indent ++ "*" ++ gap ++ title)))
        with (if Regex.char "*" c
              then option_map (cons (String c EmptyString))
                     (Regex.match_here [Regex.Many Regex.space; Regex.Many Regex.dot]
                        (indent ++ "*" ++ gap ++ title))
              else None).
      now rewrite (blank_not_star _ Hc). }
  now rewrite Hs.
Qed.

Lemma startsWith_star_line indent rest :
  every blank indent = true ->
  startsWith (trim (indent ++ "*" ++ rest)) "*" = true.
Proof.
  intros Hi. unfold trim.
  rewrite trimStart_blank by (revert Hi; apply every_impl; exact blank_is_space).
  change ("*" ++ rest) with (String "*" rest).
  rewrite trimStart_cons by reflexivity.
  rewrite trimEnd_cons by reflexivity.
  unfold startsWith. now destruct (trimEnd rest).
Qed.

(** X14: a star line gives one update. A line made of an indentation of
    spaces and TABs (possibly none), a star, at least one space or TAB,
    and a title in ASCII that is not empty, has no white space at either
    end and no line break, is read as exactly one update with that title
    and the description "macOS System Update". *)
Theorem parseUpdateList_star_line indent gap title :
  every blank indent = true ->
  gap <> EmptyString -> every blank gap = true ->
  title <> EmptyString -> ascii_text title = true ->
  trim title = title -> every Regex.dot title = true ->
  SystemUpdater.parseUpdateList (indent ++ "*" ++ gap ++ title)
  = [SystemUpdater.update_of title].
Proof.
  intros Hi Hg Hgap Ht _ Htrim Hdot.
  rewrite parseUpdateList_flat_map, split_one.
  - cbn [flat_map]. rewrite List.app_nil_r.
    unfold SystemUpdater.push_update.
    rewrite startsWith_star_line by exact Hi.
    rewrite match_update_star_line by assumption.
    now rewrite Htrim.
  - rewrite !every_app. rewrite !andb_true_iff. repeat split.
    + revert Hi. apply every_impl. intros c H. now rewrite (blank_not_lf _ H).
    + revert Hgap. apply every_impl. intros c H. now rewrite (blank_not_lf _ H).
    + revert Hdot. apply every_impl. intros c H. now rewrite (dot_not_lf _ H).
Qed.

Lemma parseUpdateList_star_line_witness :
  SystemUpdater.parseUpdateList ("   " ++ "*" ++ " " ++ "Label: Safari17.1-17.1")
  = [JObj [("title", JStr "Label: Safari17.1-17.1");
           ("description", JStr "macOS System Update")]].
Proof.
  apply (parseUpdateList_star_line "   " " " "Label: Safari17.1-17.1");
    first [reflexivity | discriminate].
Defined.

Lemma push_update_shape line :
  SystemUpdater.push_update [] line = []
  \/ exists title,
      SystemUpdater.push_update [] line = [SystemUpdater.update_of title]
      /\ trim title = title
      /\ startsWith (trim line) "*" = true.
Proof.
  unfold SystemUpdater.push_update.
  destruct (startsWith (trim line) "*"); [|now left].
  destruct (SystemUpdater.match_update line) as [group|]; [|now left].
  right. exists (trim group). split; [reflexivity|]. split; [apply trim_idem|reflexivity].
Qed.

(** X15: whatever the text, every update that parseUpdateList returns has
    the two fields [title] and [description], the description is "macOS
    System Update" and the title has no white space at either end; and
    there are at most as many updates as there are lines that begin with a
    star once trimmed. In particular a text without such a line gives no
    update. *)
Theorem parseUpdateList_shape stdout :
  Forall (fun u => exists title, u = SystemUpdater.update_of title /\ trim title = title)
         (SystemUpdater.parseUpdateList stdout)
  /\ length (SystemUpdater.parseUpdateList stdout) <= length (star_lines stdout).
Proof.
  rewrite parseUpdateList_flat_map. unfold star_lines.
  induction (split (ascii_of_nat 10) stdout) as [|line lines [IH1 IH2]];
    cbn [flat_map List.filter]; [split; [constructor|reflexivity]|].
  destruct (push_update_shape line) as [H|(title & H & Ht & Hs)]; rewrite H.
  - split; [exact IH1|].
    destruct (startsWith (trim line) "*"); cbn [app length]; lia.
  - rewrite Hs. split.
    + constructor; [now exists title|exact IH1].
    + cbn [app length]. lia.
Qed.

(** ** The system updater: detection *)

Lemma try_catch_return {A} (body : M A) handler s a s' :
  body s = (Return a, s') -> try_catch body handler s = (Return a, s').
Proof. intros H. unfold try_catch. now rewrite H. Qed.

Lemma checkSystemUpdates_darwin host progressCallback s :
  platform host = "darwin" ->
  SystemUpdater.checkSystemUpdates host progressCallback s
  = try_catch (SystemUpdater.checkMacOSUpdates host progressCallback)
      (fun error => ret (SystemUpdater.CheckFailed error)) s.
Proof. intros H. unfold SystemUpdater.checkSystemUpdates. now rewrite H. Qed.

Lemma checkSystemUpdates_win32 host progressCallback s :
  platform host = "win32" ->
  SystemUpdater.checkSystemUpdates host progressCallback s
  = try_catch (SystemUpdater.checkWindowsUpdates host progressCallback)
      (fun error => ret (SystemUpdater.CheckFailed error)) s.
Proof. intros H. unfold SystemUpdater.checkSystemUpdates. now rewrite H. Qed.

Lemma checkMacOSUpdates_resolved host progressCallback stdout stderr s :
  quiet progressCallback ->
  execPromise_answer host "softwareupdate -l" = Resolved stdout stderr ->
  SystemUpdater.checkMacOSUpdates host progressCallback s
  = (Return (if includes stdout "No new software available"
             then SystemUpdater.CheckOk false 0 [] "Your system is up to date"
             else SystemUpdater.CheckOk true
                    (length (SystemUpdater.parseUpdateList stdout))
                    (SystemUpdater.parseUpdateList stdout)
                    (dec (N.of_nat (length (SystemUpdater.parseUpdateList stdout)))
                     ++ " update(s) available")),
     extend s
       (note progressCallback (SystemUpdater.stage "Checking for macOS updates..." 30)
        ++ [Exec "softwareupdate -l" None]
        ++ note progressCallback
             (SystemUpdater.stage
                (if includes stdout "No new software available"
                 then "System is up to date" else "Updates found") 100))).
Proof.
  intros Hq He. unfold SystemUpdater.checkMacOSUpdates. js_run.
  rewrite (notify_quiet _ _ _ Hq). sys_run. rewrite He. sys_run.
  destruct (includes stdout "No new software available"); cbn [negb];
    rewrite (notify_quiet _ _ _ Hq); sys_run; trace_normal; reflexivity.
Qed.

Lemma checkMacOSUpdates_rejected host progressCallback message s :
  quiet progressCallback ->
  execPromise_answer host "softwareupdate -l" = Rejected message ->
  SystemUpdater.checkMacOSUpdates host progressCallback s
  = (Return (SystemUpdater.CheckFailed message),
     extend s
       (note progressCallback (SystemUpdater.stage "Checking for macOS updates..." 30)
        ++ [Exec "softwareupdate -l" None])).
Proof.
  intros Hq He. unfold SystemUpdater.checkMacOSUpdates. js_run.
  rewrite (notify_quiet _ _ _ Hq). sys_run. rewrite He. sys_run.
  trace_normal. reflexivity.
Qed.

(** X16: on macOS checkSystemUpdates reads the answer from the standard
    output of [softwareupdate -l] alone and starts that one process,
    without a timeout. If the output contains "No new software available"
    the result is success with no update; otherwise it is success with
    [available] true and the list of parseUpdateList, however many that
    are, also none, and whatever the process wrote to its standard error.
    If the process is rejected the result is the failure with the message
    of the rejection. *)
Theorem checkSystemUpdates_macos host progressCallback :
  platform host = "darwin" ->
  quiet progressCallback ->
  (forall stdout stderr,
      execPromise_answer host "softwareupdate -l" = Resolved stdout stderr ->
      includes stdout "No new software available" = true ->
      fst (SystemUpdater.checkSystemUpdates host progressCallback initial)
      = Return (SystemUpdater.CheckOk false 0 [] "Your system is up to date"))
  /\ (forall stdout stderr,
         execPromise_answer host "softwareupdate -l" = Resolved stdout stderr ->
         includes stdout "No new software available" = false ->
         fst (SystemUpdater.checkSystemUpdates host progressCallback initial)
         = Return (SystemUpdater.CheckOk true
                     (length (SystemUpdater.parseUpdateList stdout))
                     (SystemUpdater.parseUpdateList stdout)
                     (dec (N.of_nat (length (SystemUpdater.parseUpdateList stdout)))
                      ++ " update(s) available")))
  /\ (forall message,
         execPromise_answer host "softwareupdate -l" = Rejected message ->
         fst (SystemUpdater.checkSystemUpdates host progressCallback initial)
         = Return (SystemUpdater.CheckFailed message))
  /\ processes (snd (SystemUpdater.checkSystemUpdates host progressCallback initial))
     = [Exec "softwareupdate -l" None].
Proof.
  intros Hp Hq.
  rewrite (checkSystemUpdates_darwin _ _ _ Hp).
  destruct (execPromise_answer host "softwareupdate -l") as [out err|m] eqn:He.
  - rewrite (try_catch_return _ _ _ _ _
               (checkMacOSUpdates_resolved host progressCallback out err initial Hq He)).
    cbn [fst snd]. split; [|split; [|split]].
    + intros stdout stderr H Hi. inversion H; subst. now rewrite Hi.
    + intros stdout stderr H Hi. inversion H; subst. now rewrite Hi.
    + intros message H. discriminate H.
    + unfold processes, extend, note. cbn [trace initial].
      destruct progressCallback; reflexivity.
  - rewrite (try_catch_return _ _ _ _ _
               (checkMacOSUpdates_rejected host progressCallback m initial Hq He)).
    cbn [fst snd]. split; [|split; [|split]].
    + intros stdout stderr H. discriminate H.
    + intros stdout stderr H. discriminate H.
    + intros message H. now inversion H.
    + unfold processes, extend, note. cbn [trace initial].
      destruct progressCallback; reflexivity.
Qed.

Lemma checkSystemUpdates_macos_witness :
  fst (SystemUpdater.checkSystemUpdates
         (Demo.mac Demo.no_update_stdout "No new software available.") None initial)
  = Return (SystemUpdater.CheckOk true 0 [] "0 update(s) available").
Proof.
  destruct (checkSystemUpdates_macos
              (Demo.mac Demo.no_update_stdout "No new software available.") None
              eq_refl quiet_none) as (_ & H & _).
  exact (H Demo.no_update_stdout "No new software available." eq_refl eq_refl).
Defined.

Lemma checkWindowsUpdates_run host progressCallback s :
  quiet progressCallback ->
  SystemUpdater.checkWindowsUpdates host progressCallback s
  = match execPromise_answer host SystemUpdater.checkCommand with
    | Resolved stdout _ =>
        match JSON_parse host (or_else stdout "[]") with
        | inr value =>
            (Return (SystemUpdater.CheckOk
                       (0 <? length (as_array value))%nat (length (as_array value))
                       (as_array value)
                       (if (0 <? length (as_array value))%nat
                        then dec (N.of_nat (length (as_array value))) ++ " update(s) available"
                        else "Your system is up to date")),
             extend s
               (note progressCallback
                  (SystemUpdater.stage "Checking for Windows updates..." 30)
                ++ [Exec SystemUpdater.checkCommand None]
                ++ note progressCallback (SystemUpdater.stage "Updates found" 100)))
        | inl syntaxError =>
            (Return (SystemUpdater.CheckFailed syntaxError),
             extend s
               (note progressCallback
                  (SystemUpdater.stage "Checking for Windows updates..." 30)
                ++ [Exec SystemUpdater.checkCommand None]))
        end
    | Rejected message =>
        (Return (SystemUpdater.CheckFailed message),
         extend s
           (note progressCallback
              (SystemUpdater.stage "Checking for Windows updates..." 30)
            ++ [Exec SystemUpdater.checkCommand None]))
    end.
Proof.
  intros Hq. unfold SystemUpdater.checkWindowsUpdates. js_run.
  rewrite (notify_quiet _ _ _ Hq). sys_run.
  destruct (execPromise_answer host SystemUpdater.checkCommand) as [stdout stderr|m];
    sys_run; [|trace_normal; reflexivity].
  destruct (JSON_parse host (or_else stdout "[]")) as [e|v]; sys_run;
    [trace_normal; reflexivity|].
  rewrite (notify_quiet _ _ _ Hq). sys_run. trace_normal. reflexivity.
Qed.

(** X17: on Windows checkSystemUpdates starts its one detection process,
    without a timeout. If the process is rejected, or if its output (or
    [[]] in place of an empty output) does not parse, the result is the
    failure with the message of the error: a parse error is not swallowed
    here. If the output parses, the result is success with the parsed
    array, or the one-element list of a parsed value that is not an array,
    and [available] says whether that list is non-empty. *)
Theorem checkSystemUpdates_windows host progressCallback :
  platform host = "win32" ->
  quiet progressCallback ->
  (forall message,
      execPromise_answer host SystemUpdater.checkCommand = Rejected message ->
      fst (SystemUpdater.checkSystemUpdates host progressCallback initial)
      = Return (SystemUpdater.CheckFailed message))
  /\ (forall stdout stderr syntaxError,
         execPromise_answer host SystemUpdater.checkCommand = Resolved stdout stderr ->
         JSON_parse host (or_else stdout "[]") = inl syntaxError ->
         fst (SystemUpdater.checkSystemUpdates host progressCallback initial)
         = Return (SystemUpdater.CheckFailed syntaxError))
  /\ (forall stdout stderr value,
         execPromise_answer host SystemUpdater.checkCommand = Resolved stdout stderr ->
         JSON_parse host (or_else stdout "[]") = inr value ->
         fst (SystemUpdater.checkSystemUpdates host progressCallback initial)
         = Return (SystemUpdater.CheckOk (0 <? length (as_array value))%nat
                     (length (as_array value)) (as_array value)
                     (updates_message (length (as_array value)))))
  /\ processes (snd (SystemUpdater.checkSystemUpdates host progressCallback initial))
     = [Exec SystemUpdater.checkCommand None].
Proof.
  intros Hp Hq.
  rewrite (checkSystemUpdates_win32 _ _ _ Hp).
  unfold try_catch. rewrite (checkWindowsUpdates_run _ _ _ Hq).
  destruct (execPromise_answer host SystemUpdater.checkCommand) as [out err|m].
  - destruct (JSON_parse host (or_else out "[]")) as [e|v] eqn:Hj; cbn [fst snd];
      (split; [|split; [|split]]);
      try (intros ? H; discriminate H);
      try (intros ? ? ? H H'; inversion H; subst; rewrite Hj in H';
           first [discriminate H' | inversion H'; subst; reflexivity]);
      unfold processes, extend, note; cbn [trace initial];
      destruct progressCallback; reflexivity.
  - cbn [fst snd]. split; [|split; [|split]];
      try (intros ? H; inversion H; subst; reflexivity);
      try (intros ? ? ? H; discriminate H);
      unfold processes, extend, note; cbn [trace initial];
      destruct progressCallback; reflexivity.
Qed.

Lemma checkSystemUpdates_windows_witness :
  fst (SystemUpdater.checkSystemUpdates
         (Demo.machine "win32" "not json" (Rejected EmptyString)) None initial)
  = Return (SystemUpdater.CheckFailed "Unexpected token in JSON").
Proof.
  destruct (checkSystemUpdates_windows
              (Demo.machine "win32" "not json" (Rejected EmptyString)) None
              eq_refl quiet_none) as (_ & H & _).
  exact (H "not json" EmptyString "Unexpected token in JSON" eq_refl eq_refl).
Defined.

(** X18: on a platform that is neither macOS nor Windows both entry
    points of the system updater return the failure "System updates not
    supported on this platform"; they do not throw, they start no
    process and they do not call the progress callback. *)
Theorem system_updater_unsupported_platform host progressCallback s :
  platform host <> "darwin" -> platform host <> "win32" ->
  SystemUpdater.checkSystemUpdates host progressCallback s
  = (Return (SystemUpdater.CheckFailed "System updates not supported on this platform"), s)
  /\ SystemUpdater.installSystemUpdates host progressCallback s
     = (Return (SystemUpdater.InstallFailed "System updates not supported on this platform"),
        s).
Proof.
  intros Hd Hw. apply String.eqb_neq in Hd, Hw.
  unfold SystemUpdater.checkSystemUpdates, SystemUpdater.installSystemUpdates.
  rewrite Hd, Hw. split; reflexivity.
Qed.

Lemma system_updater_unsupported_platform_witness :
  SystemUpdater.checkSystemUpdates Demo.linux None initial
  = (Return (SystemUpdater.CheckFailed "System updates not supported on this platform"),
     initial)
  /\ SystemUpdater.installSystemUpdates Demo.linux None initial
     = (Return (SystemUpdater.InstallFailed "System updates not supported on this platform"),
        initial).
Proof.
  apply (system_updater_unsupported_platform Demo.linux None initial); discriminate.
Defined.

(** X19: in every success that checkSystemUpdates returns, on any platform
    and with any progress callback, [count] is the length of [updates];
    when [available] is false the list is empty; and on Windows
    [available] is true exactly when [count] is positive. *)
Theorem checkSystemUpdates_count
  host progressCallback s available count updates message :
  fst (SystemUpdater.checkSystemUpdates host progressCallback s)
  = Return (SystemUpdater.CheckOk available count updates message) ->
  count = length updates
  /\ (available = false -> updates = [])
  /\ (platform host = "win32" -> available = (0 <? count)%nat).
Proof.
  unfold SystemUpdater.checkSystemUpdates.
  destruct (String.eqb_spec (platform host) "darwin") as [Hd|Hd];
    [|destruct (String.eqb_spec (platform host) "win32") as [Hw|Hw]];
    unfold SystemUpdater.checkMacOSUpdates, SystemUpdater.checkWindowsUpdates;
    all_paths; cbn [fst]; intros H; inversion H; subst; clear H;
    (split; [reflexivity|]; split; [intros Ha|intros Hp]);
    try reflexivity; try discriminate; try congruence.
  all: match goal with
       | H : (0 <? length ?l)%nat = false |- ?l = [] =>
           destruct l; [reflexivity|discriminate H]
       end.
Qed.

Lemma checkSystemUpdates_count_witness :
  2 = length [JObj []; JObj []]
  /\ true = (0 <? 2)%nat.
Proof.
  destruct (checkSystemUpdates_count
              (Demo.machine "win32" "[{},{}]" (Rejected EmptyString)) None initial
              true 2 [JObj []; JObj []] "2 update(s) available" eq_refl)
    as (H1 & _ & H2).
  split; [exact H1|exact (H2 eq_refl)].
Defined.

(** ** The system updater: installation *)

Lemma digits_step radix dig acc c s :
  SystemUpdater.digits radix dig acc (String c s)
  = match dig c with
    | Some d =>
        SystemUpdater.digits radix dig
          (Some (match acc with Some a => a * radix + d | None => d end)%Z) s
    | None => acc
    end.
Proof. reflexivity. Qed.

Lemma digits_of_uint_acc d p :
  SystemUpdater.digits 10 SystemUpdater.digit (Some (Zpos p)) (NilEmpty.string_of_uint d)
  = Some (Zpos (Pos.of_uint_acc d p)).
Proof.
  revert p. induction d as [|d IH|d IH|d IH|d IH|d IH|d IH|d IH|d IH|d IH|d IH];
    intros p; [reflexivity|..];
    cbn [NilEmpty.string_of_uint Pos.of_uint_acc]; rewrite digits_step;
    match goal with
    | |- context [SystemUpdater.digit ?c] =>
        let v := eval vm_compute in (SystemUpdater.digit c) in
        change (SystemUpdater.digit c) with v
    end;
    cbv iota beta; rewrite <- IH; do 2 f_equal; lia.
Qed.

Lemma digits_of_uint_zero d :
  SystemUpdater.digits 10 SystemUpdater.digit (Some 0%Z) (NilEmpty.string_of_uint d)
  = Some (Z.of_N (Pos.of_uint d)).
Proof.
  induction d as [|d IH|d IH|d IH|d IH|d IH|d IH|d IH|d IH|d IH|d IH];
    [reflexivity|..];
    cbn [NilEmpty.string_of_uint Pos.of_uint]; rewrite digits_step;
    match goal with
    | |- context [SystemUpdater.digit ?c] =>
        let v := eval vm_compute in (SystemUpdater.digit c) in
        change (SystemUpdater.digit c) with v
    end;
    cbv iota beta;
    first [ exact IH | apply digits_of_uint_acc ].
Qed.

Lemma digits_of_uint d :
  d <> Decimal.Nil ->
  SystemUpdater.digits 10 SystemUpdater.digit None (NilEmpty.string_of_uint d)
  = Some (Z.of_N (Pos.of_uint d)).
Proof.
  destruct d; [congruence|..]; intros _;
    cbn [NilEmpty.string_of_uint Pos.of_uint]; rewrite digits_step;
    match goal with
    | |- context [SystemUpdater.digit ?c] =>
        let v := eval vm_compute in (SystemUpdater.digit c) in
        change (SystemUpdater.digit c) with v
    end;
    cbv iota beta;
    first [ apply digits_of_uint_zero | apply digits_of_uint_acc ].
Qed.

Lemma to_uint_nonnil n : N.to_uint n <> Decimal.Nil.
Proof.
  destruct n as [|p]; [discriminate|]. apply DecimalPos.Unsigned.to_uint_nonnil.
Qed.

Lemma dec_head n :
  exists c rest, dec n = String c rest /\ SystemUpdater.digit c <> None.
Proof.
  unfold dec. pose proof (to_uint_nonnil n) as H.
  destruct (N.to_uint n); [congruence|..];
    cbn [NilEmpty.string_of_uint]; eexists; eexists; (split; [reflexivity|]);
    vm_compute; discriminate.
Qed.

Lemma digit_not_space c : SystemUpdater.digit c <> None -> is_space c = false.
Proof.
  unfold SystemUpdater.digit, is_space.
  destruct ((48 <=? nat_of_ascii c)%nat && (nat_of_ascii c <=? 57)%nat) eqn:H;
    [|congruence].
  intros _. apply andb_true_iff in H. destruct H as [H1 H2].
  apply Nat.leb_le in H1, H2.
  apply orb_false_iff. split.
  - apply andb_false_iff. right. apply Nat.leb_gt. lia.
  - apply Nat.eqb_neq. lia.
Qed.

Lemma every_digit_uint d :
  every (fun c => negb (is_space c)) (NilEmpty.string_of_uint d) = true.
Proof. induction d; cbn; auto. Qed.

Lemma trim_dec n ws : every is_space ws = true -> trim (dec n ++ ws) = dec n.
Proof.
  intros Hws. unfold trim.
  destruct (dec_head n) as (c & rest & Hd & Hc).
  assert (Hts : trimStart (dec n ++ ws) = dec n ++ ws).
  { rewrite Hd. change (String c rest ++ ws) with (String c (rest ++ ws)).
    apply trimStart_cons. now apply digit_not_space. }
  rewrite Hts. apply trimEnd_app; [|exact Hws].
  unfold dec. apply every_digit_uint.
Qed.

Lemma unsigned_int_uint d :
  d <> Decimal.Nil ->
  SystemUpdater.unsigned_int (NilEmpty.string_of_uint d) = Some (Z.of_N (Pos.of_uint d)).
Proof.
  intros Hd. unfold SystemUpdater.unsigned_int.
  assert (H : String.prefix "0x" (NilEmpty.string_of_uint d)
              || String.prefix "0X" (NilEmpty.string_of_uint d) = false).
  { destruct d as [|d|d|d|d|d|d|d|d|d|d]; try reflexivity. destruct d; reflexivity. }
  rewrite H. now apply digits_of_uint.
Qed.

Lemma parseInt_uint d :
  d <> Decimal.Nil ->
  SystemUpdater.parseInt (NilEmpty.string_of_uint d) = Some (Z.of_N (Pos.of_uint d)).
Proof.
  intros Hd. rewrite <- (unsigned_int_uint d Hd).
  unfold SystemUpdater.parseInt.
  destruct d; [congruence|..]; reflexivity.
Qed.

Lemma parseInt_dec n : SystemUpdater.parseInt (dec n) = Some (Z.of_N n).
Proof.
  unfold dec. rewrite parseInt_uint by apply to_uint_nonnil.
  change (Pos.of_uint (N.to_uint n)) with (N.of_uint (N.to_uint n)).
  now rewrite DecimalN.Unsigned.of_to.
Qed.

Lemma installWindowsUpdates_run host progressCallback s :
  quiet progressCallback ->
  SystemUpdater.installWindowsUpdates host progressCallback s
  = match execPromise_answer host SystemUpdater.installCommand with
    | Resolved stdout _ =>
        (Return (SystemUpdater.Installed
                   (match SystemUpdater.parseInt (trim stdout) with
                    | Some 3%Z => true
                    | _ => false
                    end)
                   (restart_message
                      (match SystemUpdater.parseInt (trim stdout) with
                       | Some 3%Z => true
                       | _ => false
                       end))),
         extend s
           (note progressCallback (SystemUpdater.stage "Installing Windows updates..." 10)
            ++ note progressCallback
                 (SystemUpdater.stage "Downloading and installing updates..." 30)
            ++ [Exec SystemUpdater.installCommand (Some 1800000%N)]
            ++ note progressCallback
                 (SystemUpdater.stage "Updates installed successfully" 100)))
    | Rejected message =>
        (Return (SystemUpdater.InstallFailed message),
         extend s
           (note progressCallback (SystemUpdater.stage "Installing Windows updates..." 10)
            ++ note progressCallback
                 (SystemUpdater.stage "Downloading and installing updates..." 30)
            ++ [Exec SystemUpdater.installCommand (Some 1800000%N)]))
    end.
Proof.
  intros Hq. unfold SystemUpdater.installWindowsUpdates, restart_message. js_run.
  rewrite (notify_quiet _ _ _ Hq). sys_run.
  rewrite (notify_quiet _ _ _ Hq). sys_run.
  destruct (execPromise_answer host SystemUpdater.installCommand) as [stdout stderr|m];
    sys_run; [|trace_normal; reflexivity].
  rewrite (notify_quiet _ _ _ Hq). sys_run. trace_normal. reflexivity.
Qed.

Lemma installMacOSUpdates_run host progressCallback s :
  quiet progressCallback ->
  SystemUpdater.installMacOSUpdates host progressCallback s
  = match execPromise_answer host "softwareupdate -i -a" with
    | Resolved stdout stderr =>
        (Return (SystemUpdater.Installed
                   (includes stdout "restart" || includes stderr "restart")
                   (restart_message
                      (includes stdout "restart" || includes stderr "restart"))),
         extend s
           (note progressCallback (SystemUpdater.stage "Installing macOS updates..." 10)
            ++ note progressCallback
                 (SystemUpdater.stage "Downloading and installing updates..." 30)
            ++ [Exec "softwareupdate -i -a" (Some 600000%N)]
            ++ note progressCallback
                 (SystemUpdater.stage "Updates installed successfully" 100)))
    | Rejected message =>
        (Return (SystemUpdater.InstallFailed message),
         extend s
           (note progressCallback (SystemUpdater.stage "Installing macOS updates..." 10)
            ++ note progressCallback
                 (SystemUpdater.stage "Downloading and installing updates..." 30)
            ++ [Exec "softwareupdate -i -a" (Some 600000%N)]))
    end.
Proof.
  intros Hq. unfold SystemUpdater.installMacOSUpdates, restart_message. js_run.
  rewrite (notify_quiet _ _ _ Hq). sys_run.
  rewrite (notify_quiet _ _ _ Hq). sys_run.
  destruct (execPromise_answer host "softwareupdate -i -a") as [stdout stderr|m];
    sys_run; [|trace_normal; reflexivity].
  rewrite (notify_quiet _ _ _ Hq). sys_run. trace_normal. reflexivity.
Qed.

Lemma installSystemUpdates_darwin host progressCallback s :
  platform host = "darwin" ->
  SystemUpdater.installSystemUpdates host progressCallback s
  = try_catch (SystemUpdater.installMacOSUpdates host progressCallback)
      (fun error => ret (SystemUpdater.InstallFailed error)) s.
Proof. intros H. unfold SystemUpdater.installSystemUpdates. now rewrite H. Qed.

Lemma installSystemUpdates_win32 host progressCallback s :
  platform host = "win32" ->
  SystemUpdater.installSystemUpdates host progressCallback s
  = try_catch (SystemUpdater.installWindowsUpdates host progressCallback)
      (fun error => ret (SystemUpdater.InstallFailed error)) s.
Proof. intros H. unfold SystemUpdater.installSystemUpdates. now rewrite H. Qed.

Lemma is_three z :
  match z with 3%Z => true | _ => false end = Z.eqb z 3.
Proof.
  destruct z as [|p|p]; reflexivity.
Qed.

(** X20: the result code that the install script of installWindowsUpdates
    prints is read back. When the process resolves with the decimal text
    of a code, followed by any white space, installSystemUpdates on
    Windows sets [requiresRestart] for code 3 and for no other code, and
    it reports the installation as a success for every code, the codes 4
    (failed) and 5 (aborted) included. *)
Theorem installSystemUpdates_reads_result_code host progressCallback code ws stderr :
  platform host = "win32" ->
  quiet progressCallback ->
  every is_space ws = true ->
  execPromise_answer host SystemUpdater.installCommand = Resolved (dec code ++ ws) stderr ->
  fst (SystemUpdater.installSystemUpdates host progressCallback initial)
  = Return (SystemUpdater.Installed (N.eqb code 3) (restart_message (N.eqb code 3))).
Proof.
  intros Hp Hq Hws He.
  rewrite (installSystemUpdates_win32 _ _ _ Hp).
  unfold try_catch. rewrite (installWindowsUpdates_run _ _ _ Hq), He. cbn [fst].
  rewrite (trim_dec _ _ Hws), parseInt_dec, is_three.
  replace (Z.of_N code =? 3)%Z with (N.eqb code 3); [reflexivity|].
  destruct (N.eqb_spec code 3) as [->|Hne]; [reflexivity|].
  symmetry. apply Z.eqb_neq. lia.
Qed.

Lemma installSystemUpdates_reads_result_code_witness :
  fst (SystemUpdater.installSystemUpdates
         (Demo.machine "win32" ("4" ++ String (ascii_of_nat 13) nl) (Rejected EmptyString))
         None initial)
  = Return (SystemUpdater.Installed false "Updates installed successfully").
Proof.
  exact (installSystemUpdates_reads_result_code
           (Demo.machine "win32" ("4" ++ String (ascii_of_nat 13) nl) (Rejected EmptyString))
           None 4%N (String (ascii_of_nat 13) nl) EmptyString
           eq_refl quiet_none eq_refl eq_refl).
Defined.

(** X21: on macOS installSystemUpdates starts the one process
    [softwareupdate -i -a] with a timeout of 10 minutes. When it resolves
    the result is a success, with [requiresRestart] true exactly when the
    word "restart" occurs in the standard output or in the standard error;
    when it is rejected the result is the failure with the message of the
    rejection. *)
Theorem installSystemUpdates_macos host progressCallback :
  platform host = "darwin" ->
  quiet progressCallback ->
  (forall stdout stderr,
      execPromise_answer host "softwareupdate -i -a" = Resolved stdout stderr ->
      fst (SystemUpdater.installSystemUpdates host progressCallback initial)
      = Return (SystemUpdater.Installed
                  (includes stdout "restart" || includes stderr "restart")
                  (restart_message (includes stdout "restart" || includes stderr "restart"))))
  /\ (forall message,
         execPromise_answer host "softwareupdate -i -a" = Rejected message ->
         fst (SystemUpdater.installSystemUpdates host progressCallback initial)
         = Return (SystemUpdater.InstallFailed message))
  /\ processes (snd (SystemUpdater.installSystemUpdates host progressCallback initial))
     = [Exec "softwareupdate -i -a" (Some 600000%N)].
Proof.
  intros Hp Hq.
  rewrite (installSystemUpdates_darwin _ _ _ Hp).
  unfold try_catch. rewrite (installMacOSUpdates_run _ _ _ Hq).
  destruct (execPromise_answer host "softwareupdate -i -a") as [out err|m];
    cbn [fst snd]; (split; [|split]);
    try (intros ? ? H; inversion H; subst; reflexivity);
    try (intros ? H; inversion H; subst; reflexivity);
    try (intros ? ? H; discriminate H);
    try (intros ? H; discriminate H);
    unfold processes, extend, note; cbn [trace initial];
    destruct progressCallback; reflexivity.
Qed.

Lemma installSystemUpdates_macos_witness :
  fst (SystemUpdater.installSystemUpdates
         (Demo.mac "Done." "You have installed one or more updates that requires that you restart your computer.")
         None initial)
  = Return (SystemUpdater.Installed true
              "Updates installed. Please restart your computer to complete the installation.").
Proof.
  destruct (installSystemUpdates_macos
              (Demo.mac "Done." "You have installed one or more updates that requires that you restart your computer.")
              None eq_refl quiet_none) as (H & _).
  exact (H "Done." "You have installed one or more updates that requires that you restart your computer."
           eq_refl).
Defined.

(** ** The system updater: callbacks that throw *)

Ltac system_events :=
  repeat (constructor; [first [exact I | eexists; split; [reflexivity|lia]]|]);
  try constructor.

Ltac returns_with_events :=
  eexists; eexists; split; [reflexivity|]; split; [reflexivity|];
  cbn [trace]; rewrite <- ?List.app_assoc;
  first [ eexists; split; [reflexivity|]; split; [cbn; lia|cbn [app]; system_events]
        | exists []; split; [now rewrite List.app_nil_r|]; split;
          [cbn; lia|constructor] ].

(** X22: checkSystemUpdates and installSystemUpdates do not throw when
    the progress callback returns normally or throws an [Error] (the
    callbacks of the model: the [catch] blocks read [error.message], so a
    callback that throws [null] is not covered): on every platform and
    for every answer of the host they return a result. A run leaves the
    files as they were and adds to the trace nothing but progress reports
    with a percentage of at most 100 and at most one start of a
    process. *)
Theorem system_updater_always_returns host progressCallback s :
  (exists result s',
      SystemUpdater.checkSystemUpdates host progressCallback s = (Return result, s')
      /\ files s' = files s
      /\ exists evs, trace s' = (trace s ++ evs)%list
                     /\ length (List.filter is_exec evs) <= 1
                     /\ Forall system_event evs)
  /\ (exists result s',
         SystemUpdater.installSystemUpdates host progressCallback s = (Return result, s')
         /\ files s' = files s
         /\ exists evs, trace s' = (trace s ++ evs)%list
                        /\ length (List.filter is_exec evs) <= 1
                        /\ Forall system_event evs).
Proof.
  unfold SystemUpdater.checkSystemUpdates, SystemUpdater.installSystemUpdates.
  destruct (String.eqb (platform host) "darwin");
    [|destruct (String.eqb (platform host) "win32")];
    (split;
     [ unfold SystemUpdater.checkMacOSUpdates, SystemUpdater.checkWindowsUpdates
     | unfold SystemUpdater.installMacOSUpdates, SystemUpdater.installWindowsUpdates ];
     all_paths; returns_with_events).
Qed.
